(** * steam_bot_api: identity resolution, profile aggregation, digest

    A shallow embedding of [src/bot/steam_bot_api.py]:
    [resolve_steam_id], [fetch_steam_profile], [simplify_steam_profile]
    and [llm_message], together with the fragment of the Python runtime
    these four functions exercise, followed by the properties of the
    pipeline.

    Modelling conventions.
    - A Python [str] is a list of Unicode code points ([ustr]).
    - The objects the program handles come out of [resp.json()]; they are
      the terms of [value].  JSON numbers are integers (the fields the
      program computes with, [playtime_forever] and [timecreated], are
      integers on the wire); fractional numbers are outside the model.
    - A computation that may raise returns an [outcome]; a computation that
      also talks to the network or the logger is an [io] action over a
      [world] that records every request sent and every record logged.
    - The remote services are an oracle [net]: the answer to the [n]-th
      request of a run.  Theorems quantify over every oracle. *)

From Stdlib Require Import Ascii String List ZArith NArith Bool Lia.
From Stdlib Require Import Permutation Sorted.
Import ListNotations.

Set Implicit Arguments.
Set Warnings "-register-all".

Local Open Scope Z_scope.

(* ================================================================== *)
(** ** Python strings *)

(** A [str]: its code points, in order. *)
Definition ustr := list N.

(** Reading a UTF-8 encoded literal of this file as a [str]. *)
Fixpoint utf8_decode (bs : list N) : ustr :=
  match bs with
  | [] => []
  | b0 :: r0 =>
      if (b0 <? 192)%N then b0 :: utf8_decode r0
      else match r0 with
      | [] => [b0]
      | b1 :: r1 =>
          if (b0 <? 224)%N
          then ((b0 - 192) * 64 + (b1 - 128))%N :: utf8_decode r1
          else match r1 with
          | [] => [b0; b1]
          | b2 :: r2 =>
              if (b0 <? 240)%N
              then ((b0 - 224) * 4096 + (b1 - 128) * 64 + (b2 - 128))%N
                     :: utf8_decode r2
              else match r2 with
              | [] => [b0; b1; b2]
              | b3 :: r3 =>
                  ((b0 - 240) * 262144 + (b1 - 128) * 4096
                   + (b2 - 128) * 64 + (b3 - 128))%N :: utf8_decode r3
              end
          end
      end
  end.

Definition U (s : string) : ustr :=
  utf8_decode (map N_of_ascii (list_ascii_of_string s)).

Definition ustr_eq_dec : forall a b : ustr, {a = b} + {a <> b} :=
  list_eq_dec N.eq_dec.

Definition ustr_eqb (a b : ustr) : bool :=
  if ustr_eq_dec a b then true else false.

(** [a < b] on [str]: lexicographic on code points. *)
Fixpoint ustr_ltb (a b : ustr) : bool :=
  match a, b with
  | _, [] => false
  | [], _ :: _ => true
  | x :: a', y :: b' =>
      if (x <? y)%N then true
      else if (y <? x)%N then false
      else ustr_ltb a' b'
  end.

(** [sep.join(parts)] when every part is already known to be a [str]. *)
Fixpoint join (sep : ustr) (parts : list ustr) : ustr :=
  match parts with
  | [] => []
  | [p] => p
  | p :: rest => p ++ sep ++ join sep rest
  end.

(** Decimal digits of a natural number, most significant first. *)
Fixpoint digits_fuel (fuel : nat) (n : N) (acc : ustr) : ustr :=
  match fuel with
  | O => acc
  | S fuel' =>
      let acc' := (48 + n mod 10)%N :: acc in
      if (n <? 10)%N then acc' else digits_fuel fuel' (n / 10)%N acc'
  end.

Definition digits (n : N) : ustr :=
  digits_fuel (S (N.to_nat (N.log2 n))) n [].

(** [str(n)] for a Python [int]. *)
Definition str_int (z : Z) : ustr :=
  if z <? 0 then U "-" ++ digits (Z.to_N (- z)) else digits (Z.to_N z).

(** A number printed on at least two columns ([%m], [%d]). *)
Definition two_digits (n : N) : ustr :=
  if (n <? 10)%N then U "0" ++ digits n else digits n.

(* ================================================================== *)
(** ** Python objects and exceptions *)

(** What [resp.json()] can return, and what the program builds from it. *)
Inductive value : Type :=
| VNone
| VBool (b : bool)
| VInt (z : Z)
| VStr (s : ustr)
| VList (items : list value)
| VDict (items : list (ustr * value)).

(** The exception classes met on these paths.  All of them derive from
    [Exception]; the program never dispatches on the class. *)
Inductive exn : Type :=
| AttributeError | KeyError | IndexError | TypeError | ValueError
| OverflowError | JSONDecodeError | RequestException | HTTPError.

Inductive outcome (A : Type) : Type :=
| Ret (a : A)
| Raise (e : exn).

Arguments Ret {A} a.
Arguments Raise {A} e.

Definition obind {A B} (m : outcome A) (k : A -> outcome B) : outcome B :=
  match m with
  | Ret a => k a
  | Raise e => Raise e
  end.

Notation "'let*' x ':=' m 'in' k" := (obind m (fun x => k))
  (at level 10, x pattern, m at level 100, k at level 200).

Fixpoint omap {A B} (f : A -> outcome B) (l : list A) : outcome (list B) :=
  match l with
  | [] => Ret []
  | x :: xs => let* y := f x in let* ys := omap f xs in Ret (y :: ys)
  end.

(** The parts of the interpreter and of the process environment that are
    not code of this repository: the Unicode tables behind [str.strip] and
    [str.isdigit], [repr] of containers, and the environment variable read
    at import time. *)
Class PyEnv : Type := {
  uni_isspace : N -> bool;
  uni_isdigit : N -> bool;
  py_repr : value -> ustr;
  STEAM_API_KEY : value
}.

(** Truth value of an object ([if v], [v or d], [not v]). *)
Definition py_truthy (v : value) : bool :=
  match v with
  | VNone => false
  | VBool b => b
  | VInt z => negb (z =? 0)
  | VStr s => match s with [] => false | _ => true end
  | VList l => match l with [] => false | _ => true end
  | VDict d => match d with [] => false | _ => true end
  end.

Definition py_or (a b : value) : value := if py_truthy a then a else b.

(** [bool] is a subclass of [int]. *)
Definition as_int (v : value) : option Z :=
  match v with
  | VInt z => Some z
  | VBool true => Some 1
  | VBool false => Some 0
  | _ => None
  end.

Fixpoint lookup {A} (k : ustr) (d : list (ustr * A)) : option A :=
  match d with
  | [] => None
  | (k', v) :: d' => if ustr_eqb k k' then Some v else lookup k d'
  end.

(** [d.get(k, default)]: only [dict] has the method. *)
Definition py_get (d : value) (k : ustr) (default : value) : outcome value :=
  match d with
  | VDict items =>
      Ret (match lookup k items with Some v => v | None => default end)
  | _ => Raise AttributeError
  end.

(** [d[k]] with a [str] key. *)
Definition py_getitem (d : value) (k : ustr) : outcome value :=
  match d with
  | VDict items =>
      match lookup k items with Some v => Ret v | None => Raise KeyError end
  | _ => Raise TypeError
  end.

(** [d.get(outer, {}).get(field, [])]. *)
Definition nested_get (outer field : ustr) (d : value) : outcome value :=
  let* o := py_get d outer (VDict []) in
  py_get o field (VList []).

(** [xs[0]]. *)
Definition py_first (xs : value) : outcome value :=
  match xs with
  | VList (x :: _) => Ret x
  | VList [] => Raise IndexError
  | VStr (c :: _) => Ret (VStr [c])
  | VStr [] => Raise IndexError
  | VDict _ => Raise KeyError
  | _ => Raise TypeError
  end.

(** Iterating an object: the elements of a list, the characters of a
    string, the keys of a dict. *)
Definition py_iter (v : value) : outcome (list value) :=
  match v with
  | VList l => Ret l
  | VStr s => Ret (map (fun c => VStr [c]) s)
  | VDict d => Ret (map (fun kv => VStr (fst kv)) d)
  | _ => Raise TypeError
  end.

(** [sep.join(parts)]: every part must be a [str]. *)
Definition as_str (v : value) : outcome ustr :=
  match v with
  | VStr s => Ret s
  | _ => Raise TypeError
  end.

Definition py_join (sep : ustr) (parts : list value) : outcome ustr :=
  let* ss := omap as_str parts in Ret (join sep ss).

(** [f"{v}"]. *)
Definition py_str `{PyEnv} (v : value) : ustr :=
  match v with
  | VNone => U "None"
  | VBool true => U "True"
  | VBool false => U "False"
  | VInt z => str_int z
  | VStr s => s
  | VList _ | VDict _ => py_repr v
  end.

(** [v == n] for an [int] literal [n]. *)
Definition py_eq_int (v : value) (n : Z) : bool :=
  match as_int v with
  | Some z => z =? n
  | None => false
  end.

(** [s.strip()] and [s.isdigit()]. *)
Fixpoint lstrip `{PyEnv} (s : ustr) : ustr :=
  match s with
  | [] => []
  | c :: s' => if uni_isspace c then lstrip s' else s
  end.

Definition py_strip `{PyEnv} (s : ustr) : ustr :=
  rev (lstrip (rev (lstrip s))).

Definition py_isdigit `{PyEnv} (s : ustr) : bool :=
  match s with
  | [] => false
  | _ => forallb uni_isdigit s
  end.

(** [range(0, n, step)] and the slice [l[i:j]]. *)
Definition py_range (n step : nat) : list nat :=
  map (fun k => (k * step)%nat) (seq 0 ((n + step - 1) / step)).

Definition slice {A} (l : list A) (i j : nat) : list A :=
  firstn (j - i) (skipn i l).

(* ================================================================== *)
(** ** [sorted]

    [sorted] is stable.  With [reverse=True] CPython reverses the list,
    sorts it, and reverses the result, so that equal keys keep their
    original order in that case as well.  The keys are computed once, before
    any comparison, and only [<] is used on them. *)

Section StableSort.
Variables (A K : Type) (key : A -> K) (lt : K -> K -> bool).

Fixpoint insert_by (x : A) (l : list A) : list A :=
  match l with
  | [] => [x]
  | y :: l' =>
      if lt (key y) (key x) then y :: insert_by x l' else x :: y :: l'
  end.

Fixpoint sort_by (l : list A) : list A :=
  match l with
  | [] => []
  | x :: l' => insert_by x (sort_by l')
  end.

Definition sorted_by (reverse : bool) (l : list A) : list A :=
  if reverse then rev (sort_by (rev l)) else sort_by l.
End StableSort.

Fixpoint ints_of (ks : list value) : option (list Z) :=
  match ks with
  | [] => Some []
  | k :: ks' =>
      match as_int k, ints_of ks' with
      | Some z, Some zs => Some (z :: zs)
      | _, _ => None
      end
  end.

Fixpoint strs_of (ks : list value) : option (list ustr) :=
  match ks with
  | [] => Some []
  | VStr s :: ks' =>
      match strs_of ks' with
      | Some ss => Some (s :: ss)
      | None => None
      end
  | _ :: _ => None
  end.

(** [sorted(l, key=key, reverse=reverse)] on a list of objects.  Integer
    keys (and [bool]) order numerically, [str] keys lexicographically; a
    list of fewer than two elements is never compared; any other mix of
    keys makes a comparison raise [TypeError].  (Keys that are themselves
    lists, which CPython orders lexicographically, are treated as
    unorderable here.) *)
Definition py_sorted (key : value -> outcome value) (reverse : bool)
    (l : list value) : outcome (list value) :=
  let* ks := omap key l in
  match ints_of ks, strs_of ks with
  | Some zs, _ =>
      Ret (map snd (sorted_by fst Z.ltb reverse (combine zs l)))
  | None, Some ss =>
      Ret (map snd (sorted_by fst ustr_ltb reverse (combine ss l)))
  | None, None =>
      match l with
      | [] | [_] => Ret l
      | _ => Raise TypeError
      end
  end.

(* ================================================================== *)
(** ** [int / int] and [format(x, ".1f")]

    True division of two integers returns the binary64 number nearest to
    the exact quotient (ties to even) and raises [OverflowError] when that
    number is not finite.  A finite float is kept as sign, integer
    significand and binary exponent. *)

Record float : Type := Float { fneg : bool; fman : Z; fexp : Z }.

(** Nearest integer to [n / d], ties to even ([0 <= n], [0 < d]). *)
Definition round_half_even (n d : Z) : Z :=
  let q := n / d in
  let r := n mod d in
  if (d <? 2 * r) || ((d =? 2 * r) && Z.odd q) then q + 1 else q.

Definition shl (x e : Z) : Z := x * 2 ^ Z.max 0 e.

(** The binary64 nearest to [a / d] for [0 < a], [0 < d]: significand on 53
    bits, exponent at least that of the subnormals. *)
Definition nearest_double (a d : Z) : Z * Z :=
  let L := Z.log2 a - Z.log2 d in
  let e1 := if shl d L <=? shl a (- L) then L - 52 else L - 53 in
  let e := Z.max e1 (-1074) in
  (round_half_even (shl a (- e)) (shl d e), e).

Definition py_truediv (a d : Z) : outcome float :=
  if a =? 0 then Ret (Float false 0 0)
  else
    let (m, e) := nearest_double (Z.abs a) d in
    if 2 ^ 1024 <=? shl m e then Raise OverflowError
    else Ret (Float (a <? 0) m e).

Definition format_1f (x : float) : ustr :=
  let tenths :=
    if 0 <=? fexp x then 10 * fman x * 2 ^ fexp x
    else round_half_even (10 * fman x) (2 ^ (- fexp x)) in
  (if fneg x then U "-" else [])
    ++ digits (Z.to_N (tenths / 10)) ++ U "."
    ++ digits (Z.to_N (tenths mod 10)).

(* ================================================================== *)
(** ** [datetime.utcfromtimestamp(t).strftime("%m/%d/%Y")] *)

(** Year, month and day of the proleptic Gregorian calendar for a day
    number counted from 1970-01-01. *)
Definition civil_from_days (days : Z) : Z * Z * Z :=
  let z := days + 719468 in
  let era := z / 146097 in
  let doe := z - era * 146097 in
  let yoe := (doe - doe / 1460 + doe / 36524 - doe / 146096) / 365 in
  let doy := doe - (365 * yoe + yoe / 4 - yoe / 100) in
  let mp := (5 * doy + 2) / 153 in
  let d := doy - (153 * mp + 2) / 5 + 1 in
  let m := if mp <? 10 then mp + 3 else mp - 9 in
  let y := yoe + era * 400 + (if m <=? 2 then 1 else 0) in
  (y, m, d).

(** The timestamp must be an integer and fall in years 1 to 9999.  Which
    exception is raised otherwise depends on the magnitude (and, close to
    the bounds of [time_t], on the platform). *)
Definition utcfromtimestamp (t : value) : outcome (Z * Z * Z) :=
  match as_int t with
  | None => Raise TypeError
  | Some s =>
      if (s <? - 2 ^ 63) || (2 ^ 63 <=? s) then Raise OverflowError
      else if (s <? -62135596800) || (253402300799 <? s)
      then Raise ValueError
      else Ret (civil_from_days (s / 86400))
  end.

(** [%Y] is not padded (glibc). *)
Definition strftime_mdY (date : Z * Z * Z) : ustr :=
  let '(y, m, d) := date in
  two_digits (Z.to_N m) ++ U "/" ++ two_digits (Z.to_N d) ++ U "/"
    ++ digits (Z.to_N y).

(* ================================================================== *)
(** ** Requests, responses, the log, and [io] actions *)

Inductive http_method : Type := GET | POST.

Record request : Type := Request {
  method : http_method;
  url : ustr;
  params : list (ustr * value);
  headers : list (ustr * ustr);
  json_payload : option value;
  timeout : Z
}.

(** A response as the program reads it: the status code, and the body when
    it parses as JSON ([None] when [resp.json()] raises). *)
Record response : Type := Response {
  status_code : Z;
  body : option value
}.

(** What a request comes to: a response, or a transport failure
    (connection error, timeout, ...) raised by [requests]. *)
Inductive reply : Type :=
| Answered (r : response)
| Failed.

(** The remote side: the reply to the request issued when [n] requests have
    been sent before it. *)
Definition network := nat -> request -> reply.

Inductive level : Type := WARNING | ERROR.

(** A log record: level, the text written before the exception, and the
    exception formatted after it. *)
Record log_record : Type := LogRecord {
  log_level : level;
  log_text : ustr;
  log_exn : exn
}.

Record world : Type := World {
  sent : list request;
  logged : list log_record
}.

Definition io (A : Type) : Type := world -> outcome A * world.

Definition ret {A} (a : A) : io A := fun w => (Ret a, w).

Definition bind {A B} (m : io A) (k : A -> io B) : io B :=
  fun w =>
    match m w with
    | (Ret a, w') => k a w'
    | (Raise e, w') => (Raise e, w')
    end.

Definition lift {A} (m : outcome A) : io A := fun w => (m, w).

(** [try: m  except Exception as e: h e]. *)
Definition try_except {A} (m : io A) (h : exn -> io A) : io A :=
  fun w =>
    match m w with
    | (Ret a, w') => (Ret a, w')
    | (Raise e, w') => h e w'
    end.

Declare Scope io_scope.
Delimit Scope io_scope with io.
Notation "x <- m ;; k" := (bind m (fun x => k))
  (at level 61, m at next level, right associativity) : io_scope.
Notation "m ;;; k" := (bind m (fun _ => k))
  (at level 61, right associativity) : io_scope.

Definition logger (lv : level) (text : ustr) (e : exn) : io unit :=
  fun w => (Ret tt, World (sent w) (logged w ++ [LogRecord lv text e])).

Section Pipeline.
Context `{PyEnv}.
Variable net : network.

Local Open Scope io_scope.

(** [requests.get] / [requests.post]: the request goes out, whatever
    comes of it. *)
Definition send (rq : request) : io response :=
  fun w =>
    let w' := World (sent w ++ [rq]) (logged w) in
    match net (length (sent w)) rq with
    | Answered r => (Ret r, w')
    | Failed => (Raise RequestException, w')
    end.

(** [resp.raise_for_status()]: raises on 4xx and 5xx. *)
Definition raise_for_status (r : response) : io unit :=
  if (400 <=? status_code r) && (status_code r <? 600)
  then lift (Raise HTTPError) else ret tt.

(** [resp.json()]. *)
Definition resp_json (r : response) : io value :=
  match body r with
  | Some v => ret v
  | None => lift (Raise JSONDecodeError)
  end.

(* ---------------------------------------------------------------- *)
(** *** [resolve_steam_id] *)

Definition vanity_request (user_input : ustr) : request :=
  Request GET
    (U "https://api.steampowered.com/ISteamUser/ResolveVanityURL/v0001/")
    [(U "key", STEAM_API_KEY); (U "vanityurl", VStr user_input)]
    [] None 10.

(** Returns a Python object: [VNone] is [None]. *)
Definition resolve_steam_id (user_input : ustr) : io value :=
  let user_input := py_strip user_input in
  if py_isdigit user_input && (15 <=? length user_input)%nat
  then ret (VStr user_input)
  else
    try_except
      (resp <- send (vanity_request user_input) ;;
       raise_for_status resp ;;;
       data <- resp_json resp ;;
       r <- lift (py_getitem data (U "response")) ;;
       success <- lift (py_getitem r (U "success")) ;;
       if py_eq_int success 1
       then
         r' <- lift (py_getitem data (U "response")) ;;
         lift (py_getitem r' (U "steamid"))
       else ret VNone)
      (fun e =>
         logger ERROR
           (U "Ошибка при разрешении vanity URL '" ++ user_input
              ++ U "': ") e ;;;
         ret VNone).

(* ---------------------------------------------------------------- *)
(** *** [fetch_steam_profile] *)

Definition base_url : ustr := U "https://api.steampowered.com".

Definition json_headers : list (ustr * ustr) :=
  [(U "Content-Type", U "application/json")].

Definition summaries_request (steamids : value) (tmo : Z) : request :=
  Request GET (base_url ++ U "/ISteamUser/GetPlayerSummaries/v0002/")
    [(U "key", STEAM_API_KEY); (U "steamids", steamids)]
    json_headers None tmo.

Definition friend_list_request (steam_id : value) : request :=
  Request GET (base_url ++ U "/ISteamUser/GetFriendList/v0001/")
    [(U "key", STEAM_API_KEY); (U "steamid", steam_id);
     (U "relationship", VStr (U "friend"))]
    json_headers None 15.

Definition owned_games_request (steam_id : value) : request :=
  Request GET (base_url ++ U "/IPlayerService/GetOwnedGames/v0001/")
    [(U "key", STEAM_API_KEY); (U "steamid", steam_id);
     (U "include_appinfo", VInt 1);
     (U "include_played_free_games", VInt 1)]
    json_headers None 15.

(** [resp.json().get(outer, {}).get(field, [])]. *)
Definition response_field (outer field : ustr) (r : response) : io value :=
  d <- resp_json r ;;
  lift (nested_get outer field d).

Record aggregate : Type := Aggregate {
  profile : value;
  friends : list value;
  owned_games_sample : list value
}.

(** One turn of the loop over batch offsets: the new [friends_list]. *)
Definition fetch_batch (friend_ids : list value) (i : nat)
    (friends_list : list value) : io (list value) :=
  batch <- lift (py_join (U ",") (slice friend_ids i (i + 100))) ;;
  profiles_resp <- send (summaries_request (VStr batch) 15) ;;
  if status_code profiles_resp =? 200
  then
    batch_profiles <- response_field (U "response") (U "players")
                        profiles_resp ;;
    more <- lift (py_iter batch_profiles) ;;
    ret (friends_list ++ more)
  else ret friends_list.

(** The [for] loop.  [friends_list] is extended in place, so when a turn
    raises, the loop ends with the list as the earlier turns left it;
    the exception is handed on next to it. *)
Fixpoint batch_loop (friend_ids : list value) (offsets : list nat)
    (friends_list : list value) (w : world)
    : (list value * option exn) * world :=
  match offsets with
  | [] => ((friends_list, None), w)
  | i :: rest =>
      match fetch_batch friend_ids i friends_list w with
      | (Ret friends_list', w') =>
          batch_loop friend_ids rest friends_list' w'
      | (Raise e, w') => ((friends_list, Some e), w')
      end
  end.

(** The statements under [try] in the friends part, up to the loop: the
    friend ids, or nothing to do. *)
Definition fetch_friend_ids (steam_id : value) : io (list value) :=
  friends_resp <- send (friend_list_request steam_id) ;;
  if status_code friends_resp =? 200
  then
    friends <- response_field (U "friendslist") (U "friends")
                 friends_resp ;;
    fs <- lift (py_iter friends) ;;
    lift (omap (fun f => py_getitem f (U "steamid")) fs)
  else ret [].

Definition fetch_friends (steam_id : value) : io (list value) :=
  fun w =>
    match fetch_friend_ids steam_id w with
    | (Raise e, w1) =>
        (logger WARNING (U "Ошибка загрузки друзей: ") e ;;; ret []) w1
    | (Ret friend_ids, w1) =>
        if py_truthy (VList friend_ids)
        then
          match
            batch_loop friend_ids (py_range (length friend_ids) 100) [] w1
          with
          | ((friends_list, None), w2) => (Ret friends_list, w2)
          | ((friends_list, Some e), w2) =>
              (logger WARNING (U "Ошибка загрузки друзей: ") e ;;;
               ret friends_list) w2
          end
        else (Ret [], w1)
    end.

Definition playtime_forever (g : value) : outcome value :=
  py_get g (U "playtime_forever") (VInt 0).

Definition fetch_games (steam_id : value) : io (list value) :=
  try_except
    (games_resp <- send (owned_games_request steam_id) ;;
     if status_code games_resp =? 200
     then
       all_games <- response_field (U "response") (U "games") games_resp ;;
       gs <- lift (py_iter all_games) ;;
       sorted_games <- lift (py_sorted playtime_forever true gs) ;;
       ret (firstn 10 sorted_games)
     else ret [])
    (fun e => logger WARNING (U "Ошибка загрузки игр: ") e ;;; ret []).

Definition fetch_steam_profile (steam_id : value) : io (option aggregate) :=
  profile_resp <- send (summaries_request steam_id 10) ;;
  if negb (status_code profile_resp =? 200) then ret None
  else
    players <- response_field (U "response") (U "players") profile_resp ;;
    if negb (py_truthy players) then ret None
    else
      user_data <- lift (py_first players) ;;
      friends_list <- fetch_friends steam_id ;;
      owned_games <- fetch_games steam_id ;;
      ret (Some (Aggregate user_data friends_list owned_games)).

(* ---------------------------------------------------------------- *)
(** *** [simplify_steam_profile] *)

(** Keys of the tally: lists and dicts are unhashable; [1], [True] hash
    and compare alike. *)
Definition hashable (v : value) : bool :=
  match v with
  | VList _ | VDict _ => false
  | _ => true
  end.

Definition key_eqb (a b : value) : bool :=
  match as_int a, as_int b with
  | Some x, Some y => x =? y
  | None, None =>
      match a, b with
      | VStr s, VStr t => ustr_eqb s t
      | VNone, VNone => true
      | _, _ => false
      end
  | _, _ => false
  end.

(** [d[c] = d.get(c, 0) + 1] on a dict kept in insertion order. *)
Fixpoint count_up (c : value) (d : list (value * Z)) : list (value * Z) :=
  match d with
  | [] => [(c, 0 + 1)]
  | (k, n) :: d' =>
      if key_eqb c k then (k, n + 1) :: d' else (k, n) :: count_up c d'
  end.

Fixpoint tally (friends : list value) (friend_countries : list (value * Z))
    : outcome (list (value * Z)) :=
  match friends with
  | [] => Ret friend_countries
  | f :: rest =>
      let* c := py_get f (U "loccountrycode") (VStr (U "??")) in
      if hashable c then tally rest (count_up c friend_countries)
      else Raise TypeError
  end.

Definition country_entry (item : value * Z) : ustr :=
  let (c, cnt) := item in str_int cnt ++ U " from " ++ py_str c.

Definition top_countries_text (friend_countries : list (value * Z)) : ustr :=
  join (U ", ")
    (map country_entry
       (firstn 5
          (sorted_by (fun x => - snd x) Z.ltb false friend_countries))).

(** [sum(g.get("playtime_forever", 0) for g in games)]. *)
Fixpoint sum_playtime (games : list value) (acc : Z) : outcome Z :=
  match games with
  | [] => Ret acc
  | g :: rest =>
      let* v := playtime_forever g in
      match as_int v with
      | Some z => sum_playtime rest (acc + z)
      | None => Raise TypeError
      end
  end.

Definition nl : ustr := [10%N].

(** The f-string the function returns. *)
Definition digest_format (persona name country created_str : ustr)
    (n_friends : nat) (top_countries : ustr) (n_games : nat)
    (total_playtime : float) (game_titles : ustr) : ustr :=
  U "Steam User:" ++ nl
  ++ U "- Display name: " ++ persona ++ nl
  ++ U "- Real name: " ++ name ++ nl
  ++ U "- Country: " ++ country ++ nl
  ++ U "- Account created: " ++ created_str ++ nl
  ++ nl
  ++ U "Friends:" ++ nl
  ++ U "- Total friends: " ++ str_int (Z.of_nat n_friends) ++ nl
  ++ U "- Top friend countries: " ++ top_countries ++ nl
  ++ nl
  ++ U "Gaming activity:" ++ nl
  ++ U "- Sample of owned games: " ++ str_int (Z.of_nat n_games) ++ nl
  ++ U "- Total playtime (in sample): ~" ++ format_1f total_playtime
  ++ U " hours" ++ nl
  ++ U "- Example games: " ++ game_titles.

Definition simplify_steam_profile (data : aggregate) : outcome ustr :=
  let profile := profile data in
  let friends := friends data in
  let games := owned_games_sample data in
  let* realname := py_get profile (U "realname") VNone in
  let name := py_or realname (VStr (U "Not specified")) in
  let* personaname := py_get profile (U "personaname") VNone in
  let persona := py_or personaname (VStr (U "No nickname")) in
  let* loccountrycode := py_get profile (U "loccountrycode") VNone in
  let country := py_or loccountrycode (VStr (U "Unknown")) in
  let* created := py_get profile (U "timecreated") VNone in
  let* created_str :=
    if py_truthy created
    then let* date := utcfromtimestamp created in Ret (strftime_mdY date)
    else Ret (U "Unknown") in
  let* friend_countries := tally friends [] in
  let top_countries := top_countries_text friend_countries in
  let* minutes := sum_playtime games 0 in
  let* total_playtime := py_truediv minutes 60 in
  let* names := omap (fun g => py_getitem g (U "name")) (firstn 10 games) in
  let* game_titles := py_join (U ", ") names in
  Ret (digest_format (py_str persona) (py_str name) (py_str country)
         created_str (length friends) top_countries (length games)
         total_playtime game_titles).

(* ---------------------------------------------------------------- *)
(** *** [llm_message] *)

Definition OLLAMA_URL : ustr := U "http://ollama:11434/api/chat".

Definition apology : ustr :=
  U "Sorry, I'm having trouble thinking right now. 😕".

(** The prompt, up to the place of the digest. *)
Definition prompt_head : ustr :=
  U "You're a cheeky, sarcastic gamer from a chaotic Telegram group—think meme lord with a heart of gold-plated snark. Playfully roast this Steam user like you're teasing your weird-but-lovable roommate.

    Rules:
    - EXACTLY 2 sentences.
    - (≤50 words): highlight their absurdly niche gaming habits or bizarre playtime choices—bonus if it screams “I haven’t seen sunlight since 2019” 🌙🎮.
    - (≤50 words): gently jab at their life arc—maybe they’re globe-hopping while grinding CS:GO, or collecting hats in TF2 like it’s a retirement plan 🇺🇿✈️📉.
    - Use emojis for flavor, not cruelty (e.g., 🎮 = passion, 🕰️ = time well… spent?, 🧳 = eternal traveler, 🇷🇺/🇺🇿 = plot twist).
    - NO insults. NO assumptions about mental health, loneliness, or failure. Keep it light, witty, and based ONLY on visible Steam activity.
    - If you sound mean or generic, you lose XP.

    Steam profile summary:
    Напиши на русском языке
    ".

Definition prompt_of (message : ustr) : ustr :=
  prompt_head ++ message ++ nl ++ U "    ".

Definition chat_request (message : ustr) : request :=
  Request POST OLLAMA_URL [] []
    (Some (VDict
       [(U "model", VStr (U "phi3:mini"));
        (U "messages",
         VList [VDict [(U "role", VStr (U "user"));
                       (U "content", VStr (prompt_of message))]]);
        (U "stream", VBool false)]))
    30.

Definition llm_message (message : ustr) : io ustr :=
  answer <-
    try_except
      (resp <- send (chat_request message) ;;
       raise_for_status resp ;;;
       d <- resp_json resp ;;
       m <- lift (py_getitem d (U "message")) ;;
       lift (py_getitem m (U "content")))
      (fun e => logger ERROR (U "Ошибка ИИ: ") e ;;; ret (VStr apology)) ;;
  ret (py_str answer ++ nl ++ nl ++ message).

End Pipeline.


(* ================================================================== *)
(** ** Vocabulary of the statements *)

Definition numeric_shortcut `{PyEnv} (s : ustr) : bool :=
  py_isdigit s && (15 <=? length s)%nat.

(** A resolution payload that says "resolved" and carries an identifier. *)
Definition resolved_as (d sid : value) : Prop :=
  exists r s,
    py_getitem d (U "response") = Ret r
    /\ py_getitem r (U "success") = Ret s
    /\ py_eq_int s 1 = true
    /\ py_getitem r (U "steamid") = Ret sid.

Definition error_status (s : Z) : Prop := 400 <= s < 600.

(** A reply of the text-generation service from which a commentary [c] is
    read: no transport failure, no 4xx/5xx status, a JSON body with
    [message.content]. *)
Definition generated (rp : reply) (c : value) : Prop :=
  exists r d m,
    rp = Answered r
    /\ ~ error_status (status_code r)
    /\ body r = Some d
    /\ py_getitem d (U "message") = Ret m
    /\ py_getitem m (U "content") = Ret c.

(** A fetch that did not deliver: transport failure, a status other than
    200, or a body that is not JSON. *)
Definition unsuccessful (rp : reply) : Prop :=
  rp = Failed
  \/ exists r, rp = Answered r /\ (status_code r <> 200 \/ body r = None).

(** Order by integer key: non-decreasing, non-increasing. *)
Definition ascending {A} (key : A -> Z) : list A -> Prop :=
  StronglySorted (fun a b => key a <= key b).

Definition descending {A} (key : A -> Z) : list A -> Prop :=
  StronglySorted (fun a b => key b <= key a).

(** [s] keeps the elements of [l] that share a key in the order they have
    in [l]. *)
Definition stable {A} (key : A -> Z) (l s : list A) : Prop :=
  forall k, filter (fun a => key a =? k) s = filter (fun a => key a =? k) l.

(** A reply with status 200 whose JSON body carries [v] under
    [outer.field]. *)
Definition serves (rp : reply) (outer field : ustr) (v : value) : Prop :=
  exists r d,
    rp = Answered r
    /\ status_code r = 200
    /\ body r = Some d
    /\ nested_get outer field d = Ret v.

(** Cumulative playtime of a game record, in minutes; 0 when the record
    does not say. *)
Definition minutes (g : value) : Z :=
  match g with
  | VDict d =>
      match lookup (U "playtime_forever") d with
      | Some v => match as_int v with Some z => z | None => 0 end
      | None => 0
      end
  | _ => 0
  end.

(** A game record whose playtime, when present, is an integer. *)
Definition timed_game (g : value) : bool :=
  match g with
  | VDict d =>
      match lookup (U "playtime_forever") d with
      | Some v => match as_int v with Some _ => true | None => false end
      | None => true
      end
  | _ => false
  end.

Definition strictly_descending {A} (key : A -> Z) : list A -> Prop :=
  StronglySorted (fun a b => key b < key a).

(** The batches of identifiers the loop over offsets walks through. *)
Definition batches_of {A} (ids : list A) : list (list A) :=
  map (fun i => slice ids i (i + 100)) (py_range (length ids) 100).

(** The request issued for one batch. *)
Definition batch_request `{PyEnv} (batch : list ustr) : request :=
  summaries_request (VStr (join (U ",") batch)) 15.

(** What the reply to a batch request adds to the friends: the players it
    lists under status 200, nothing under another status; [None] when the
    turn of the loop raises (transport failure, a body that is not JSON or
    not of the expected shape). *)
Definition contribution (rp : reply) : option (list value) :=
  match rp with
  | Failed => None
  | Answered r =>
      if status_code r =? 200
      then
        match body r with
        | None => None
        | Some d =>
            match nested_get (U "response") (U "players") d with
            | Ret v =>
                match py_iter v with
                | Ret l => Some l
                | Raise _ => None
                end
            | Raise _ => None
            end
        end
      else Some []
  end.

Definition records (rp : reply) : list value :=
  match contribution rp with
  | Some c => c
  | None => []
  end.

(** The reply to the [j]-th batch request when the first one is the
    [n0]-th request of the run. *)
Definition batch_reply `{PyEnv} (net : network) (n0 : nat)
    (bs : list (list ustr)) (j : nat) : reply :=
  net (n0 + j)%nat (batch_request (nth j bs [])).

(** The number a string of decimal digits denotes. *)
Definition decimal_value (s : ustr) : N :=
  fold_left (fun v c => (10 * v + (c - 48))%N) s 0%N.

(** *** Well-formed aggregates and the fields of the digest *)

(** The text a profile field is shown with: its value when it is present
    and not empty, the sentinel otherwise. *)
Definition shown `{PyEnv} (record : list (ustr * value))
    (field sentinel : ustr) : ustr :=
  match lookup field record with
  | Some v => if py_truthy v then py_str v else sentinel
  | None => sentinel
  end.

(** A field that is absent, null or the empty string. *)
Definition missing (record : list (ustr * value)) (field : ustr) : bool :=
  match lookup field record with
  | None | Some VNone | Some (VStr []) => true
  | _ => false
  end.

(** The creation time is absent, or falsy, or an integer number of seconds
    within years 1 to 9999. *)
Definition created_ok (record : list (ustr * value)) : bool :=
  match lookup (U "timecreated") record with
  | None => true
  | Some v =>
      negb (py_truthy v)
      || match as_int v with
         | Some t => (-62135596800 <=? t) && (t <=? 253402300799)
         | None => false
         end
  end.

Definition created_text (record : list (ustr * value)) : ustr :=
  match lookup (U "timecreated") record with
  | None => U "Unknown"
  | Some v =>
      if py_truthy v
      then match as_int v with
           | Some t => strftime_mdY (civil_from_days (t / 86400))
           | None => []
           end
      else U "Unknown"
  end.

(** A friend record: a mapping whose country code, when present, can be a
    key of the tally. *)
Definition friend_record (f : value) : bool :=
  match f with
  | VDict d =>
      match lookup (U "loccountrycode") d with
      | Some c => hashable c
      | None => true
      end
  | _ => false
  end.

Definition country_of (f : value) : value :=
  match f with
  | VDict d =>
      match lookup (U "loccountrycode") d with
      | Some c => c
      | None => VStr (U "??")
      end
  | _ => VStr (U "??")
  end.

(** A game record: a mapping with a [str] name and an integer playtime
    (or none). *)
Definition game_record (g : value) : bool :=
  timed_game g
  && match g with
     | VDict d =>
         match lookup (U "name") d with
         | Some (VStr _) => true
         | _ => false
         end
     | _ => false
     end.

Definition name_of (g : value) : ustr :=
  match g with
  | VDict d =>
      match lookup (U "name") d with
      | Some (VStr s) => s
      | _ => []
      end
  | _ => []
  end.

Definition total_minutes (games : list value) : Z :=
  fold_right (fun g acc => minutes g + acc) 0 games.

(** The aggregates the summarizer is meant for: a profile record, friend
    records, game records, a total playtime below [2^52] minutes. *)
Definition profile_aggregate (data : aggregate) : bool :=
  match profile data with
  | VDict d => created_ok d
  | _ => false
  end
  && forallb friend_record (friends data)
  && forallb game_record (owned_games_sample data)
  && (Z.abs (total_minutes (owned_games_sample data)) <? 2 ^ 52).

(** A decimal with one digit after the point, [tenths / 10]. *)
Definition one_decimal (negative : bool) (tenths : Z) : ustr :=
  (if negative then U "-" else [])
    ++ digits (Z.to_N (tenths / 10)) ++ U "."
    ++ digits (Z.to_N (tenths mod 10)).

(** *** The country tally, as the specification words it *)

(** A friend record whose country code is a [str] or absent. *)
Definition coded_friend (f : value) : bool :=
  match f with
  | VDict d =>
      match lookup (U "loccountrycode") d with
      | Some (VStr _) | None => true
      | _ => false
      end
  | _ => false
  end.

(** The country code of a friend; friends without one go under ["??"]. *)
Definition friend_code (f : value) : ustr :=
  match f with
  | VDict d =>
      match lookup (U "loccountrycode") d with
      | Some (VStr s) => s
      | _ => U "??"
      end
  | _ => U "??"
  end.

(** The distinct codes, in the order in which they are first met. *)
Fixpoint encounter_order (codes : list ustr) : list ustr :=
  match codes with
  | [] => []
  | c :: rest => c :: remove ustr_eq_dec c (encounter_order rest)
  end.

(** Each distinct code with the number of friends that carry it, in
    encounter order. *)
Definition spec_tally (codes : list ustr) : list (ustr * Z) :=
  map (fun c => (c, Z.of_nat (count_occ ustr_eq_dec codes c)))
    (encounter_order codes).

(** A tally of the specification as the dict the program builds. *)
Definition as_key (item : ustr * Z) : value * Z :=
  (VStr (fst item), snd item).

(** One entry of the country breakdown. *)
Definition breakdown_entry (item : ustr * Z) : ustr :=
  str_int (snd item) ++ U " from " ++ fst item.

(** *** Sections of a text *)

(** The blocks of a text that blank lines separate. *)
Fixpoint sections_from (s cur : ustr) : list ustr :=
  match s with
  | [] => [rev cur]
  | c :: s' =>
      match s' with
      | c' :: s'' =>
          if (c =? 10)%N && (c' =? 10)%N
          then rev cur :: sections_from s'' []
          else sections_from s' (c :: cur)
      | [] => [rev (c :: cur)]
      end
  end.

Definition sections (s : ustr) : list ustr := sections_from s [].

(** The first line of a block. *)
Fixpoint first_line (s : ustr) : ustr :=
  match s with
  | [] => []
  | c :: s' => if (c =? 10)%N then [] else c :: first_line s'
  end.
(* ================================================================== *)
(** ** A concrete runtime and concrete remote sides, for the examples *)

(** Tables restricted to ASCII; the examples print no container. *)
Definition ascii_env : PyEnv := {|
  uni_isspace := fun c =>
    (c =? 32)%N || ((9 <=? c)%N && (c <=? 13)%N)
    || ((28 <=? c)%N && (c <=? 31)%N);
  uni_isdigit := fun c => (48 <=? c)%N && (c <=? 57)%N;
  py_repr := fun _ => U "<container>";
  STEAM_API_KEY := VStr (U "0123456789ABCDEF")
|}.

Definition w0 : world := World [] [].

Definition ok (v : value) : reply := Answered (Response 200 (Some v)).

Definition same_url (rq : request) (u : ustr) : bool := ustr_eqb (url rq) u.

(** The answer wrapped as the summaries endpoint wraps it. *)
Definition players_body (players : list value) : value :=
  VDict [(U "response", VDict [(U "players", VList players)])].

Definition friends_body (ids : list ustr) : value :=
  VDict [(U "friendslist",
          VDict [(U "friends",
                  VList (map (fun i => VDict [(U "steamid", VStr i)]) ids))])].

Definition games_body (games : list value) : value :=
  VDict [(U "response", VDict [(U "games", VList games)])].

Definition player (name country : ustr) : value :=
  VDict [(U "personaname", VStr name); (U "loccountrycode", VStr country)].

Definition game (name : ustr) (minutes : Z) : value :=
  VDict [(U "name", VStr name); (U "playtime_forever", VInt minutes)].


Definition net_down : network := fun _ _ => Failed.

(** A remote side that answers the lookup with status 300 and a resolved
    payload. *)
Definition resolved_payload : value :=
  VDict [(U "response",
          VDict [(U "steamid", VStr (U "76561198000000001"));
                 (U "success", VInt 1)])].

Definition net_300 : network :=
  fun _ _ => Answered (Response 300 (Some resolved_payload)).

(** A text-generation service that answers with status 300 and a
    commentary. *)
Definition chat_payload : value :=
  VDict [(U "message", VDict [(U "content", VStr (U "Nice hat."))])].

Definition net_chat_300 : network :=
  fun _ _ => Answered (Response 300 (Some chat_payload)).

Definition gaben : value :=
  VDict [(U "personaname", VStr (U "gaben"));
         (U "timecreated", VInt 1094976000)].

(** The summaries endpoint answering 201 with one player. *)
Definition net_201 : network :=
  fun _ _ => Answered (Response 201 (Some (players_body [gaben]))).

(** Only the profile is served; every other request fails in transport. *)
Definition net_profile_only : network :=
  fun n _ =>
    match n with
    | O => ok (players_body [gaben])
    | _ => Failed
    end.

(** Fifteen games with distinct playtimes. *)
Definition fifteen_games : list value :=
  [game (U "G01") 120; game (U "G02") 45; game (U "G03") 980;
   game (U "G04") 0; game (U "G05") 310; game (U "G06") 7;
   game (U "G07") 2600; game (U "G08") 61; game (U "G09") 15;
   game (U "G10") 500; game (U "G11") 499; game (U "G12") 33;
   game (U "G13") 1200; game (U "G14") 88; game (U "G15") 5].

Definition summaries_url : ustr :=
  U "https://api.steampowered.com/ISteamUser/GetPlayerSummaries/v0002/".

Definition owned_games_url : ustr :=
  U "https://api.steampowered.com/IPlayerService/GetOwnedGames/v0001/".

(** Profile and games are served, the friend list is not. *)
Definition net_games (games : list value) : network :=
  fun _ rq =>
    if same_url rq summaries_url then ok (players_body [gaben])
    else if same_url rq owned_games_url then ok (games_body games)
    else Failed.

(** Friend identifiers [76561198000000000 + k], [k < n]. *)
Definition many_ids (n : nat) : list ustr :=
  map (fun k => digits (76561198000000000 + N.of_nat k)) (seq 0 n).

Definition friend_list_url : ustr :=
  U "https://api.steampowered.com/ISteamUser/GetFriendList/v0001/".

(** The record a summaries request is answered with in the examples: it
    echoes the identifiers asked for. *)
Definition echo (steamids : value) : value :=
  VDict [(U "asked", steamids)].

Definition asked (rq : request) : value :=
  match lookup (U "steamids") (params rq) with
  | Some v => v
  | None => VNone
  end.

(** A remote side with [ids] as friend list and no games; summaries
    requests are echoed, except that the request number [down] of the run
    fails in transport. *)
Definition net_batches (ids : list ustr) (down : nat) : network :=
  fun n rq =>
    if same_url rq friend_list_url then ok (friends_body ids)
    else if same_url rq owned_games_url then ok (games_body [])
    else if (n =? down)%nat then Failed
    else ok (players_body [echo (asked rq)]).

(** Twelve friends: five from US, five from RU, two from FR; US is met
    first, then RU, then FR. *)
Definition twelve_friends : list value :=
  map (fun c => VDict [(U "steamid", VStr (U "7656119800000000"));
                       (U "loccountrycode", VStr (U c))])
    ["US"; "RU"; "FR"; "RU"; "US"; "US"; "RU"; "FR"; "RU"; "US"; "RU";
     "US"]%string.

Definition three_games : list value :=
  [game (U "Dota 2") 700; game (U "Portal") 300; game (U "Ricochet") 15].

(** A complete aggregate. *)
Definition example_aggregate : aggregate :=
  Aggregate gaben twelve_friends three_games.

(** A profile without real name, with an empty display name and with a
    creation time of 0. *)
Definition bare_profile : value :=
  VDict [(U "personaname", VStr []); (U "timecreated", VInt 0)].

Definition bare_aggregate : aggregate := Aggregate bare_profile [] [].

(* ================================================================== *)
(** ** More of [str]: [startswith], [in], [split] *)

(** What is left of [s] after the prefix [p], when [s] starts with it. *)
Fixpoint strip_prefix (p s : ustr) : option ustr :=
  match p, s with
  | [], _ => Some s
  | _ :: _, [] => None
  | a :: p', b :: s' => if (a =? b)%N then strip_prefix p' s' else None
  end.

Definition startswith (s p : ustr) : bool :=
  match strip_prefix p s with
  | Some _ => true
  | None => false
  end.

(** [sub in s]. *)
Fixpoint contains (sub s : ustr) : bool :=
  startswith s sub
  || match s with
     | [] => false
     | _ :: s' => contains sub s'
     end.

(** The pieces of [s] between the occurrences of [sep], found from the
    left and not overlapping; [cur] is the piece being read, reversed.
    The fuel is never exhausted when it exceeds the length of [s] and
    [sep] is not empty. *)
Fixpoint split_fuel (fuel : nat) (sep s cur : ustr) : list ustr :=
  match fuel with
  | O => [rev cur ++ s]
  | S fuel' =>
      match s with
      | [] => [rev cur]
      | c :: s' =>
          match strip_prefix sep s with
          | Some rest => rev cur :: split_fuel fuel' sep rest []
          | None => split_fuel fuel' sep s' (c :: cur)
          end
      end
  end.

Definition pieces (sep s : ustr) : list ustr :=
  split_fuel (S (length s)) sep s [].

(** [s.split(sep)]: an empty separator is refused. *)
Definition py_split (s sep : ustr) : outcome (list ustr) :=
  match sep with
  | [] => Raise ValueError
  | _ :: _ => Ret (pieces sep s)
  end.

(** [l[-1]] and [l[0]] on the result of a split, which is never empty. *)
Definition last_piece (l : list ustr) : ustr := last l [].
Definition first_piece (l : list ustr) : ustr := hd [] l.

(* ================================================================== *)
(** ** The chat side and the bootstrap

    The handlers reply through the chat transport and the bootstrap writes
    informational log records.  A [session] holds the [world] of the
    pipeline, the replies attempted so far, and the journal of the
    bootstrap, in order.  The chat transport is a second oracle: whether
    the [n]-th reply of a run is delivered.  The handlers are modelled on
    the text of the incoming message ([update.message.text]). *)

Inductive message : Type :=
| ReplyText (text : ustr) (parse_mode : option ustr)
| ReplyPhoto (photo : value) (caption : ustr) (parse_mode : option ustr).

(** What can end a handler or the bootstrap early: an exception of the
    pipeline code, or a reply that the chat transport fails to deliver. *)
Inductive fault : Type :=
| PipelineError (e : exn)
| TelegramError.

Inductive completion (A : Type) : Type :=
| Finished (a : A)
| Crashed (f : fault).

Arguments Finished {A} a.
Arguments Crashed {A} f.

Inductive note_level : Type := LOG_INFO | LOG_WARNING | LOG_ERROR.

(** A record of the bootstrap: level, text, and the exception formatted at
    its end, if any. *)
Record note : Type := Note {
  note_level_of : note_level;
  note_text : ustr;
  note_exn : option exn
}.

Record session : Type := Session {
  pipeline : world;
  outbox : list message;
  journal : list note
}.

Definition chat_transport := nat -> message -> bool.

Definition bot (A : Type) : Type := session -> completion A * session.

Definition bot_ret {A} (a : A) : bot A := fun s => (Finished a, s).

Definition bot_bind {A B} (m : bot A) (k : A -> bot B) : bot B :=
  fun s =>
    match m s with
    | (Finished a, s') => k a s'
    | (Crashed f, s') => (Crashed f, s')
    end.

(** [try: m  except Exception as e: h e] around pipeline code. *)
Definition bot_try {A} (m : bot A) (h : fault -> bot A) : bot A :=
  fun s =>
    match m s with
    | (Finished a, s') => (Finished a, s')
    | (Crashed f, s') => h f s'
    end.

(** A call into the pipeline: its requests and log records go to the
    [world] of the session. *)
Definition run_io {A} (m : io A) : bot A :=
  fun s =>
    match m (pipeline s) with
    | (Ret a, w) => (Finished a, Session w (outbox s) (journal s))
    | (Raise e, w) =>
        (Crashed (PipelineError e), Session w (outbox s) (journal s))
    end.

Definition run_pure {A} (m : outcome A) : bot A := run_io (lift m).

Definition take_note (lv : note_level) (text : ustr) (e : option exn)
    : bot unit :=
  fun s =>
    (Finished tt,
     Session (pipeline s) (outbox s) (journal s ++ [Note lv text e])).

Declare Scope bot_scope.
Delimit Scope bot_scope with bot.
Notation "x <- m ;; k" := (bot_bind m (fun x => k))
  (at level 61, m at next level, right associativity) : bot_scope.
Notation "m ;;; k" := (bot_bind m (fun _ => k))
  (at level 61, right associativity) : bot_scope.

(** The texts of the replies. *)
Definition start_text : ustr :=
  U "Привет! Отправь мне свой SteamID (цифровой или кастомный URL), и я покажу информацию о твоём профиле." ++ nl
  ++ U "Примеры:" ++ nl
  ++ U "- 76561198000000000" ++ nl
  ++ U "- https://steamcommunity.com/id/ваш_ник/" ++ nl
  ++ U "- ваш_ник".

Definition bad_link_text : ustr := U "❌ Неверный формат ссылки.".
Definition not_found_text : ustr :=
  U "❌ Не удалось найти профиль. Убедитесь, что ник верный и профиль публичный.".
Definition no_data_text : ustr :=
  U "❌ Не удалось получить данные. Профиль приватный или не существует.".

(** [status_map.get(k, "Неизвестно")]: the key must be hashable; [True]
    and [False] are the keys 1 and 0. *)
Definition status_map_get (k : value) : outcome ustr :=
  if hashable k
  then
    Ret (match as_int k with
         | Some 0 => U "Оффлайн"
         | Some 1 => U "Онлайн"
         | Some 2 => U "Занят"
         | Some 3 => U "Отошёл"
         | Some 4 => U "Спит"
         | Some 5 => U "Хочет поиграть"
         | Some 6 => U "Не видно"
         | _ => U "Неизвестно"
         end)
  else Raise TypeError.

Definition html : option ustr := Some (U "HTML").

Section Handlers.
Context `{PyEnv}.
Variable net : network.
Variable telegram : chat_transport.

Local Open Scope bot_scope.

(** [await update.message.reply_text(...)] / [reply_photo(...)]: the reply
    is attempted, and the call raises when it is not delivered. *)
Definition send_reply (m : message) : bot unit :=
  fun s =>
    let s' := Session (pipeline s) (outbox s ++ [m]) (journal s) in
    if telegram (length (outbox s)) m then (Finished tt, s')
    else (Crashed TelegramError, s').

Definition start : bot unit := send_reply (ReplyText start_text None).

(** The caption of the profile card. *)
Definition caption_of (p : value) : bot ustr :=
  personastate <- run_pure (py_get p (U "personastate") VNone) ;;
  status <- run_pure (status_map_get personastate) ;;
  visibilitystate <-
    run_pure (py_get p (U "communityvisibilitystate") VNone) ;;
  let visibility :=
    if py_eq_int visibilitystate 3 then U "Публичный" else U "Приватный" in
  personaname <- run_pure (py_get p (U "personaname") (VStr (U "—"))) ;;
  profileurl <- run_pure (py_get p (U "profileurl") (VStr [])) ;;
  bot_ret
    (U "👤 <b>Имя:</b> " ++ py_str personaname ++ nl
     ++ U "🌐 <b>Статус:</b> " ++ status ++ nl
     ++ U "👁️ <b>Видимость:</b> " ++ visibility ++ nl
     ++ U "🔗 <a href='" ++ py_str profileurl ++ U "'>Открыть профиль</a>").

(** The card: the caption with the avatar when the profile has one, the
    caption alone otherwise. *)
Definition send_card (p : value) : bot unit :=
  caption <- caption_of p ;;
  avatar <- run_pure (py_get p (U "avatarfull") VNone) ;;
  if py_truthy avatar then send_reply (ReplyPhoto avatar caption html)
  else send_reply (ReplyText caption html).

(** The digest, handed to the text generator, and the reply with what
    comes back. *)
Definition send_commentary (profile_data : aggregate) : bot unit :=
  simplified <- run_pure (simplify_steam_profile profile_data) ;;
  roast <- run_io (llm_message net simplified) ;;
  send_reply (ReplyText roast None).

(** The handler from [profile_data = fetch_steam_profile(steam_id)] on. *)
Definition show_profile (steam_id : value) : bot unit :=
  profile_data <- run_io (fetch_steam_profile net steam_id) ;;
  match profile_data with
  | None => send_reply (ReplyText no_data_text None)
  | Some data => send_card (profile data) ;;; send_commentary data
  end.

(** The handler from [if not steam_id] on. *)
Definition after_lookup (steam_id : value) : bot unit :=
  if negb (py_truthy steam_id)
  then send_reply (ReplyText not_found_text None)
  else show_profile steam_id.

(** The path segment that follows the last occurrence of [marker]:
    [text.split(marker)[-1].split("/")[0]]. *)
Definition segment_after (marker text : ustr) : outcome ustr :=
  let* parts := py_split text marker in
  let* segments := py_split (last_piece parts) (U "/") in
  Ret (first_piece segments).

Definition handle_steam_id (message_text : ustr) : bot unit :=
  let text := py_strip message_text in
  if startswith text (U "http")
  then
    if contains (U "/id/") text
    then
      vanity <- run_pure (segment_after (U "/id/") text) ;;
      steam_id <- run_io (resolve_steam_id net vanity) ;;
      after_lookup steam_id
    else if contains (U "/profiles/") text
    then
      steam_id <- run_pure (segment_after (U "/profiles/") text) ;;
      after_lookup (VStr steam_id)
    else send_reply (ReplyText bad_link_text None)
  else
    steam_id <- run_io (resolve_steam_id net text) ;;
    after_lookup steam_id.

End Handlers.

Section Bootstrap.
Context `{PyEnv}.
Variable net : network.

(** What reading the streamed body line by line comes to:
    [for _ in resp.iter_lines(): pass].  With [stream=True] the request on
    the wire is unchanged; only the reading of the body is deferred, and it
    can fail. *)
Variable iter_lines : response -> outcome unit.

Local Open Scope bot_scope.

Definition tags_request : request :=
  Request GET (U "http://ollama:11434/api/tags") [] [] None 10.

Definition pull_request (model_name : ustr) : request :=
  Request POST (U "http://ollama:11434/api/pull") [] []
    (Some (VDict [(U "name", VStr model_name)])) 600.

(** [any(model_name == m["name"] for m in models)]: the entries are read
    in order, up to the first one that bears the name. *)
Fixpoint any_named (model_name : ustr) (models : list value)
    : outcome bool :=
  match models with
  | [] => Ret false
  | m :: rest =>
      let* name := py_getitem m (U "name") in
      match name with
      | VStr s =>
          if ustr_eqb model_name s then Ret true
          else any_named model_name rest
      | _ => any_named model_name rest
      end
  end.

(** The first [try] block: whether the model is found among the tags. *)
Definition model_listed (model_name : ustr) : bot bool :=
  bot_try
    (resp <- run_io (send net tags_request) ;;
     if status_code resp =? 200
     then
       d <- run_io (resp_json resp) ;;
       models <- run_pure (py_get d (U "models") (VList [])) ;;
       ms <- run_pure (py_iter models) ;;
       found <- run_pure (any_named model_name ms) ;;
       if found
       then
         take_note LOG_INFO
           (U "✅ Модель " ++ model_name ++ U " уже загружена.") None ;;;
         bot_ret true
       else bot_ret false
     else bot_ret false)
    (fun f =>
       take_note LOG_WARNING (U "Не удалось проверить модели: ")
         (match f with PipelineError e => Some e | TelegramError => None end)
       ;;;
       bot_ret false).

Definition load_model_if_needed (model_name : ustr) : bot unit :=
  listed <- model_listed model_name ;;
  if listed then bot_ret tt
  else
    take_note LOG_INFO
      (U "📥 Загружаем модель: " ++ model_name ++ U "...") None ;;;
    bot_try
      (resp <- run_io (send net (pull_request model_name)) ;;
       run_io (raise_for_status resp) ;;;
       run_pure (iter_lines resp) ;;;
       take_note LOG_INFO
         (U "✅ Модель " ++ model_name ++ U " успешно загружена!") None)
      (fun f =>
         take_note LOG_ERROR
           (U "❌ Ошибка загрузки модели " ++ model_name ++ U ": ")
           (match f with PipelineError e => Some e | TelegramError => None end)
         ;;;
         fun s => (Crashed f, s)).

End Bootstrap.

(* ================================================================== *)
(** ** Vocabulary of the further properties *)

(** No occurrence of the separator begins in the piece being read. *)
Definition clear_of (sep cur s : ustr) : Prop :=
  forall a b, rev cur = a ++ b -> b <> [] -> strip_prefix sep (b ++ s) = None.

(** A request for the summaries of one batch of friends. *)
Definition batch_lookup `{PyEnv} (rq : request) : Prop :=
  exists batch, rq = summaries_request (VStr batch) 15.

Definition friends_warning (e : exn) : log_record :=
  LogRecord WARNING (U "Ошибка загрузки друзей: ") e.

Definition games_warning (e : exn) : log_record :=
  LogRecord WARNING (U "Ошибка загрузки игр: ") e.

Definition resolve_error (user_input : ustr) (e : exn) : log_record :=
  LogRecord ERROR
    (U "Ошибка при разрешении vanity URL '" ++ user_input ++ U "': ") e.

Definition chat_error (e : exn) : log_record :=
  LogRecord ERROR (U "Ошибка ИИ: ") e.

(** A handler action that, from any session, attempts at most [hi]
    replies, and at least [lo] when it finishes; that keeps the replies,
    requests and log records that were there; whose replies all satisfy
    [P] and whose requests all satisfy [R]; and that leaves the journal
    alone. *)
Definition emits {A} (lo hi : nat) (P : message -> Prop)
    (R : request -> Prop) (m : bot A) : Prop :=
  forall s,
  exists c s' new more lg,
    m s = (c, s')
    /\ outbox s' = outbox s ++ new
    /\ sent (pipeline s') = sent (pipeline s) ++ more
    /\ logged (pipeline s') = logged (pipeline s) ++ lg
    /\ journal s' = journal s
    /\ Forall P new
    /\ Forall R more
    /\ (length new <= hi)%nat
    /\ (forall a, c = Finished a -> (lo <= length new)%nat).

(** An action of the pipeline that keeps the requests and log records
    that were there, and whose requests all satisfy [R]. *)
Definition extends {A} (R : request -> Prop) (m : io A) : Prop :=
  forall w,
  exists o more lg,
    m w = (o, World (sent w ++ more) (logged w ++ lg))
    /\ Forall R more.

Definition lookup_url : ustr :=
  U "https://api.steampowered.com/ISteamUser/ResolveVanityURL/v0001/".

(** A request that is not a lookup of a vanity name. *)
Definition not_lookup (rq : request) : Prop := same_url rq lookup_url = false.

Definition bad_link_reply : message := ReplyText bad_link_text None.
Definition not_found_reply : message := ReplyText not_found_text None.
Definition no_data_reply : message := ReplyText no_data_text None.

(** A link that names neither a vanity name nor a profile. *)
Definition unusable_link (text : ustr) : bool :=
  startswith text (U "http")
  && negb (contains (U "/id/") text)
  && negb (contains (U "/profiles/") text).

(** A reply other than the one to an unusable link. *)
Definition other_reply (m : message) : Prop := m <> bad_link_reply.

(** [Q] holds of every value the action finishes with. *)
Definition finishes_with {A} (Q : A -> Prop) (m : bot A) : Prop :=
  forall s a s', m s = (Finished a, s') -> Q a.

(** [record.get(field)]. *)
Definition field_or_none (record : list (ustr * value)) (field : ustr)
    : value :=
  match lookup field record with
  | Some v => v
  | None => VNone
  end.

(** The card of a profile record, given its caption. *)
Definition card_of (record : list (ustr * value)) (caption : ustr)
    : message :=
  let avatar := field_or_none record (U "avatarfull") in
  if py_truthy avatar then ReplyPhoto avatar caption html
  else ReplyText caption html.

(** A chat transport that delivers every reply. *)
Definition telegram_up : chat_transport := fun _ _ => true.

Definition s0 : session := Session w0 [] [].

(** A reply to the profile request that names no player: a status other
    than 200, or status 200 with an empty or absent player list. *)
Definition no_player (rp : reply) : Prop :=
  exists r,
    rp = Answered r
    /\ (status_code r <> 200
        \/ exists d players,
             body r = Some d
             /\ nested_get (U "response") (U "players") d = Ret players
             /\ py_truthy players = false).

(** A profile request that fails in transport, or is answered with status
    200 and a body that is not JSON; with the exception it raises. *)
Definition broken_profile_reply (rp : reply) (e : exn) : Prop :=
  (rp = Failed /\ e = RequestException)
  \/ (exists r, rp = Answered r /\ status_code r = 200 /\ body r = None
                /\ e = JSONDecodeError).

(** Profile, friends and games are served to every request; the text
    generator is down. *)
Definition net_steam_only (games : list value) : network :=
  fun _ rq =>
    if same_url rq summaries_url then ok (players_body [gaben])
    else if same_url rq friend_list_url then ok (friends_body [])
    else if same_url rq owned_games_url then ok (games_body games)
    else Failed.

(** A game record without a name. *)
Definition nameless_game : value :=
  VDict [(U "playtime_forever", VInt 30)].

(** Every request is answered with status 404. *)
Definition net_404 : network := fun _ _ => Answered (Response 404 None).

(** A reply to the tags request that lists the models [ms]. *)
Definition tags_serve (rp : reply) (ms : list value) : Prop :=
  exists r d models,
    rp = Answered r
    /\ status_code r = 200
    /\ body r = Some d
    /\ py_get d (U "models") (VList []) = Ret models
    /\ py_iter models = Ret ms.

(** The model is found among the tags. *)
Definition listed (rp : reply) (model_name : ustr) : Prop :=
  exists ms, tags_serve rp ms /\ any_named model_name ms = Ret true.

(** What the pull comes to, given the reply to it. *)
Definition pull_result (iter_lines : response -> outcome unit) (rp : reply)
    : outcome unit :=
  match rp with
  | Failed => Raise RequestException
  | Answered r =>
      if (400 <=? status_code r) && (status_code r <? 600)
      then Raise HTTPError
      else iter_lines r
  end.

Definition already_loaded_note (model_name : ustr) : note :=
  Note LOG_INFO (U "✅ Модель " ++ model_name ++ U " уже загружена.") None.

Definition check_failed_note (e : exn) : note :=
  Note LOG_WARNING (U "Не удалось проверить модели: ") (Some e).

Definition loading_note (model_name : ustr) : note :=
  Note LOG_INFO (U "📥 Загружаем модель: " ++ model_name ++ U "...") None.

Definition loaded_note (model_name : ustr) : note :=
  Note LOG_INFO (U "✅ Модель " ++ model_name ++ U " успешно загружена!")
    None.

Definition pull_failed_note (model_name : ustr) (e : exn) : note :=
  Note LOG_ERROR (U "❌ Ошибка загрузки модели " ++ model_name ++ U ": ")
    (Some e).

(** An entry of the tags that bears a name other than [model_name]. *)
Definition named_otherwise (model_name : ustr) (m : value) : Prop :=
  exists v, py_getitem m (U "name") = Ret v /\ v <> VStr model_name.

(** A tags reply with the given entries. *)
Definition tags_body (ms : list value) : value :=
  VDict [(U "models", VList ms)].

Definition model_entry (name : ustr) : value :=
  VDict [(U "name", VStr name)].

(** The tags list an entry without a name before the entry of the model;
    the pull is answered with status 200. *)
Definition net_nameless_first : network :=
  fun _ rq =>
    if same_url rq (U "http://ollama:11434/api/tags")
    then ok (tags_body [VDict []; model_entry (U "phi3:mini")])
    else ok (VDict []).

Definition lines_ok : response -> outcome unit := fun _ => Ret tt.

(** The counts of a tally, added up. *)
Definition total_count (fc : list (value * Z)) : Z :=
  fold_right (fun item acc => snd item + acc) 0 fc.

(** The digest of a profile record with no friends and no games. *)
Definition bare_digest `{PyEnv} (d : list (ustr * value)) : ustr :=
  digest_format
    (shown d (U "personaname") (U "No nickname"))
    (shown d (U "realname") (U "Not specified"))
    (shown d (U "loccountrycode") (U "Unknown"))
    (created_text d) 0 [] 0 (Float false 0 0) [].

(** Four friends: one from US, two whose country code is null, one without
    a country code. *)
Definition friends_with_null_codes : list value :=
  [VDict [(U "steamid", VStr (U "76561198000000001"));
          (U "loccountrycode", VStr (U "US"))];
   VDict [(U "steamid", VStr (U "76561198000000002"));
          (U "loccountrycode", VNone)];
   VDict [(U "steamid", VStr (U "76561198000000003"))];
   VDict [(U "steamid", VStr (U "76561198000000004"));
          (U "loccountrycode", VNone)]].

(** The same friends, the null codes left out of the records. *)
Definition friends_with_absent_codes : list value :=
  [VDict [(U "steamid", VStr (U "76561198000000001"));
          (U "loccountrycode", VStr (U "US"))];
   VDict [(U "steamid", VStr (U "76561198000000002"))];
   VDict [(U "steamid", VStr (U "76561198000000003"))];
   VDict [(U "steamid", VStr (U "76561198000000004"))]].

(** What the check of the tags comes to, given the reply to the tags
    request: whether the model is found, or the exception raised on the
    way. *)
Definition check_result (model_name : ustr) (rp : reply) : outcome bool :=
  match rp with
  | Failed => Raise RequestException
  | Answered r =>
      if status_code r =? 200
      then
        match body r with
        | None => Raise JSONDecodeError
        | Some d =>
            let* models := py_get d (U "models") (VList []) in
            let* ms := py_iter models in
            any_named model_name ms
        end
      else Ret false
  end.

(** The record of a check that raised. *)
Definition check_notes (checked : outcome bool) : list note :=
  match checked with
  | Raise e => [check_failed_note e]
  | Ret _ => []
  end.
(* ================================================================== *)
(** * Properties *)

(** ** Concrete runs *)

(** The digest of a complete aggregate, as it is sent to the user. *)
Example digest_of_example_aggregate :
  @simplify_steam_profile ascii_env example_aggregate
  = Ret (U "Steam User:
- Display name: gaben
- Real name: Not specified
- Country: Unknown
- Account created: 09/12/2004

Friends:
- Total friends: 12
- Top friend countries: 5 from US, 5 from RU, 2 from FR

Gaming activity:
- Sample of owned games: 3
- Total playtime (in sample): ~16.9 hours
- Example games: Dota 2, Portal, Ricochet").
Proof. vm_compute. reflexivity. Qed.

(** A summarizer input on which the digest cannot be built: a game record
    without a name makes [g["name"]] raise. *)
Example digest_of_nameless_game :
  @simplify_steam_profile ascii_env
    (Aggregate gaben [] [VDict [(U "playtime_forever", VInt 5)]])
  = Raise KeyError.
Proof. reflexivity. Qed.

(** Three minutes are 0.05 hour; the nearest float lies above 0.05 and
    prints as 0.1, while nine minutes, 0.15 hour, print as 0.1 as well. *)
Example hours_of_three_and_nine_minutes :
  (let* x := py_truediv 3 60 in Ret (format_1f x)) = Ret (U "0.1")
  /\ (let* x := py_truediv 9 60 in Ret (format_1f x)) = Ret (U "0.1")
  /\ (let* x := py_truediv 15 60 in Ret (format_1f x)) = Ret (U "0.2").
Proof. repeat split; vm_compute; reflexivity. Qed.

(** Creation dates: the epoch one second in, a leap day, a day in 2004,
    the last second of 1969. *)
Example creation_dates :
  map (fun t =>
         let* date := utcfromtimestamp (VInt t) in Ret (strftime_mdY date))
    [1; 951782400; 1094976000; -1]
  = [Ret (U "01/01/1970"); Ret (U "02/29/2000"); Ret (U "09/12/2004");
     Ret (U "12/31/1969")].
Proof. vm_compute. reflexivity. Qed.

(** With only the profile served, the aggregation still succeeds, with no
    friends and no games, and two warnings are logged. *)
Example profile_only_run :
  let run := @fetch_steam_profile ascii_env net_profile_only
               (VStr (U "76561198000000001")) w0 in
  fst run = Ret (Some (Aggregate gaben [] []))
  /\ length (sent (snd run)) = 3%nat
  /\ map log_level (logged (snd run)) = [WARNING; WARNING].
Proof. repeat split; vm_compute; reflexivity. Qed.

(** The whole of an unresolved lookup: one request, no log record. *)
Example unresolved_lookup :
  let net : network :=
    fun _ _ => ok (VDict [(U "response", VDict [(U "success", VInt 42)])]) in
  @resolve_steam_id ascii_env net (U " gaben ") w0
  = (Ret VNone, World [@vanity_request ascii_env (U "gaben")] []).
Proof. vm_compute. reflexivity. Qed.

(** ** Decimal printing *)

Section Decimal.
Local Open Scope N_scope.

Lemma fold_decimal_shift (s : ustr) (v : N) :
  fold_left (fun v c => 10 * v + (c - 48)) s v
  = v * 10 ^ N.of_nat (length s) + decimal_value s.
Proof.
  unfold decimal_value. revert v.
  induction s as [|c s IH]; intros v.
  - cbn. lia.
  - cbn [fold_left length]. rewrite IH, (IH (10 * 0 + (c - 48))).
    rewrite Nat2N.inj_succ, N.pow_succ_r'. lia.
Qed.

Lemma digits_fuel_value (fuel : nat) :
  forall n acc,
    n < 10 ^ N.of_nat fuel ->
    decimal_value (digits_fuel fuel n acc)
    = n * 10 ^ N.of_nat (length acc) + decimal_value acc.
Proof.
  induction fuel as [|fuel IH]; intros n acc Hn.
  - cbn in Hn. assert (n = 0) by lia. subst. cbn [digits_fuel].
    now rewrite N.mul_0_l.
  - cbn [digits_fuel].
    pose proof (N.div_mod' n 10) as Hdm.
    pose proof (N.mod_lt n 10 ltac:(lia)) as Hr.
    assert (Hcons : decimal_value ((48 + n mod 10) :: acc)
                    = n mod 10 * 10 ^ N.of_nat (length acc)
                      + decimal_value acc).
    { unfold decimal_value at 1. cbn [fold_left].
      rewrite fold_decimal_shift.
      f_equal. f_equal. rewrite N.mul_0_r, N.add_0_l.
      rewrite N.add_comm. apply N.add_sub. }
    destruct (n <? 10) eqn:Hlt.
    + apply N.ltb_lt in Hlt. rewrite Hcons.
      rewrite (N.mod_small n 10) by exact Hlt. reflexivity.
    + rewrite IH.
      * rewrite Hcons. cbn [length]. rewrite Nat2N.inj_succ, N.pow_succ_r'.
        nia.
      * rewrite Nat2N.inj_succ, N.pow_succ_r' in Hn.
        apply N.Div0.div_lt_upper_bound. exact Hn.
Qed.

Lemma digits_value (n : N) : decimal_value (digits n) = n.
Proof.
  unfold digits. rewrite digits_fuel_value.
  - cbn. lia.
  - rewrite Nat2N.inj_succ, N2Nat.id.
    destruct (N.eq_dec n 0) as [->|Hn]; [reflexivity|].
    apply N.lt_le_trans with (2 ^ N.succ (N.log2 n)).
    + apply N.log2_spec. lia.
    + apply N.pow_le_mono_l. lia.
Qed.

End Decimal.

(** [str(z)] of a non-negative integer denotes [z]. *)
Lemma str_int_value (z : Z) :
  0 <= z -> Z.of_N (decimal_value (str_int z)) = z.
Proof.
  intros Hz. unfold str_int.
  replace (z <? 0) with false by (symmetry; apply Z.ltb_ge; exact Hz).
  rewrite digits_value. now apply Z2N.id.
Qed.

(** ** The identifier resolver *)




Lemma raise_for_status_error `{PyEnv} (r : response) (w : world) :
  error_status (status_code r) ->
  raise_for_status r w = (Raise HTTPError, w).
Proof.
  unfold error_status, raise_for_status; intros [Hlo Hhi].
  apply Z.leb_le in Hlo; apply Z.ltb_lt in Hhi.
  now rewrite Hlo, Hhi.
Qed.

Lemma raise_for_status_pass `{PyEnv} (r : response) (w : world) :
  ~ error_status (status_code r) ->
  raise_for_status r w = (Ret tt, w).
Proof.
  unfold error_status, raise_for_status; intros Hn.
  destruct (400 <=? status_code r) eqn:Hlo;
    destruct (status_code r <? 600) eqn:Hhi; try reflexivity.
  apply Z.leb_le in Hlo; apply Z.ltb_lt in Hhi; lia.
Qed.

Lemma error_status_dec (s : Z) : {error_status s} + {~ error_status s}.
Proof.
  unfold error_status.
  destruct (Z_le_dec 400 s); destruct (Z_lt_dec s 600);
    (left; lia) || (right; lia).
Qed.

(** C6. When the trimmed input is all digits and at least 15 characters
    long, [resolve_steam_id] returns the trimmed input itself and leaves
    the world as it was: no request is sent (and nothing is logged),
    whatever the remote side would have answered.  An input without
    surrounding whitespace is therefore returned unchanged. *)
Theorem resolve_numeric_shortcut `{PyEnv} (net : network) (raw : ustr)
    (w : world) :
  py_isdigit (py_strip raw) = true ->
  (15 <= length (py_strip raw))%nat ->
  resolve_steam_id net raw w = (Ret (VStr (py_strip raw)), w)
  /\ sent (snd (resolve_steam_id net raw w)) = sent w
  /\ (py_strip raw = raw ->
      resolve_steam_id net raw w = (Ret (VStr raw), w)).
Proof.
  intros Hd Hl.
  assert (E : resolve_steam_id net raw w = (Ret (VStr (py_strip raw)), w)).
  { unfold resolve_steam_id.
    apply Nat.leb_le in Hl. now rewrite Hd, Hl. }
  repeat split.
  - exact E.
  - now rewrite E.
  - intros Hs. now rewrite E, Hs.
Qed.

Lemma resolve_numeric_shortcut_witness :
  let raw := U "76561198000000001" in
  @resolve_steam_id ascii_env (fun _ _ => Failed) raw w0
  = (Ret (VStr raw), w0).
Proof.
  intros raw.
  refine (proj1 (@resolve_numeric_shortcut ascii_env _ raw w0 _ _)).
  - reflexivity.
  - vm_compute. lia.
Defined.

(** What [resolve_steam_id] does once the request has been answered. *)
Lemma resolve_vanity_run `{PyEnv} (net : network) (raw : ustr) (w : world) :
  numeric_shortcut (py_strip raw) = false ->
  exists v lg,
    resolve_steam_id net raw w
    = (Ret v, World (sent w ++ [vanity_request (py_strip raw)]) lg)
    /\ (v <> VNone ->
        exists r d,
          net (length (sent w)) (vanity_request (py_strip raw)) = Answered r
          /\ ~ error_status (status_code r)
          /\ body r = Some d
          /\ resolved_as d v)
    /\ (forall r d sid,
          net (length (sent w)) (vanity_request (py_strip raw)) = Answered r ->
          ~ error_status (status_code r) ->
          body r = Some d ->
          resolved_as d sid ->
          v = sid).
Proof.
  intros Hs. unfold numeric_shortcut in Hs.
  unfold resolve_steam_id. rewrite Hs.
  set (rq := vanity_request (py_strip raw)).
  unfold try_except, bind at 1. unfold send.
  destruct (net (length (sent w)) rq) as [r|] eqn:Hnet.
  2:{ eexists _, _. split; [reflexivity|]. split.
      - intros Hv; now elim Hv.
      - intros; discriminate. }
  cbn [sent logged].
  destruct (error_status_dec (status_code r)) as [He|He].
  { unfold bind. rewrite raise_for_status_error by exact He.
    eexists _, _. split; [reflexivity|]. split.
    - intros Hv; now elim Hv.
    - intros r0 d sid E; inversion E; subst; tauto. }
  unfold bind at 1. rewrite raise_for_status_pass by exact He.
  unfold bind at 1. unfold resp_json.
  destruct (body r) as [d|] eqn:Hb.
  2:{ eexists _, _. split; [reflexivity|]. split.
      - intros Hv; now elim Hv.
      - intros r0 d sid E; inversion E; subst; congruence. }
  unfold bind, lift, ret.
  destruct (py_getitem d (U "response")) as [rr|e1] eqn:H1.
  2:{ eexists _, _. split; [reflexivity|]. split.
      - intros Hv; now elim Hv.
      - intros r0 d0 sid E _ Hb0 (x & s & Hx & _).
        inversion E; subst. congruence. }
  destruct (py_getitem rr (U "success")) as [s|e2] eqn:H2.
  2:{ eexists _, _. split; [reflexivity|]. split.
      - intros Hv; now elim Hv.
      - intros r0 d0 sid E _ Hb0 (x & s & Hx & Hs0 & _).
        inversion E; subst. congruence. }
  destruct (py_eq_int s 1) eqn:H3.
  2:{ eexists _, _. split; [reflexivity|]. split.
      - intros Hv; now elim Hv.
      - intros r0 d0 sid E _ Hb0 (x & s0 & Hx & Hs0 & Heq & _).
        inversion E; subst. congruence. }
  destruct (py_getitem rr (U "steamid")) as [sid|e3] eqn:H4.
  2:{ eexists _, _. split; [reflexivity|]. split.
      - intros Hv; now elim Hv.
      - intros r0 d0 sid E _ Hb0 (x & s0 & Hx & Hs0 & Heq & Hsid).
        inversion E; subst. congruence. }
  eexists _, _. split; [reflexivity|]. split.
  - intros _. exists r, d. repeat split; auto.
    exists rr, s. auto.
  - intros r0 d0 sid0 E _ Hb0 (x & s0 & Hx & Hs0 & Heq & Hsid).
    inversion E; subst. congruence.
Qed.

Lemma none_or_not (v : value) : v = VNone \/ v <> VNone.
Proof. destruct v; (now left) || (right; discriminate). Qed.

(** C7 (amended). When the numeric shortcut is not taken,
    [resolve_steam_id] sends exactly one request, the vanity lookup for the
    trimmed input, and returns normally: it never raises.  The result is
    [None] when the request fails in transport, when the status is 4xx or
    5xx, when the body is not JSON, when the payload lacks the expected
    fields, and when the payload does not say "resolved" ([success] is not
    1).  A well-formed resolved payload under any other status yields the
    identifier it carries. *)
Theorem resolve_vanity_not_found `{PyEnv} (net : network) (raw : ustr)
    (w : world) :
  numeric_shortcut (py_strip raw) = false ->
  let rq := vanity_request (py_strip raw) in
  let rp := net (length (sent w)) rq in
  exists v w',
    resolve_steam_id net raw w = (Ret v, w')
    /\ sent w' = sent w ++ [rq]
    /\ (rp = Failed -> v = VNone)
    /\ (forall r, rp = Answered r -> error_status (status_code r) ->
        v = VNone)
    /\ (forall r, rp = Answered r -> body r = None -> v = VNone)
    /\ (forall r d, rp = Answered r -> body r = Some d ->
        (forall sid, ~ resolved_as d sid) -> v = VNone)
    /\ (forall r d rr s, rp = Answered r -> body r = Some d ->
        py_getitem d (U "response") = Ret rr ->
        py_getitem rr (U "success") = Ret s ->
        py_eq_int s 1 = false -> v = VNone)
    /\ (forall r d sid, rp = Answered r ->
        ~ error_status (status_code r) -> body r = Some d ->
        resolved_as d sid -> v = sid).
Proof.
  intros Hs rq rp.
  destruct (resolve_vanity_run net raw w Hs) as (v & lg & E & Hnz & Hok).
  fold rq in E, Hnz, Hok. fold rp in Hnz, Hok.
  exists v, (World (sent w ++ [rq]) lg).
  split; [exact E|]. split; [reflexivity|].
  assert (Hcases : v = VNone \/
            exists r d, rp = Answered r /\ ~ error_status (status_code r)
                        /\ body r = Some d /\ resolved_as d v).
  { destruct (none_or_not v) as [?|Hv]; [now left | right; auto]. }
  repeat split.
  - intros Hf. destruct Hcases as [?|(r & d & Hr & _)]; [assumption|].
    congruence.
  - intros r Hr He.
    destruct Hcases as [?|(r' & d & Hr' & Hne & _)]; [assumption|].
    assert (r' = r) by congruence. subst. contradiction.
  - intros r Hr Hb.
    destruct Hcases as [?|(r' & d & Hr' & _ & Hb' & _)]; [assumption|].
    assert (r' = r) by congruence. subst. congruence.
  - intros r d Hr Hb Hno.
    destruct Hcases as [?|(r' & d' & Hr' & _ & Hb' & Hres)]; [assumption|].
    assert (r' = r) by congruence. subst.
    assert (d' = d) by congruence. subst.
    now elim (Hno v).
  - intros r d rr s Hr Hb H1 H2 H3.
    destruct Hcases as [?|(r' & d' & Hr' & _ & Hb' & Hres)]; [assumption|].
    assert (r' = r) by congruence. subst.
    assert (d' = d) by congruence. subst.
    destruct Hres as (rr' & s' & H1' & H2' & H3' & _).
    assert (rr' = rr) by congruence. subst.
    assert (s' = s) by congruence. subst. congruence.
  - exact Hok.
Qed.


Lemma resolve_vanity_not_found_witness :
  @numeric_shortcut ascii_env (@py_strip ascii_env (U "gaben")) = false
  /\ exists w',
       @resolve_steam_id ascii_env net_down (U "gaben") w0 = (Ret VNone, w')
       /\ sent w' = [@vanity_request ascii_env (U "gaben")].
Proof.
  split; [reflexivity|].
  destruct (@resolve_vanity_not_found ascii_env net_down (U "gaben") w0
              eq_refl) as (v & w' & E & Hsent & Hdown & _).
  exists w'. rewrite <- (Hdown eq_refl). split; [exact E | exact Hsent].
Defined.


(** C7, as stated, fails: a response whose status is not 2xx (here 300) does
    not yield [None] when it carries a resolved payload;
    [raise_for_status] only rejects 4xx and 5xx. *)
Lemma resolve_vanity_non_2xx_counterexample :
  @numeric_shortcut ascii_env (@py_strip ascii_env (U "gaben")) = false
  /\ net_300 0%nat (@vanity_request ascii_env (U "gaben"))
     = Answered (Response 300 (Some resolved_payload))
  /\ ~ (200 <= 300 < 300)
  /\ fst (@resolve_steam_id ascii_env net_300 (U "gaben") w0)
     = Ret (VStr (U "76561198000000001"))
  /\ fst (@resolve_steam_id ascii_env net_300 (U "gaben") w0) <> Ret VNone.
Proof.
  repeat split; try reflexivity.
  - lia.
  - vm_compute. discriminate.
Qed.

(** ** The commentary generator *)

Lemma generated_functional (rp : reply) (c c' : value) :
  generated rp c -> generated rp c' -> c = c'.
Proof.
  intros (r & d & m & Hr & _ & Hb & Hm & Hc)
         (r' & d' & m' & Hr' & _ & Hb' & Hm' & Hc').
  assert (r' = r) by congruence. subst.
  assert (d' = d) by congruence. subst.
  assert (m' = m) by congruence. subst.
  congruence.
Qed.

Ltac not_generated :=
  let c := fresh "c" in
  intros c (? & ? & ? & ?Hr & ?Hne & ?Hb & ?Hm & ?Hc);
  match goal with
  | Hr : Answered _ = Answered _ |- _ => inversion Hr; subst; clear Hr
  | _ => idtac
  end;
  try contradiction; try congruence.

(** One run of [llm_message]: one request, a normal return, and a text that
    is the apology unless a commentary is read from the reply. *)
Lemma llm_message_run `{PyEnv} (net : network) (message : ustr) (w : world) :
  let rp := net (length (sent w)) (chat_request message) in
  exists text lg,
    llm_message net message w
    = (Ret (text ++ nl ++ nl ++ message),
       World (sent w ++ [chat_request message]) lg)
    /\ ((text = apology /\ forall c, ~ generated rp c)
        \/ exists c, generated rp c /\ text = py_str c).
Proof.
  intros rp. unfold llm_message.
  unfold bind at 1. unfold try_except. unfold bind at 1. unfold send.
  fold rp. destruct rp as [r|] eqn:Hrp.
  2:{ eexists _, _. split; [reflexivity | left; split; [reflexivity|]].
      not_generated. }
  destruct (error_status_dec (status_code r)) as [He|He].
  { unfold bind. rewrite raise_for_status_error by exact He.
    eexists _, _. split; [reflexivity | left; split; [reflexivity|]].
    not_generated. }
  unfold bind at 1. rewrite raise_for_status_pass by exact He.
  unfold bind at 1. unfold resp_json.
  destruct (body r) as [d|] eqn:Hb.
  2:{ eexists _, _. split; [reflexivity | left; split; [reflexivity|]].
      not_generated. }
  unfold bind, lift, ret.
  destruct (py_getitem d (U "message")) as [m|e1] eqn:H1.
  2:{ eexists _, _. split; [reflexivity | left; split; [reflexivity|]].
      not_generated. }
  destruct (py_getitem m (U "content")) as [c|e2] eqn:H2.
  2:{ eexists _, _. split; [reflexivity | left; split; [reflexivity|]].
      not_generated. }
  eexists _, _. split; [reflexivity | right].
  exists c. split; [|reflexivity].
  exists r, d, m. auto.
Qed.

(** C8 (amended). [llm_message] sends one request and always returns
    normally; its result is a text, two newlines, and the digest verbatim.
    The text is the fixed apology when the request fails in transport
    (a timeout included), when the status is 4xx or 5xx, when the body is
    not JSON and when the body lacks [message.content]; it is the generated
    commentary when the reply carries one. *)
Theorem llm_message_never_fails `{PyEnv} (net : network) (message : ustr)
    (w : world) :
  let rp := net (length (sent w)) (chat_request message) in
  exists text w',
    llm_message net message w = (Ret (text ++ nl ++ nl ++ message), w')
    /\ sent w' = sent w ++ [chat_request message]
    /\ (rp = Failed -> text = apology)
    /\ (forall r, rp = Answered r -> error_status (status_code r) ->
        text = apology)
    /\ (forall r, rp = Answered r -> body r = None -> text = apology)
    /\ (forall r d, rp = Answered r -> body r = Some d ->
        (forall m, py_getitem d (U "message") = Ret m ->
                   forall c, py_getitem m (U "content") <> Ret c) ->
        text = apology)
    /\ (forall c, generated rp c -> text = py_str c).
Proof.
  intros rp.
  destruct (llm_message_run net message w) as (text & lg & E & Hcases).
  fold rp in Hcases.
  exists text, (World (sent w ++ [chat_request message]) lg).
  split; [exact E|]. split; [reflexivity|].
  assert (Hapo : (forall c, ~ generated rp c) -> text = apology).
  { intros Hno. destruct Hcases as [[? _]|(c & Hg & _)]; [assumption|].
    now elim (Hno c). }
  repeat split.
  - intros Hf. apply Hapo.
    intros c (r & d & m & Hr & _). congruence.
  - intros r Hr He. apply Hapo.
    intros c (r' & d & m & Hr' & Hne & _).
    assert (r' = r) by congruence. subst. contradiction.
  - intros r Hr Hb. apply Hapo.
    intros c (r' & d & m & Hr' & _ & Hb' & _).
    assert (r' = r) by congruence. subst. congruence.
  - intros r d Hr Hb Hno. apply Hapo.
    intros c (r' & d' & m & Hr' & _ & Hb' & Hm & Hc).
    assert (r' = r) by congruence. subst.
    assert (d' = d) by congruence. subst.
    now elim (Hno m Hm c).
  - intros c Hg.
    destruct Hcases as [[_ Hno]|(c' & Hg' & Ht)].
    + now elim (Hno c).
    + now rewrite (generated_functional Hg Hg').
Qed.

(** C8, as stated, fails: a response whose status is not 2xx (here 300) is
    not replaced by the apology when it carries a commentary. *)
Lemma llm_message_non_2xx_counterexample :
  net_chat_300 0%nat (chat_request (U "DIGEST"))
  = Answered (Response 300 (Some chat_payload))
  /\ ~ (200 <= 300 < 300)
  /\ fst (@llm_message ascii_env net_chat_300 (U "DIGEST") w0)
     = Ret (U "Nice hat." ++ nl ++ nl ++ U "DIGEST")
  /\ U "Nice hat." <> apology.
Proof.
  repeat split; try reflexivity.
  - lia.
  - vm_compute. discriminate.
Qed.

(** ** The aggregator: the mandatory profile, the optional rest *)

Lemma fetch_friends_total `{PyEnv} (net : network) (steam_id : value)
    (w : world) :
  exists fl w', fetch_friends net steam_id w = (Ret fl, w').
Proof.
  unfold fetch_friends.
  destruct (fetch_friend_ids net steam_id w) as [[ids|e] w1].
  - destruct (py_truthy (VList ids)); [|eexists _, _; reflexivity].
    destruct (batch_loop net ids (py_range (length ids) 100) [] w1)
      as [[fl [e|]] w2]; eexists _, _; reflexivity.
  - eexists _, _; reflexivity.
Qed.

Lemma fetch_games_total `{PyEnv} (net : network) (steam_id : value)
    (w : world) :
  exists og w', fetch_games net steam_id w = (Ret og, w').
Proof.
  unfold fetch_games, try_except.
  match goal with |- context [match ?m w with _ => _ end] =>
    destruct (m w) as [[og|e] w1] end;
    eexists _, _; reflexivity.
Qed.

Lemma fetch_friends_degrades `{PyEnv} (net : network) (steam_id : value)
    (w : world) :
  unsuccessful (net (length (sent w)) (friend_list_request steam_id)) ->
  exists lg,
    fetch_friends net steam_id w
    = (Ret [], World (sent w ++ [friend_list_request steam_id]) lg).
Proof.
  intros Hu. unfold fetch_friends, fetch_friend_ids.
  unfold bind at 1. unfold send.
  destruct Hu as [Hf | (r & Hr & Hbad)].
  - rewrite Hf. eexists; reflexivity.
  - rewrite Hr.
    destruct (status_code r =? 200) eqn:Hs.
    + apply Z.eqb_eq in Hs. destruct Hbad as [Hne|Hb]; [contradiction|].
      unfold response_field, bind, resp_json. rewrite Hb.
      eexists; reflexivity.
    + eexists; reflexivity.
Qed.

Lemma fetch_games_degrades `{PyEnv} (net : network) (steam_id : value)
    (w : world) :
  unsuccessful (net (length (sent w)) (owned_games_request steam_id)) ->
  exists lg,
    fetch_games net steam_id w
    = (Ret [], World (sent w ++ [owned_games_request steam_id]) lg).
Proof.
  intros Hu. unfold fetch_games, try_except.
  unfold bind at 1. unfold send.
  destruct Hu as [Hf | (r & Hr & Hbad)].
  - rewrite Hf. eexists; reflexivity.
  - rewrite Hr.
    destruct (status_code r =? 200) eqn:Hs.
    + apply Z.eqb_eq in Hs. destruct Hbad as [Hne|Hb]; [contradiction|].
      unfold response_field, bind, resp_json. rewrite Hb.
      eexists; reflexivity.
    + eexists; reflexivity.
Qed.

(** C1 (amended).  [fetch_steam_profile] sends the profile request first.
    It returns [None] when that request is answered with a status other
    than 200, and when it is answered with status 200 and a JSON body whose
    player list is empty or absent.  When it is answered with status 200
    and a non-empty player list, it returns an aggregate built on the first
    player, whatever becomes of the friends and games requests: these never
    make the call fail.  A friends request that fails leaves the friends
    empty, a games request that fails leaves the game sample empty. *)
Theorem fetch_profile_mandatory_rest_optional `{PyEnv} (net : network)
    (steam_id : value) (w : world) :
  let rq := summaries_request steam_id 10 in
  let rp := net (length (sent w)) rq in
  (forall r, rp = Answered r -> status_code r <> 200 ->
     fetch_steam_profile net steam_id w
     = (Ret None, World (sent w ++ [rq]) (logged w)))
  /\ (forall r d players, rp = Answered r -> status_code r = 200 ->
      body r = Some d ->
      nested_get (U "response") (U "players") d = Ret players ->
      py_truthy players = false ->
      fetch_steam_profile net steam_id w
      = (Ret None, World (sent w ++ [rq]) (logged w)))
  /\ (forall r d p rest, rp = Answered r -> status_code r = 200 ->
      body r = Some d ->
      nested_get (U "response") (U "players") d = Ret (VList (p :: rest)) ->
      exists fl og w',
        fetch_steam_profile net steam_id w
        = (Ret (Some (Aggregate p fl og)), w')
        /\ (unsuccessful
              (net (S (length (sent w))) (friend_list_request steam_id)) ->
            fl = [])
        /\ ((forall k, unsuccessful (net k (owned_games_request steam_id))) ->
            og = [])).
Proof.
  intros rq rp. repeat split.
  - intros r Hr Hs. unfold fetch_steam_profile.
    unfold bind at 1. unfold send. fold rq rp. rewrite Hr.
    apply Z.eqb_neq in Hs. rewrite Hs. reflexivity.
  - intros r d players Hr Hs Hb Hp Hfalsy. unfold fetch_steam_profile.
    unfold bind at 1. unfold send. fold rq rp. rewrite Hr.
    apply Z.eqb_eq in Hs. rewrite Hs. cbn [negb].
    unfold bind at 1. unfold response_field, bind at 1, resp_json.
    rewrite Hb. unfold ret at 1. unfold lift at 1. rewrite Hp.
    rewrite Hfalsy. reflexivity.
  - intros r d p rest Hr Hs Hb Hp.
    set (w1 := World (sent w ++ [rq]) (logged w)).
    destruct (fetch_friends_total net steam_id w1) as (fl & w2 & Ef).
    destruct (fetch_games_total net steam_id w2) as (og & w3 & Eg).
    exists fl, og, w3.
    assert (Hlen : length (sent w1) = S (length (sent w))).
    { unfold w1; cbn [sent]. rewrite length_app. cbn. lia. }
    repeat split.
    + unfold fetch_steam_profile.
      unfold bind at 1. unfold send. fold rq rp. rewrite Hr. fold w1.
      apply Z.eqb_eq in Hs. rewrite Hs. cbn [negb].
      unfold bind at 1. unfold response_field, bind at 1, resp_json.
      rewrite Hb. unfold ret at 1. unfold lift at 1. rewrite Hp.
      cbn [py_truthy negb].
      unfold bind at 1. unfold lift at 1. cbn [py_first].
      unfold bind at 1. rewrite Ef.
      unfold bind at 1. rewrite Eg. reflexivity.
    + intros Hu. rewrite <- Hlen in Hu.
      destruct (fetch_friends_degrades net steam_id w1 Hu) as (lg & Ed).
      congruence.
    + intros Hu.
      destruct (fetch_games_degrades net steam_id w2
                  (Hu (length (sent w2)))) as (lg & Ed).
      congruence.
Qed.

(** C1, as stated, fails on both counts: a 2xx status other than 200 with
    a non-empty player list gives [None], and a transport failure of the
    profile request is raised to the caller. *)
Lemma fetch_profile_counterexample :
  let steam_id := VStr (U "76561198000000001") in
  net_201 0%nat (@summaries_request ascii_env steam_id 10)
  = Answered (Response 201 (Some (players_body [gaben])))
  /\ 200 <= 201 < 300
  /\ fst (@fetch_steam_profile ascii_env net_201 steam_id w0) = Ret None
  /\ fst (@fetch_steam_profile ascii_env net_down steam_id w0)
     = Raise RequestException.
Proof.
  repeat split; try reflexivity; lia.
Qed.

(** ** [sorted] is a stable sort *)

Section SortFacts.
Variables (A : Type) (key : A -> Z).

Lemma insert_by_perm (x : A) (l : list A) :
  Permutation (x :: l) (insert_by key Z.ltb x l).
Proof.
  induction l as [|y l IH]; cbn.
  - apply Permutation_refl.
  - destruct (key y <? key x).
    + rewrite perm_swap. now apply perm_skip.
    + apply Permutation_refl.
Qed.

Lemma sort_by_perm (l : list A) : Permutation l (sort_by key Z.ltb l).
Proof.
  induction l as [|x l IH]; cbn.
  - constructor.
  - rewrite <- insert_by_perm. now apply perm_skip.
Qed.

Lemma insert_by_ascending (x : A) (l : list A) :
  ascending key l -> ascending key (insert_by key Z.ltb x l).
Proof.
  unfold ascending.
  induction l as [|y l IH]; cbn; intros Hs.
  - repeat constructor.
  - apply StronglySorted_inv in Hs as [Hs Hall].
    destruct (key y <? key x) eqn:Hlt.
    + apply Z.ltb_lt in Hlt. constructor; [now apply IH|].
      rewrite Forall_forall in *. intros z Hz.
      apply (Permutation_in _ (Permutation_sym (insert_by_perm x l))) in Hz.
      destruct Hz as [<-|Hz]; [lia | now apply Hall].
    + apply Z.ltb_ge in Hlt. constructor.
      * now constructor.
      * constructor; [assumption|].
        rewrite Forall_forall in *. intros z Hz.
        specialize (Hall z Hz). cbn in Hall. lia.
Qed.

Lemma sort_by_ascending (l : list A) : ascending key (sort_by key Z.ltb l).
Proof.
  induction l as [|x l IH]; cbn.
  - constructor.
  - now apply insert_by_ascending.
Qed.

Lemma insert_by_filter (k : Z) (x : A) (l : list A) :
  filter (fun a => key a =? k) (insert_by key Z.ltb x l)
  = filter (fun a => key a =? k) (x :: l).
Proof.
  induction l as [|y l IH]; [reflexivity|].
  cbn [insert_by]. destruct (key y <? key x) eqn:Hlt; [|reflexivity].
  apply Z.ltb_lt in Hlt.
  cbn [filter] in *. rewrite IH.
  destruct (key x =? k) eqn:Hx; [|reflexivity].
  apply Z.eqb_eq in Hx.
  assert (Hy : (key y =? k) = false) by (apply Z.eqb_neq; lia).
  now rewrite Hy.
Qed.

Lemma sort_by_stable (l : list A) : stable key l (sort_by key Z.ltb l).
Proof.
  intros k. induction l as [|x l IH]; [reflexivity|].
  cbn [sort_by]. rewrite insert_by_filter. cbn [filter]. now rewrite IH.
Qed.

Lemma strongly_sorted_app (R : A -> A -> Prop) (l1 l2 : list A) :
  StronglySorted R (l1 ++ l2) <->
  StronglySorted R l1 /\ StronglySorted R l2
  /\ (forall a b, In a l1 -> In b l2 -> R a b).
Proof.
  induction l1 as [|x l1 IH]; cbn.
  - split.
    + intros Hs. repeat split; [constructor | assumption | contradiction].
    + tauto.
  - split.
    + intros Hs. apply StronglySorted_inv in Hs as [Hs Hall].
      apply IH in Hs as (H1 & H2 & H12).
      rewrite Forall_forall in Hall.
      repeat split.
      * constructor; [assumption|].
        rewrite Forall_forall. intros z Hz. apply Hall, in_or_app. now left.
      * assumption.
      * intros a b [<-|Ha] Hb.
        -- apply Hall, in_or_app. now right.
        -- now apply H12.
    + intros (H1 & H2 & H12).
      apply StronglySorted_inv in H1 as [H1 Hall].
      rewrite Forall_forall in Hall.
      constructor.
      * apply IH. repeat split; auto.
      * rewrite Forall_forall. intros z Hz.
        apply in_app_or in Hz as [Hz|Hz]; auto.
Qed.

Lemma strongly_sorted_rev (R : A -> A -> Prop) (l : list A) :
  StronglySorted R l -> StronglySorted (fun a b => R b a) (rev l).
Proof.
  induction l as [|x l IH]; cbn; intros Hs.
  - constructor.
  - apply StronglySorted_inv in Hs as [Hs Hall].
    rewrite Forall_forall in Hall.
    apply strongly_sorted_app. repeat split.
    + now apply IH.
    + repeat constructor.
    + intros a b Ha [<-|[]]. apply Hall. now apply in_rev.
Qed.

(** [sorted(l, key=key)]: a stable ascending sort. *)
Lemma sorted_by_forward (l : list A) :
  let s := sorted_by key Z.ltb false l in
  Permutation l s /\ ascending key s /\ stable key l s.
Proof.
  cbn. split; [apply sort_by_perm|].
  split; [apply sort_by_ascending | apply sort_by_stable].
Qed.

(** [sorted(l, key=key, reverse=True)]: a stable descending sort. *)
Lemma sorted_by_reverse (l : list A) :
  let s := sorted_by key Z.ltb true l in
  Permutation l s /\ descending key s /\ stable key l s.
Proof.
  cbn. repeat split.
  - rewrite <- Permutation_rev, <- sort_by_perm. apply Permutation_rev.
  - apply strongly_sorted_rev with (R := fun a b => key a <= key b).
    apply sort_by_ascending.
  - intros k. rewrite filter_rev, sort_by_stable, filter_rev.
    apply rev_involutive.
Qed.

(** The head of a descending list dominates its tail: whatever is cut off
    by [firstn] is no larger than what is kept. *)
Lemma descending_firstn (n : nat) (s : list A) :
  descending key s ->
  descending key (firstn n s)
  /\ forall a b, In a (firstn n s) -> In b (skipn n s) -> key b <= key a.
Proof.
  intros Hs. rewrite <- (firstn_skipn n s) in Hs.
  apply strongly_sorted_app in Hs as (H1 & _ & H12). auto.
Qed.

(** Two descending lists with the same elements of each key, in the same
    order, are equal: the stable descending sort of a list is unique. *)
Lemma stable_descending_unique (l s1 s2 : list A) :
  descending key s1 -> stable key l s1 ->
  descending key s2 -> stable key l s2 ->
  s1 = s2.
Proof.
  intros Hd1 Hst1 Hd2 Hst2.
  assert (Hsame : forall k,
            filter (fun a => key a =? k) s1 = filter (fun a => key a =? k) s2)
    by (intros k; now rewrite Hst1, Hst2).
  clear Hst1 Hst2 l. revert s2 Hd2 Hsame.
  induction s1 as [|a s1 IH]; intros s2 Hd2 Hsame.
  - destruct s2 as [|b s2]; [reflexivity|].
    specialize (Hsame (key b)). cbn in Hsame.
    rewrite Z.eqb_refl in Hsame. discriminate.
  - destruct s2 as [|b s2].
    { specialize (Hsame (key a)). cbn in Hsame.
      rewrite Z.eqb_refl in Hsame. discriminate. }
    apply StronglySorted_inv in Hd1 as [Hd1 Hall1].
    apply StronglySorted_inv in Hd2 as [Hd2 Hall2].
    rewrite Forall_forall in Hall1, Hall2.
    assert (Hnone : forall (s : list A) (k bound : Z),
              (forall y, In y s -> key y <= bound) -> bound < k ->
              filter (fun x => key x =? k) s = []).
    { intros s k bound Hle Hlt. induction s as [|y s IHs]; [reflexivity|].
      cbn. assert (Hy : (key y =? k) = false).
      { apply Z.eqb_neq. specialize (Hle y (or_introl eq_refl)). lia. }
      rewrite Hy. apply IHs. intros z Hz. apply Hle. now right. }
    assert (Hkey : key a = key b).
    { destruct (Z.lt_trichotomy (key a) (key b)) as [Hlt|[Heq|Hgt]];
        [|exact Heq|].
      - specialize (Hsame (key b)). cbn in Hsame.
        rewrite Z.eqb_refl in Hsame.
        assert (Ha : (key a =? key b) = false) by (apply Z.eqb_neq; lia).
        rewrite Ha in Hsame.
        rewrite (Hnone s1 (key b) (key a)) in Hsame;
          [discriminate | exact Hall1 | exact Hlt].
      - specialize (Hsame (key a)). cbn in Hsame.
        rewrite Z.eqb_refl in Hsame.
        assert (Hb : (key b =? key a) = false) by (apply Z.eqb_neq; lia).
        rewrite Hb in Hsame.
        rewrite (Hnone s2 (key a) (key b)) in Hsame;
          [discriminate | exact Hall2 | lia]. }
    assert (Hhead : a = b).
    { specialize (Hsame (key a)). cbn in Hsame.
      rewrite <- Hkey, Z.eqb_refl in Hsame. now inversion Hsame. }
    subst b. f_equal. apply IH; [exact Hd1 | exact Hd2 |].
    intros k. specialize (Hsame k). cbn in Hsame.
    destruct (key a =? k); [now inversion Hsame | exact Hsame].
Qed.

End SortFacts.

(** Sorting the pairs (key, element) on the key and dropping the keys is
    sorting the elements by the key. *)
Section Decorated.
Variables (A K : Type) (key : A -> K) (lt : K -> K -> bool).

Let dec (x : A) : K * A := (key x, x).

Lemma combine_keys (l : list A) : combine (map key l) l = map dec l.
Proof. induction l as [|x l IH]; cbn; [reflexivity | now rewrite IH]. Qed.

Lemma insert_by_decorated (x : A) (l : list A) :
  insert_by fst lt (dec x) (map dec l) = map dec (insert_by key lt x l).
Proof.
  induction l as [|y l IH]; cbn; [reflexivity|].
  destruct (lt (key y) (key x)); cbn; [now rewrite <- IH | reflexivity].
Qed.

Lemma sort_by_decorated (l : list A) :
  sort_by fst lt (map dec l) = map dec (sort_by key lt l).
Proof.
  induction l as [|x l IH]; cbn; [reflexivity|].
  now rewrite IH, insert_by_decorated.
Qed.

Lemma sorted_by_decorated (reverse : bool) (l : list A) :
  map snd (sorted_by fst lt reverse (combine (map key l) l))
  = sorted_by key lt reverse l.
Proof.
  rewrite combine_keys. unfold sorted_by. destruct reverse.
  - rewrite <- map_rev, sort_by_decorated, <- map_rev, map_map.
    cbn. apply map_id.
  - rewrite sort_by_decorated, map_map. cbn. apply map_id.
Qed.

End Decorated.

(** ** The game sample *)

Lemma playtime_keys (gs : list value) :
  forallb timed_game gs = true ->
  exists ks,
    omap playtime_forever gs = Ret ks
    /\ ints_of ks = Some (map minutes gs).
Proof.
  induction gs as [|g gs IH]; cbn [forallb]; intros Hall.
  - exists []. split; reflexivity.
  - apply andb_true_iff in Hall as [Hg Hall].
    destruct (IH Hall) as (ks & Hks & Hints).
    destruct g as [| | | |?|d]; unfold timed_game in Hg; try discriminate.
    cbn [omap playtime_forever py_get obind]. rewrite Hks.
    cbn [obind map minutes].
    destruct (lookup (U "playtime_forever") d) as [v|] eqn:Hl.
    + destruct (as_int v) as [z|] eqn:Hv; [|discriminate].
      eexists. split; [reflexivity|].
      cbn [ints_of]. now rewrite Hv, Hints.
    + eexists. split; [reflexivity|].
      cbn [ints_of as_int]. now rewrite Hints.
Qed.

Lemma py_sorted_by_playtime (gs : list value) :
  forallb timed_game gs = true ->
  py_sorted playtime_forever true gs
  = Ret (sorted_by minutes Z.ltb true gs).
Proof.
  intros Hall. destruct (playtime_keys gs Hall) as (ks & Hks & Hints).
  unfold py_sorted. rewrite Hks. cbn [obind]. rewrite Hints.
  now rewrite sorted_by_decorated.
Qed.

Lemma fetch_games_served `{PyEnv} (net : network) (steam_id : value)
    (w : world) (gs : list value) :
  serves (net (length (sent w)) (owned_games_request steam_id))
    (U "response") (U "games") (VList gs) ->
  forallb timed_game gs = true ->
  fetch_games net steam_id w
  = (Ret (firstn 10 (sorted_by minutes Z.ltb true gs)),
     World (sent w ++ [owned_games_request steam_id]) (logged w)).
Proof.
  intros (r & d & Hr & Hs & Hb & Hg) Hall.
  unfold fetch_games, try_except.
  unfold bind at 1. unfold send. rewrite Hr.
  apply Z.eqb_eq in Hs. rewrite Hs.
  unfold bind at 1. unfold response_field, bind at 1, resp_json.
  rewrite Hb. unfold ret at 1. unfold lift at 1. rewrite Hg.
  unfold bind at 1. unfold lift at 1. cbn [py_iter].
  unfold bind at 1. unfold lift at 1.
  now rewrite py_sorted_by_playtime.
Qed.

Lemma descending_strict (A : Type) (key : A -> Z) (l : list A) :
  descending key l -> NoDup (map key l) -> strictly_descending key l.
Proof.
  unfold descending, strictly_descending.
  induction l as [|x l IH]; cbn; intros Hs Hnd.
  - constructor.
  - apply StronglySorted_inv in Hs as [Hs Hall].
    inversion Hnd as [|? ? Hnotin Hnd']; subst.
    constructor; [now apply IH|].
    rewrite Forall_forall in *. intros y Hy.
    specialize (Hall y Hy). cbn in Hall.
    assert (key y <> key x).
    { intros E. apply Hnotin. rewrite <- E. now apply in_map. }
    lia.
Qed.

Lemma nodup_app_disjoint (A : Type) (l1 l2 : list A) (a : A) :
  NoDup (l1 ++ l2) -> In a l1 -> In a l2 -> False.
Proof.
  induction l1 as [|x l1 IH]; cbn; intros Hnd H1 H2; [contradiction|].
  inversion Hnd as [|? ? Hnotin Hnd']; subst.
  destruct H1 as [<-|H1].
  - apply Hnotin, in_or_app. now right.
  - now apply IH.
Qed.

(** Cutting a stable descending sort of distinct keys after [n]
    elements keeps the [n] largest, strictly descending. *)
Lemma top_of_distinct (A : Type) (key : A -> Z) (n : nat) (l s : list A) :
  Permutation l s -> descending key s -> NoDup (map key l) ->
  strictly_descending key (firstn n s)
  /\ forall g t, In g l -> ~ In g (firstn n s) -> In t (firstn n s) ->
                 key g < key t.
Proof.
  intros Hp Hs Hnd.
  assert (Hnds : NoDup (map key s)).
  { eapply Permutation_NoDup; [|exact Hnd]. now apply Permutation_map. }
  destruct (descending_firstn n Hs) as [Hd Hcut].
  rewrite <- (firstn_skipn n s), map_app in Hnds.
  split.
  - apply descending_strict; [assumption|].
    now apply NoDup_app_remove_r in Hnds.
  - intros g t Hg Hout Ht.
    assert (Hgs : In g (skipn n s)).
    { apply (Permutation_in _ Hp) in Hg.
      rewrite <- (firstn_skipn n s) in Hg.
      apply in_app_or in Hg as [Hg|Hg]; [contradiction | assumption]. }
    specialize (Hcut t g Ht Hgs).
    assert (key g <> key t).
    { intros E. apply (@nodup_app_disjoint _ _ _ (key t) Hnds).
      - now apply in_map.
      - rewrite <- E. now apply in_map. }
    lia.
Qed.

Lemma fetch_steam_profile_served `{PyEnv} (net : network) (steam_id : value)
    (w : world) (p : value) (rest : list value) :
  serves (net (length (sent w)) (summaries_request steam_id 10))
    (U "response") (U "players") (VList (p :: rest)) ->
  fetch_steam_profile net steam_id w
  = (friends_list <- fetch_friends net steam_id ;;
     owned_games <- fetch_games net steam_id ;;
     ret (Some (Aggregate p friends_list owned_games)))%io
      (World (sent w ++ [summaries_request steam_id 10]) (logged w)).
Proof.
  intros (r & d & Hr & Hs & Hb & Hp).
  unfold fetch_steam_profile.
  unfold bind at 1. unfold send. rewrite Hr.
  apply Z.eqb_eq in Hs. rewrite Hs. cbn [negb].
  unfold bind at 1. unfold response_field, bind at 1, resp_json.
  rewrite Hb. unfold ret at 1. unfold lift at 1. rewrite Hp.
  cbn [py_truthy negb].
  unfold bind at 1. unfold lift at 1. cbn [py_first]. reflexivity.
Qed.

(** C4. When the profile is fetched and the owned-games request is answered
    with status 200 and a list of game records (integer playtimes), the
    retained sample is the first 10 elements of that list sorted by playtime
    in descending order by a stable sort: the sorted list is a permutation
    of the fetched one, playtimes never increase along it, and records with
    equal playtime keep the order the provider gave them (which determines
    the sorted list).  In particular,
    out of 15 games with distinct playtimes the sample holds 10, in strictly
    descending order, and every game left out has a smaller playtime than
    every game kept. *)
Theorem game_sample_is_top10 `{PyEnv} (net : network) (steam_id : value)
    (w : world) (p : value) (rest gs : list value) :
  serves (net (length (sent w)) (summaries_request steam_id 10))
    (U "response") (U "players") (VList (p :: rest)) ->
  (forall k, serves (net k (owned_games_request steam_id))
               (U "response") (U "games") (VList gs)) ->
  forallb timed_game gs = true ->
  let s := sorted_by minutes Z.ltb true gs in
  let sample := firstn 10 s in
  (exists fl w',
     fetch_steam_profile net steam_id w
     = (Ret (Some (Aggregate p fl sample)), w'))
  /\ Permutation gs s
  /\ descending minutes s
  /\ stable minutes gs s
  /\ (forall s', descending minutes s' -> stable minutes gs s' -> s' = s)
  /\ (length gs = 15%nat -> NoDup (map minutes gs) ->
      length sample = 10%nat
      /\ strictly_descending minutes sample
      /\ forall g t, In g gs -> ~ In g sample -> In t sample ->
                     minutes g < minutes t).
Proof.
  intros Hprofile Hgames Hall s sample.
  destruct (sorted_by_reverse minutes gs) as (Hperm & Hdesc & Hstable).
  fold s in Hperm, Hdesc, Hstable.
  split; [|split; [exact Hperm | split; [exact Hdesc | split;
                                          [exact Hstable | split]]]].
  - rewrite (fetch_steam_profile_served _ _ _ Hprofile).
    set (w1 := World _ _).
    destruct (fetch_friends_total net steam_id w1) as (fl & w2 & Ef).
    exists fl. eexists.
    unfold bind at 1. rewrite Ef.
    unfold bind at 1.
    rewrite (fetch_games_served _ _ _ (Hgames (length (sent w2))) Hall).
    reflexivity.
  - intros s' Hd' Hst'.
    exact (stable_descending_unique Hd' Hst' Hdesc Hstable).
  - intros Hlen Hnd.
    destruct (top_of_distinct 10 Hperm Hdesc Hnd) as [Hstrict Htop].
    repeat split.
    + unfold sample. rewrite length_firstn.
      rewrite <- (Permutation_length Hperm), Hlen. reflexivity.
    + exact Hstrict.
    + exact Htop.
Qed.

Lemma game_sample_is_top10_witness :
  let steam_id := VStr (U "76561198000000001") in
  forallb timed_game fifteen_games = true
  /\ exists fl w',
       @fetch_steam_profile ascii_env (net_games fifteen_games) steam_id w0
       = (Ret (Some (Aggregate gaben fl
            [game (U "G07") 2600; game (U "G13") 1200; game (U "G03") 980;
             game (U "G10") 500; game (U "G11") 499; game (U "G05") 310;
             game (U "G01") 120; game (U "G14") 88; game (U "G08") 61;
             game (U "G02") 45])), w').
Proof.
  intros steam_id. split; [reflexivity|].
  refine (proj1 (@game_sample_is_top10 ascii_env (net_games fifteen_games)
                   steam_id w0 gaben [] fifteen_games _ _ eq_refl)).
  - exists (Response 200 (Some (players_body [gaben]))), (players_body [gaben]).
    repeat split; reflexivity.
  - intros k.
    exists (Response 200 (Some (games_body fifteen_games))),
           (games_body fifteen_games).
    repeat split; reflexivity.
Defined.

(** ** Friends, batch by batch *)

Lemma omap_as_str (l : list ustr) : omap as_str (map VStr l) = Ret l.
Proof.
  induction l as [|s l IH]; cbn; [reflexivity|]. now rewrite IH.
Qed.

Lemma slice_map (A B : Type) (f : A -> B) (l : list A) (i j : nat) :
  slice (map f l) i j = map f (slice l i j).
Proof. unfold slice. now rewrite skipn_map, firstn_map. Qed.

Lemma flat_map_of_map (A B C : Type) (f : B -> list C) (g : A -> B)
    (l : list A) :
  flat_map f (map g l) = flat_map (fun x => f (g x)) l.
Proof.
  induction l as [|x l IH]; cbn; [reflexivity | now rewrite IH].
Qed.

Section Batches.
Context `{PyEnv}.
Variable net : network.
Variable ids : list ustr.

Let batch (i : nat) : list ustr := slice ids i (i + 100).

Lemma fetch_batch_contributes (i : nat) (acc : list value) (w : world)
    (c : list value) :
  contribution (net (length (sent w)) (batch_request (batch i))) = Some c ->
  fetch_batch net (map VStr ids) i acc w
  = (Ret (acc ++ c),
     World (sent w ++ [batch_request (batch i)]) (logged w)).
Proof.
  unfold contribution, fetch_batch, batch_request. intros Hc.
  rewrite slice_map. unfold py_join. rewrite omap_as_str.
  cbn [obind]. unfold bind at 1. unfold lift at 1.
  unfold bind at 1. unfold send. fold (batch i).
  destruct (net _ _) as [r|]; [|discriminate].
  destruct (status_code r =? 200).
  - unfold bind at 1. unfold response_field, bind at 1, resp_json.
    destruct (body r) as [d|]; [|discriminate].
    unfold ret at 1. unfold lift at 1.
    destruct (nested_get _ _ d) as [v|]; [|discriminate].
    unfold bind at 1. unfold lift at 1.
    destruct (py_iter v) as [l|]; [|discriminate].
    now inversion Hc.
  - inversion Hc. now rewrite app_nil_r.
Qed.

Lemma fetch_batch_raises (i : nat) (acc : list value) (w : world) :
  contribution (net (length (sent w)) (batch_request (batch i))) = None ->
  exists e,
    fetch_batch net (map VStr ids) i acc w
    = (Raise e, World (sent w ++ [batch_request (batch i)]) (logged w)).
Proof.
  unfold contribution, fetch_batch, batch_request. intros Hc.
  rewrite slice_map. unfold py_join. rewrite omap_as_str.
  cbn [obind]. unfold bind at 1. unfold lift at 1.
  unfold bind at 1. unfold send. fold (batch i).
  destruct (net _ _) as [r|]; [|eexists; reflexivity].
  destruct (status_code r =? 200); [|discriminate].
  unfold bind at 1. unfold response_field, bind at 1, resp_json.
  destruct (body r) as [d|]; [|eexists; reflexivity].
  unfold ret at 1. unfold lift at 1.
  destruct (nested_get _ _ d) as [v|]; [|eexists; reflexivity].
  unfold bind at 1. unfold lift at 1.
  destruct (py_iter v) as [l|]; [discriminate | eexists; reflexivity].
Qed.

(** The loop, interrupted at turn [j0] or not at all ([length os <= j0]):
    the records of the turns before [j0] in turn order, one request per
    turn up to and including turn [j0]. *)
Lemma batch_loop_run (os : list nat) :
  forall (acc : list value) (w : world) (j0 : nat),
  let bs := map batch os in
  let n0 := length (sent w) in
  (forall j, (j < j0)%nat -> (j < length os)%nat ->
             contribution (batch_reply net n0 bs j) <> None) ->
  ((j0 < length os)%nat -> contribution (batch_reply net n0 bs j0) = None) ->
  exists oe,
    batch_loop net (map VStr ids) os acc w
    = ((acc ++ flat_map (fun j => records (batch_reply net n0 bs j))
                 (seq 0 (Nat.min j0 (length os))), oe),
       World (sent w ++ map batch_request (firstn (S j0) bs)) (logged w))
    /\ (oe = None <-> (length os <= j0)%nat).
Proof.
  induction os as [|i os IH]; intros acc w j0 bs n0 Hbefore Hat;
    subst bs n0.
  - exists None. cbn. rewrite Nat.min_0_r. cbn.
    rewrite !app_nil_r. destruct w. split; [reflexivity|].
    split; [lia | reflexivity].
  - cbn [batch_loop].
    assert (H0 : batch_reply net (length (sent w)) (map batch (i :: os)) 0
                 = net (length (sent w)) (batch_request (batch i))).
    { unfold batch_reply. cbn [nth map]. now rewrite Nat.add_0_r. }
    destruct j0 as [|j0].
    + assert (Hnone : contribution
                (net (length (sent w)) (batch_request (batch i))) = None).
      { rewrite <- H0. apply Hat. cbn; lia. }
      destruct (fetch_batch_raises i acc w Hnone) as (e & ->).
      exists (Some e). cbn. rewrite app_nil_r.
      split; [reflexivity|]. split; [discriminate | lia].
    + assert (Hsome : contribution
                (net (length (sent w)) (batch_request (batch i))) <> None).
      { rewrite <- H0. apply Hbefore; cbn; lia. }
      destruct (contribution (net (length (sent w))
                                (batch_request (batch i)))) as [c|] eqn:Hc;
        [clear Hsome | now elim Hsome].
      rewrite (fetch_batch_contributes i acc w Hc).
      set (w' := World (sent w ++ [batch_request (batch i)]) (logged w)).
      assert (Hshift : forall j,
                batch_reply net (length (sent w')) (map batch os) j
                = batch_reply net (length (sent w)) (map batch (i :: os))
                    (S j)).
      { intros j. unfold batch_reply, w'. cbn [sent nth map].
        rewrite length_app. cbn [length].
        now replace (length (sent w) + 1 + j)%nat
              with (length (sent w) + S j)%nat by lia. }
      destruct (IH (acc ++ c) w' j0) as (oe & E & Hoe).
      * intros j Hj Hlen. rewrite Hshift. apply Hbefore; cbn; lia.
      * intros Hlen. rewrite Hshift. apply Hat. cbn; lia.
      * exists oe. rewrite E. split.
        -- f_equal.
           ++ f_equal. cbn [length Nat.min seq flat_map].
              rewrite <- app_assoc. f_equal. f_equal.
              ** unfold records. now rewrite H0, Hc.
              ** rewrite <- seq_shift, flat_map_of_map.
                 apply flat_map_ext. intros j. now rewrite Hshift.
           ++ unfold w'. cbn [sent logged map firstn].
              now rewrite <- app_assoc.
        -- cbn [length]. rewrite Hoe. lia.
Qed.

End Batches.

(** The offsets [0, 100, 200, ...] cut the identifiers into consecutive
    batches. *)
Lemma batches_of_chunks (A : Type) (ids : list A) :
  batches_of ids
  = map (fun k => firstn 100 (skipn (k * 100) ids))
      (seq 0 ((length ids + 99) / 100)).
Proof.
  unfold batches_of, py_range. rewrite map_map.
  replace (length ids + 100 - 1)%nat with (length ids + 99)%nat by lia.
  apply map_ext. intros k. unfold slice.
  now replace (k * 100 + 100 - k * 100)%nat with 100%nat by lia.
Qed.

Lemma chunks_concat (A : Type) (m : nat) :
  forall l : list A,
  (length l <= m * 100)%nat ->
  concat (map (fun k => firstn 100 (skipn (k * 100) l)) (seq 0 m)) = l.
Proof.
  induction m as [|m IH]; intros l Hl.
  - destruct l; [reflexivity | cbn in Hl; lia].
  - cbn [seq map concat]. rewrite <- seq_shift, map_map.
    cbn [Nat.mul skipn].
    rewrite (map_ext _ (fun k => firstn 100 (skipn (k * 100) (skipn 100 l)))).
    + rewrite IH; [apply firstn_skipn|].
      rewrite length_skipn. lia.
    + intros k. rewrite skipn_skipn.
      now replace (100 + k * 100)%nat with (k * 100 + 100)%nat by lia.
Qed.

Lemma batches_of_concat (A : Type) (ids : list A) :
  concat (batches_of ids) = ids.
Proof.
  rewrite batches_of_chunks. apply chunks_concat.
  pose proof (Nat.div_mod_eq (length ids + 99) 100).
  pose proof (Nat.mod_upper_bound (length ids + 99) 100). lia.
Qed.

Lemma batches_of_count (A : Type) (ids : list A) :
  length (batches_of ids) = ((length ids + 99) / 100)%nat.
Proof. rewrite batches_of_chunks. now rewrite length_map, length_seq. Qed.

Lemma batches_of_sizes (A : Type) (ids : list A) :
  Forall (fun b => (1 <= length b <= 100)%nat) (batches_of ids).
Proof.
  rewrite batches_of_chunks. apply Forall_forall. intros b Hb.
  apply in_map_iff in Hb as (k & <- & Hk).
  apply in_seq in Hk.
  rewrite length_firstn, length_skipn.
  pose proof (Nat.div_mod_eq (length ids + 99) 100).
  pose proof (Nat.mod_upper_bound (length ids + 99) 100). lia.
Qed.

Lemma fetch_friend_ids_served `{PyEnv} (net : network) (steam_id : value)
    (w : world) (fs : list value) (ids : list ustr) :
  serves (net (length (sent w)) (friend_list_request steam_id))
    (U "friendslist") (U "friends") (VList fs) ->
  omap (fun f => py_getitem f (U "steamid")) fs = Ret (map VStr ids) ->
  fetch_friend_ids net steam_id w
  = (Ret (map VStr ids),
     World (sent w ++ [friend_list_request steam_id]) (logged w)).
Proof.
  intros (r & d & Hr & Hs & Hb & Hf) Hids.
  unfold fetch_friend_ids.
  unfold bind at 1. unfold send. rewrite Hr.
  apply Z.eqb_eq in Hs. rewrite Hs.
  unfold bind at 1. unfold response_field, bind at 1, resp_json.
  rewrite Hb. unfold ret at 1. unfold lift at 1. rewrite Hf.
  unfold bind at 1. unfold lift at 1. cbn [py_iter].
  unfold lift. now rewrite Hids.
Qed.

Lemma fetch_games_one_request `{PyEnv} (net : network) (steam_id : value)
    (w : world) :
  exists og lg,
    fetch_games net steam_id w
    = (Ret og, World (sent w ++ [owned_games_request steam_id]) lg).
Proof.
  unfold fetch_games, try_except.
  unfold bind at 1. unfold send.
  destruct (net _ _) as [r|]; [|eexists _, _; reflexivity].
  destruct (status_code r =? 200); [|eexists _, _; reflexivity].
  unfold bind at 1. unfold response_field, bind at 1, resp_json.
  destruct (body r) as [d|]; [|eexists _, _; reflexivity].
  unfold ret at 1. unfold lift at 1.
  destruct (nested_get _ _ d) as [v|]; [|eexists _, _; reflexivity].
  unfold bind at 1. unfold lift at 1.
  destruct (py_iter v) as [gs|]; [|eexists _, _; reflexivity].
  unfold bind at 1. unfold lift at 1.
  destruct (py_sorted _ _ gs) as [s|]; eexists _, _; reflexivity.
Qed.

(** The friends part once the friend ids are known: the loop of
    [batch_loop_run] over the offsets, or nothing for no ids. *)
Lemma fetch_friends_run `{PyEnv} (net : network) (steam_id : value)
    (w : world) (fs : list value) (ids : list ustr) (j0 : nat) :
  serves (net (length (sent w)) (friend_list_request steam_id))
    (U "friendslist") (U "friends") (VList fs) ->
  omap (fun f => py_getitem f (U "steamid")) fs = Ret (map VStr ids) ->
  let bs := batches_of ids in
  let n0 := S (length (sent w)) in
  (forall j, (j < j0)%nat -> (j < length bs)%nat ->
             contribution (batch_reply net n0 bs j) <> None) ->
  ((j0 < length bs)%nat -> contribution (batch_reply net n0 bs j0) = None) ->
  exists lg,
    fetch_friends net steam_id w
    = (Ret (flat_map (fun j => records (batch_reply net n0 bs j))
              (seq 0 (Nat.min j0 (length bs)))),
       World (sent w ++ [friend_list_request steam_id]
                ++ map batch_request (firstn (S j0) bs)) lg).
Proof.
  intros Hserved Hids bs n0 Hbefore Hat.
  unfold fetch_friends.
  rewrite (@fetch_friend_ids_served _ net steam_id w fs ids Hserved Hids).
  set (w1 := World (sent w ++ [friend_list_request steam_id]) (logged w)).
  assert (Hn0 : length (sent w1) = n0).
  { unfold w1, n0. cbn [sent]. rewrite length_app. cbn. lia. }
  destruct (py_truthy (VList (map VStr ids))) eqn:Htruthy.
  - rewrite length_map.
    destruct (@batch_loop_run _ net ids (py_range (length ids) 100) [] w1 j0)
      as (oe & E & Hoe).
    + rewrite Hn0. intros j Hj Hlen. apply Hbefore; [exact Hj|].
      unfold bs, batches_of. now rewrite length_map.
    + rewrite Hn0. intros Hlen. apply Hat.
      unfold bs, batches_of. now rewrite length_map.
    + rewrite E. rewrite Hn0. cbn [app].
      replace (length (py_range (length ids) 100)) with (length bs)
        by (unfold bs, batches_of; now rewrite length_map).
      destruct oe as [e|]; cbn [sent logged]; unfold w1; cbn [sent logged];
        rewrite <- app_assoc; eexists; reflexivity.
  - assert (ids = []) by (destruct ids; [reflexivity | discriminate]).
    subst ids. subst bs.
    change (batches_of (@nil ustr)) with (@nil (list ustr)).
    cbn [length firstn map]. rewrite Nat.min_0_r.
    cbn [seq flat_map].
    unfold w1. rewrite app_nil_r. eexists; reflexivity.
Qed.

(** C2 (amended).  With the profile fetched and the friend list served, the
    friend identifiers are cut into consecutive batches of 1 to 100
    identifiers (as few as possible), and one request per batch is sent, in
    batch order.  A reply with a status other than 200 contributes no
    record and does not stop the loop.  When no turn raises, the friends of
    the aggregate are the records of all batches, concatenated in batch
    order.  When the turn of batch [j0] raises (transport failure, body not
    JSON or not of the expected shape), the friends are the records of the
    batches before [j0], and no request is sent for the batches after
    [j0]. *)
Theorem friends_resolved_in_batches `{PyEnv} (net : network)
    (steam_id : value) (w : world) (p : value) (rest fs : list value)
    (ids : list ustr) :
  let n := length (sent w) in
  serves (net n (summaries_request steam_id 10))
    (U "response") (U "players") (VList (p :: rest)) ->
  serves (net (S n) (friend_list_request steam_id))
    (U "friendslist") (U "friends") (VList fs) ->
  omap (fun f => py_getitem f (U "steamid")) fs = Ret (map VStr ids) ->
  let bs := batches_of ids in
  let reply := batch_reply net (n + 2) bs in
  let before := [summaries_request steam_id 10;
                 friend_list_request steam_id] in
  (Forall (fun b => (1 <= length b <= 100)%nat) bs
   /\ concat bs = ids
   /\ length bs = ((length ids + 99) / 100)%nat)
  /\ (forall r, status_code r <> 200 ->
        contribution (Answered r) = Some [])
  /\ ((forall j, (j < length bs)%nat -> contribution (reply j) <> None) ->
      exists og w',
        fetch_steam_profile net steam_id w
        = (Ret (Some (Aggregate p
                        (flat_map (fun j => records (reply j))
                           (seq 0 (length bs)))
                        og)), w')
        /\ sent w'
           = sent w ++ before ++ map batch_request bs
               ++ [owned_games_request steam_id])
  /\ (forall j0, (j0 < length bs)%nat ->
      (forall j, (j < j0)%nat -> contribution (reply j) <> None) ->
      contribution (reply j0) = None ->
      exists og w',
        fetch_steam_profile net steam_id w
        = (Ret (Some (Aggregate p
                        (flat_map (fun j => records (reply j)) (seq 0 j0))
                        og)), w')
        /\ sent w'
           = sent w ++ before ++ map batch_request (firstn (S j0) bs)
               ++ [owned_games_request steam_id]).
Proof.
  intros n Hprofile Hfriends Hids bs reply before.
  set (w1 := World (sent w ++ [summaries_request steam_id 10]) (logged w)).
  assert (Hlen1 : length (sent w1) = S n).
  { unfold w1, n. cbn [sent]. rewrite length_app. cbn. lia. }
  assert (Hrun : forall j0,
    (forall j, (j < j0)%nat -> (j < length bs)%nat ->
               contribution (reply j) <> None) ->
    ((j0 < length bs)%nat -> contribution (reply j0) = None) ->
    exists og w',
      fetch_steam_profile net steam_id w
      = (Ret (Some (Aggregate p
                      (flat_map (fun j => records (reply j))
                         (seq 0 (Nat.min j0 (length bs))))
                      og)), w')
      /\ sent w'
         = sent w ++ before ++ map batch_request (firstn (S j0) bs)
             ++ [owned_games_request steam_id]).
  { intros j0 Hbefore Hat.
    rewrite (@fetch_steam_profile_served _ net steam_id w p rest Hprofile).
    fold w1.
    assert (Hfriends' : serves
              (net (length (sent w1)) (friend_list_request steam_id))
              (U "friendslist") (U "friends") (VList fs))
      by now rewrite Hlen1.
    destruct (@fetch_friends_run _ net steam_id w1 fs ids j0 Hfriends' Hids)
      as (lg & Ef).
    - rewrite Hlen1. unfold reply in Hbefore.
      replace (S (S n)) with (n + 2)%nat by lia. exact Hbefore.
    - rewrite Hlen1. unfold reply in Hat.
      replace (S (S n)) with (n + 2)%nat by lia. exact Hat.
    - rewrite Hlen1 in Ef.
      replace (S (S n)) with (n + 2)%nat in Ef by lia.
      match type of Ef with _ = (_, ?w2') => set (w2 := w2') in Ef end.
      destruct (fetch_games_one_request net steam_id w2)
        as (og & lg' & Eg).
      exists og. eexists.
      unfold bind at 1. rewrite Ef.
      unfold bind at 1. rewrite Eg.
      split; [reflexivity|].
      cbn [sent]. unfold w2, w1, before. cbn [sent].
      rewrite <- !app_assoc. reflexivity. }
  split; [|split; [|split]].
  - split; [apply batches_of_sizes|].
    split; [apply batches_of_concat | apply batches_of_count].
  - intros r Hr. cbn. apply Z.eqb_neq in Hr. now rewrite Hr.
  - intros Hall.
    destruct (Hrun (length bs)) as (og & w' & E & Hsent).
    + intros j _ Hj. now apply Hall.
    + intros Hj. lia.
    + exists og, w'. rewrite Nat.min_id in E. split; [exact E|].
      rewrite Hsent. rewrite firstn_all2 by lia. reflexivity.
  - intros j0 Hj0 Hbefore Hat.
    destruct (Hrun j0) as (og & w' & E & Hsent).
    + intros j Hj _. now apply Hbefore.
    + intros _. exact Hat.
    + exists og, w'. rewrite Nat.min_l in E by lia. split; assumption.
Qed.

Lemma friends_resolved_in_batches_witness :
  let ids := many_ids 201 in
  let net := net_batches ids 1000 in
  let steam_id := VStr (U "76561198000000001") in
  length (batches_of ids) = 3%nat
  /\ exists og w',
       @fetch_steam_profile ascii_env net steam_id w0
       = (Ret (Some (Aggregate (echo steam_id)
                       (map (fun b => echo (VStr (join (U ",") b)))
                          (batches_of ids))
                       og)), w')
       /\ length (sent w') = 6%nat.
Proof.
  intros ids net steam_id.
  split; [vm_compute; reflexivity|].
  destruct (@friends_resolved_in_batches ascii_env net steam_id w0
              (echo steam_id) []
              (map (fun i => VDict [(U "steamid", VStr i)]) ids) ids)
    as (_ & _ & Hclean & _).
  - exists (Response 200 (Some (players_body [echo steam_id]))),
           (players_body [echo steam_id]).
    split; [vm_compute; reflexivity|].
    split; [reflexivity|]. split; reflexivity.
  - exists (Response 200 (Some (friends_body ids))), (friends_body ids).
    split; [vm_compute; reflexivity|].
    split; [reflexivity|]. split; reflexivity.
  - vm_compute. reflexivity.
  - destruct Hclean as (og & w' & E & Hsent).
    + intros j Hj.
      replace (length (batches_of ids)) with 3%nat in Hj
        by (vm_compute; reflexivity).
      destruct j as [|[|[|j]]]; [| | | lia]; vm_compute; discriminate.
    + exists og, w'. split.
      * rewrite E. vm_compute. reflexivity.
      * rewrite Hsent. vm_compute. reflexivity.
Defined.

(** C2, as stated, fails for a batch whose request fails in transport:
    with 201 friends (three batches) and the second batch request timing
    out, the friends are the records of the first batch only and the third
    batch is never requested, although it would have been served. *)
Lemma batch_failure_counterexample :
  let ids := many_ids 201 in
  let net := net_batches ids 3 in
  let steam_id := VStr (U "76561198000000001") in
  let bs := batches_of ids in
  let b j := @batch_request ascii_env (nth j bs []) in
  let run := @fetch_steam_profile ascii_env net steam_id w0 in
  length bs = 3%nat
  /\ net 3%nat (b 1%nat) = Failed
  /\ (forall k, k <> 3%nat ->
        net k (b 2%nat) = ok (players_body [echo (asked (b 2%nat))]))
  /\ fst run
     = Ret (Some (Aggregate (echo steam_id) [echo (asked (b 0%nat))] []))
  /\ sent (snd run)
     = [@summaries_request ascii_env steam_id 10;
        @friend_list_request ascii_env steam_id;
        b 0%nat; b 1%nat; @owned_games_request ascii_env steam_id]
  /\ ~ In (b 2%nat) (sent (snd run)).
Proof.
  intros ids net steam_id bs b run.
  assert (Hsent : sent (snd run)
     = [@summaries_request ascii_env steam_id 10;
        @friend_list_request ascii_env steam_id;
        b 0%nat; b 1%nat; @owned_games_request ascii_env steam_id])
    by (vm_compute; reflexivity).
  split; [vm_compute; reflexivity|].
  split; [vm_compute; reflexivity|].
  split; [|split; [vm_compute; reflexivity | split; [exact Hsent|]]].
  - intros k Hk. unfold net, net_batches.
    replace (same_url (b 2%nat) friend_list_url) with false
      by (vm_compute; reflexivity).
    replace (same_url (b 2%nat) owned_games_url) with false
      by (vm_compute; reflexivity).
    apply Nat.eqb_neq in Hk. now rewrite Hk.
  - rewrite Hsent. vm_compute.
    intros [E|[E|[E|[E|[E|[]]]]]]; discriminate E.
Qed.

(** ** Hours to one decimal *)

Lemma round_half_even_near (n d : Z) :
  0 < d -> 0 <= n ->
  let q := round_half_even n d in
  0 <= q /\ - d <= 2 * (q * d - n) <= d.
Proof.
  intros Hd Hn. unfold round_half_even.
  pose proof (Z.div_mod n d ltac:(lia)) as Hdm.
  pose proof (Z.mod_pos_bound n d Hd) as Hr.
  pose proof (Z.div_pos n d Hn Hd) as Hq.
  destruct ((d <? 2 * (n mod d)) || ((d =? 2 * (n mod d)) && Z.odd (n / d)))
    eqn:Hup; cbn zeta.
  - apply orb_true_iff in Hup as [Hlt|Heq].
    + apply Z.ltb_lt in Hlt. nia.
    + apply andb_true_iff in Heq as [Heq _]. apply Z.eqb_eq in Heq. nia.
  - apply orb_false_iff in Hup as [Hlt _]. apply Z.ltb_ge in Hlt. nia.
Qed.

(** Below [2^52] minutes the quotient by 60 is a finite float, and the
    text printed for it is the number of hours to one decimal: it is within
    0.05 hour of the exact quotient. *)
Lemma hours_to_one_decimal (m : Z) :
  Z.abs m < 2 ^ 52 ->
  exists x tenths,
    py_truediv m 60 = Ret x
    /\ format_1f x = one_decimal (m <? 0) tenths
    /\ 0 <= tenths
    /\ Z.abs (6 * tenths - Z.abs m) <= 3.
Proof.
  intros Hm. unfold py_truediv.
  destruct (m =? 0) eqn:Hz.
  - apply Z.eqb_eq in Hz. subst m.
    exists (Float false 0 0), 0. repeat split; cbn; lia.
  - apply Z.eqb_neq in Hz.
    set (a := Z.abs m) in *.
    assert (Ha : 0 < a) by (unfold a; lia).
    unfold nearest_double. cbv zeta.
    change (Z.log2 60) with 5.
    set (L := Z.log2 a - 5).
    assert (HL : -5 <= L <= 46).
    { pose proof (Z.log2_nonneg a).
      assert (Z.log2 a < 52) by (apply Z.log2_lt_pow2; lia).
      unfold L. lia. }
    set (e1 := if shl 60 L <=? shl a (- L) then L - 52 else L - 53).
    assert (He1 : -58 <= e1 <= -6) by (unfold e1; destruct (_ <=? _); lia).
    replace (Z.max e1 (-1074)) with e1 by lia.
    set (k := - e1).
    assert (Hk : 6 <= k <= 58) by (unfold k; lia).
    assert (Hshl_a : shl a k = a * 2 ^ k).
    { unfold shl. now replace (Z.max 0 k) with k by lia. }
    assert (Hshl_d : shl 60 e1 = 60).
    { unfold shl. replace (Z.max 0 e1) with 0 by lia. reflexivity. }
    rewrite Hshl_a, Hshl_d.
    set (P := 2 ^ k).
    assert (HP : 64 <= P).
    { unfold P. change 64 with (2 ^ 6).
      apply Z.pow_le_mono_r; lia. }
    assert (HPhi : P <= 2 ^ 58).
    { unfold P. apply Z.pow_le_mono_r; lia. }
    destruct (@round_half_even_near (a * P) 60) as [Hq0 Hq]; [lia | nia |].
    set (q := round_half_even (a * P) 60) in *.
    assert (Hfin : (2 ^ 1024 <=? shl q e1) = false).
    { apply Z.leb_gt. unfold shl. replace (Z.max 0 e1) with 0 by lia.
      change (2 ^ 0) with 1. rewrite Z.mul_1_r.
      assert (q < 2 ^ 111); [|transitivity (2 ^ 111); [assumption|]].
      - assert (a * P < 2 ^ 110).
        { change (2 ^ 110) with (2 ^ 52 * 2 ^ 58). nia. }
        lia.
      - apply Z.pow_lt_mono_r; lia. }
    rewrite Hfin.
    destruct (@round_half_even_near (10 * q) P) as [Ht0 Ht]; [lia | lia |].
    set (t := round_half_even (10 * q) P) in *.
    exists (Float (m <? 0) q e1), t.
    split; [reflexivity|]. split; [|split; [exact Ht0|]].
    + unfold format_1f, one_decimal. cbn [fneg fman fexp].
      replace (0 <=? e1) with false by (symmetry; apply Z.leb_gt; lia).
      fold k. fold P. fold t. reflexivity.
    + assert (P * (6 * t - a) < 4 * P) by nia.
      assert (- (4 * P) < P * (6 * t - a)) by nia.
      assert (6 * t - a < 4) by nia.
      assert (-4 < 6 * t - a) by nia.
      lia.
Qed.

Lemma nearest_double_nonneg (a d : Z) :
  0 <= a -> 0 < d -> 0 <= fst (nearest_double a d).
Proof.
  intros Ha Hd. unfold nearest_double. cbv zeta. cbn [fst].
  match goal with |- 0 <= round_half_even ?n ?k =>
    destruct (@round_half_even_near n k) as [H0 _]; [| |exact H0] end.
  - unfold shl.
    match goal with |- 0 < _ * 2 ^ ?k =>
      pose proof (Z.pow_pos_nonneg 2 k) end. nia.
  - unfold shl.
    match goal with |- 0 <= _ * 2 ^ ?k =>
      pose proof (Z.pow_nonneg 2 k) end. nia.
Qed.

(** Any quotient that [py_truediv] returns prints as a decimal with one
    digit after the point. *)
Lemma hours_shape (m : Z) (x : float) :
  py_truediv m 60 = Ret x ->
  exists tenths,
    format_1f x = one_decimal (m <? 0) tenths
    /\ 0 <= tenths
    /\ (Z.abs m < 2 ^ 52 -> Z.abs (6 * tenths - Z.abs m) <= 3).
Proof.
  intros Hx.
  destruct (Z_lt_dec (Z.abs m) (2 ^ 52)) as [Hsmall|Hbig].
  - destruct (hours_to_one_decimal m Hsmall)
      as (x' & tenths & Hx' & Hfmt & Ht0 & Ht).
    assert (x' = x) by congruence. subst x'.
    exists tenths. auto.
  - unfold py_truediv in Hx.
    destruct (m =? 0) eqn:Hz.
    { apply Z.eqb_eq in Hz. subst m. elim Hbig. reflexivity. }
    destruct (nearest_double (Z.abs m) 60) as [q e] eqn:Hnd.
    destruct (2 ^ 1024 <=? shl q e); [discriminate|].
    inversion Hx; subst x; clear Hx.
    assert (Hq : 0 <= q).
    { pose proof (@nearest_double_nonneg (Z.abs m) 60) as Hnn.
      rewrite Hnd in Hnn. apply Hnn; lia. }
    unfold format_1f, one_decimal. cbn [fneg fman fexp].
    eexists. split; [reflexivity|]. split; [|intros; contradiction].
    destruct (0 <=? e) eqn:He.
    + apply Z.leb_le in He. pose proof (Z.pow_nonneg 2 e). nia.
    + apply Z.leb_gt in He.
      destruct (@round_half_even_near (10 * q) (2 ^ (- e))) as [H0 _];
        [apply Z.pow_pos_nonneg; lia | lia | exact H0].
Qed.

(** ** The summarizer on well-formed aggregates *)

Lemma tally_fold (fs : list value) :
  forallb friend_record fs = true ->
  forall acc,
    tally fs acc
    = Ret (fold_left (fun t f => count_up (country_of f) t) fs acc).
Proof.
  induction fs as [|f fs IH]; cbn [forallb]; intros Hall acc.
  - reflexivity.
  - apply andb_true_iff in Hall as [Hf Hall].
    destruct f as [| | | |?|d]; unfold friend_record in Hf;
      try discriminate.
    cbn [tally py_get obind fold_left country_of].
    destruct (lookup (U "loccountrycode") d) as [c|].
    + rewrite Hf. now apply IH.
    + cbn [hashable]. now apply IH.
Qed.

Lemma sum_playtime_total (gs : list value) :
  forallb timed_game gs = true ->
  forall acc, sum_playtime gs acc = Ret (acc + total_minutes gs).
Proof.
  induction gs as [|g gs IH]; cbn [forallb]; intros Hall acc.
  - cbn. f_equal. lia.
  - apply andb_true_iff in Hall as [Hg Hall].
    destruct g as [| | | |?|d]; unfold timed_game in Hg; try discriminate.
    cbn [sum_playtime playtime_forever py_get obind total_minutes
         fold_right minutes].
    destruct (lookup (U "playtime_forever") d) as [v|].
    + destruct (as_int v) as [z|]; [|discriminate].
      rewrite (IH Hall). f_equal. fold (total_minutes gs). lia.
    + cbn [as_int]. rewrite (IH Hall). f_equal.
      fold (total_minutes gs). lia.
Qed.

Lemma game_record_timed (gs : list value) :
  forallb game_record gs = true -> forallb timed_game gs = true.
Proof.
  rewrite !forallb_forall. intros Hall g Hg.
  specialize (Hall g Hg). unfold game_record in Hall.
  now apply andb_true_iff in Hall as [Ht _].
Qed.

Lemma forallb_firstn (A : Type) (f : A -> bool) (n : nat) (l : list A) :
  forallb f l = true -> forallb f (firstn n l) = true.
Proof.
  rewrite !forallb_forall. intros Hall x Hx.
  apply Hall. rewrite <- (firstn_skipn n l). apply in_or_app. now left.
Qed.

Lemma game_names (gs : list value) :
  forallb game_record gs = true ->
  omap (fun g => py_getitem g (U "name")) gs
  = Ret (map (fun g => VStr (name_of g)) gs).
Proof.
  induction gs as [|g gs IH]; cbn [forallb]; intros Hall.
  - reflexivity.
  - apply andb_true_iff in Hall as [Hg Hall].
    unfold game_record in Hg. apply andb_true_iff in Hg as [_ Hg].
    destruct g as [| | | |?|d]; try discriminate.
    cbn [omap py_getitem map name_of].
    destruct (lookup (U "name") d) as [[| | |s| |]|]; try discriminate.
    cbn [obind]. now rewrite (IH Hall).
Qed.

Lemma shown_or `{PyEnv} (d : list (ustr * value)) (field sentinel : ustr) :
  py_str (py_or (match lookup field d with Some v => v | None => VNone end)
            (VStr sentinel))
  = shown d field sentinel.
Proof.
  unfold shown, py_or. destruct (lookup field d) as [v|]; [|reflexivity].
  now destruct (py_truthy v).
Qed.

Lemma created_str_text (d : list (ustr * value)) :
  created_ok d = true ->
  (if py_truthy
        match lookup (U "timecreated") d with Some v => v | None => VNone end
   then
     let* date :=
       utcfromtimestamp
         match lookup (U "timecreated") d with Some v => v | None => VNone end
     in Ret (strftime_mdY date)
   else Ret (U "Unknown"))
  = Ret (created_text d).
Proof.
  unfold created_ok, created_text.
  destruct (lookup (U "timecreated") d) as [v|]; [|reflexivity].
  destruct (py_truthy v); [|reflexivity].
  cbn [negb orb]. unfold utcfromtimestamp.
  destruct (as_int v) as [t|]; [|discriminate].
  intros Hr. apply andb_true_iff in Hr as [Hlo Hhi].
  apply Z.leb_le in Hlo, Hhi.
  replace ((t <? - 2 ^ 63) || (2 ^ 63 <=? t)) with false.
  2:{ symmetry. apply orb_false_iff. split.
      - apply Z.ltb_ge. transitivity (-62135596800); [|exact Hlo].
        vm_compute. discriminate.
      - apply Z.leb_gt. eapply Z.le_lt_trans; [exact Hhi|].
        vm_compute. reflexivity. }
  replace ((t <? -62135596800) || (253402300799 <? t)) with false.
  2:{ symmetry. apply orb_false_iff. split.
      - now apply Z.ltb_ge.
      - now apply Z.ltb_ge. }
  reflexivity.
Qed.

(** The digest of a well-formed aggregate, field by field. *)
Lemma simplify_spec `{PyEnv} (data : aggregate) :
  profile_aggregate data = true ->
  let games := owned_games_sample data in
  exists d x tenths,
    profile data = VDict d
    /\ format_1f x = one_decimal (total_minutes games <? 0) tenths
    /\ 0 <= tenths
    /\ Z.abs (6 * tenths - Z.abs (total_minutes games)) <= 3
    /\ simplify_steam_profile data
       = Ret (digest_format
                (shown d (U "personaname") (U "No nickname"))
                (shown d (U "realname") (U "Not specified"))
                (shown d (U "loccountrycode") (U "Unknown"))
                (created_text d)
                (length (friends data))
                (top_countries_text
                   (fold_left (fun t f => count_up (country_of f) t)
                      (friends data) []))
                (length games)
                x
                (join (U ", ") (map name_of (firstn 10 games)))).
Proof.
  intros Hwf games. unfold profile_aggregate in Hwf.
  apply andb_true_iff in Hwf as [Hwf Hmin].
  apply andb_true_iff in Hwf as [Hwf Hgames].
  apply andb_true_iff in Hwf as [Hprofile Hfriends].
  fold games in Hgames, Hmin.
  destruct (profile data) as [| | | |?|d] eqn:Hp; try discriminate.
  apply Z.ltb_lt in Hmin.
  destruct (hours_to_one_decimal _ Hmin) as (x & tenths & Hx & Hfmt & Ht0 & Ht).
  exists d, x, tenths.
  split; [reflexivity|]. split; [exact Hfmt|].
  split; [exact Ht0|]. split; [exact Ht|].
  unfold simplify_steam_profile. rewrite Hp. fold games.
  cbn [py_get obind].
  rewrite (created_str_text d Hprofile). cbn [obind].
  rewrite (tally_fold _ Hfriends). cbn [obind].
  rewrite (sum_playtime_total _ (game_record_timed _ Hgames)).
  cbn [obind]. rewrite Z.add_0_l, Hx. cbn [obind].
  rewrite (game_names _ (forallb_firstn _ 10 _ Hgames)). cbn [obind].
  unfold py_join.
  rewrite <- (map_map name_of VStr), omap_as_str. cbn [obind].
  now rewrite !shown_or.
Qed.

Lemma simplify_returns `{PyEnv} (data : aggregate) :
  profile_aggregate data = true ->
  exists text, simplify_steam_profile data = Ret text.
Proof.
  intros Hwf.
  destruct (simplify_spec data Hwf) as (d & x & tenths & _ & _ & _ & _ & E).
  eexists. exact E.
Qed.

(** Whatever the aggregate, a digest that is produced is made of these
    fields. *)
Lemma simplify_inv `{PyEnv} (data : aggregate) (text : ustr) :
  simplify_steam_profile data = Ret text ->
  let games := owned_games_sample data in
  exists d fc minutes x names titles,
    profile data = VDict d
    /\ tally (friends data) [] = Ret fc
    /\ sum_playtime games 0 = Ret minutes
    /\ py_truediv minutes 60 = Ret x
    /\ omap (fun g => py_getitem g (U "name")) (firstn 10 games) = Ret names
    /\ py_join (U ", ") names = Ret titles
    /\ text
       = digest_format
           (shown d (U "personaname") (U "No nickname"))
           (shown d (U "realname") (U "Not specified"))
           (shown d (U "loccountrycode") (U "Unknown"))
           (created_text d)
           (length (friends data))
           (top_countries_text fc)
           (length games)
           x titles.
Proof.
  intros E games. unfold simplify_steam_profile in E. fold games in E.
  destruct (profile data) as [| | | |?|d] eqn:Hp; try discriminate.
  cbn [py_get obind] in E.
  assert (Hcreated :
    forall k : ustr -> outcome ustr,
      (let* created_str :=
         if py_truthy
              match lookup (U "timecreated") d with
              | Some v => v | None => VNone end
         then
           let* date :=
             utcfromtimestamp
               match lookup (U "timecreated") d with
               | Some v => v | None => VNone end
           in Ret (strftime_mdY date)
         else Ret (U "Unknown")
       in k created_str) = Ret text ->
      k (created_text d) = Ret text).
  { intros k. unfold created_text.
    destruct (lookup (U "timecreated") d) as [v|]; [|auto].
    destruct (py_truthy v); [|auto].
    unfold utcfromtimestamp. destruct (as_int v) as [t|]; [|discriminate].
    destruct ((t <? - 2 ^ 63) || (2 ^ 63 <=? t)); [discriminate|].
    destruct ((t <? -62135596800) || (253402300799 <? t)); [discriminate|].
    auto. }
  apply Hcreated in E. clear Hcreated.
  destruct (tally (friends data) []) as [fc|] eqn:Ht; [|discriminate].
  cbn [obind] in E.
  destruct (sum_playtime games 0) as [minutes|] eqn:Hs; [|discriminate].
  cbn [obind] in E.
  destruct (py_truediv minutes 60) as [x|] eqn:Hx; [|discriminate].
  cbn [obind] in E.
  destruct (omap (fun g => py_getitem g (U "name")) (firstn 10 games))
    as [names|] eqn:Hn; [|discriminate].
  cbn [obind] in E.
  destruct (py_join (U ", ") names) as [titles|] eqn:Hj; [|discriminate].
  cbn [obind] in E. rewrite !shown_or in E.
  exists d, fc, minutes, x, names, titles.
  repeat (split; [reflexivity || assumption|]).
  now inversion E.
Qed.

Lemma sum_playtime_inv (gs : list value) :
  forall acc m,
    sum_playtime gs acc = Ret m -> m = acc + total_minutes gs.
Proof.
  induction gs as [|g gs IH]; intros acc m E.
  - cbn in E. inversion E. cbn. lia.
  - cbn [sum_playtime] in E.
    destruct g as [| | | |?|d]; try discriminate.
    cbn [playtime_forever py_get obind] in E.
    cbn [total_minutes fold_right minutes]. fold (total_minutes gs).
    destruct (lookup (U "playtime_forever") d) as [v|].
    + destruct (as_int v) as [z|]; [|discriminate].
      apply IH in E. lia.
    + cbn [as_int] in E. apply IH in E. lia.
Qed.

Lemma game_titles_inv (sep : ustr) (gs vs : list value) (titles : ustr) :
  omap (fun g => py_getitem g (U "name")) gs = Ret vs ->
  py_join sep vs = Ret titles ->
  titles = join sep (map name_of gs).
Proof.
  intros Hn Hj. unfold py_join in Hj.
  destruct (omap as_str vs) as [ss|] eqn:Hss; [|discriminate].
  cbn in Hj. inversion Hj; subst titles; clear Hj. f_equal.
  revert vs ss Hn Hss.
  induction gs as [|g gs IH]; intros vs ss Hn Hss.
  - cbn in Hn. inversion Hn; subst. cbn in Hss. now inversion Hss.
  - cbn [omap] in Hn.
    destruct (py_getitem g (U "name")) as [v|] eqn:Hv; [|discriminate].
    cbn [obind] in Hn.
    destruct (omap (fun g0 => py_getitem g0 (U "name")) gs) as [vs'|] eqn:Hvs;
      [|discriminate].
    cbn [obind] in Hn. inversion Hn; subst vs; clear Hn.
    cbn [omap] in Hss.
    destruct (as_str v) as [s0|] eqn:Hs0; [|discriminate].
    cbn [obind] in Hss.
    destruct (omap as_str vs') as [ss'|] eqn:Hss'; [|discriminate].
    cbn [obind] in Hss. inversion Hss; subst ss; clear Hss.
    cbn [map]. f_equal; [|now apply (IH vs')].
    destruct v; try discriminate. cbn in Hs0. inversion Hs0; subst.
    destruct g as [| | | |?|d]; try discriminate.
    unfold py_getitem in Hv. unfold name_of.
    destruct (lookup (U "name") d) as [v|]; [|discriminate].
    now inversion Hv.
Qed.

(** ** The country tally *)

Lemma encounter_order_in (codes : list ustr) (c : ustr) :
  In c (encounter_order codes) <-> In c codes.
Proof.
  induction codes as [|x codes IH]; cbn; [tauto|].
  split.
  - intros [->|Hin]; [now left|].
    apply in_remove in Hin as [Hin _]. right. now apply IH.
  - intros [->|Hin]; [now left|].
    destruct (ustr_eq_dec x c) as [->|Hne]; [now left|].
    right. apply in_in_remove; [congruence | now apply IH].
Qed.

Lemma nodup_remove (l : list ustr) (x : ustr) :
  NoDup l -> NoDup (remove ustr_eq_dec x l).
Proof.
  induction 1 as [|y l Hy Hnd IH]; cbn; [constructor|].
  destruct (ustr_eq_dec x y); [assumption|].
  constructor; [|assumption].
  intros Hin. now apply in_remove in Hin as [Hin _].
Qed.

Lemma encounter_order_nodup (codes : list ustr) :
  NoDup (encounter_order codes).
Proof.
  induction codes as [|x codes IH]; cbn; constructor.
  - apply remove_In.
  - now apply nodup_remove.
Qed.

Lemma encounter_order_snoc (codes : list ustr) (c : ustr) :
  encounter_order (codes ++ [c])
  = if in_dec ustr_eq_dec c codes then encounter_order codes
    else encounter_order codes ++ [c].
Proof.
  induction codes as [|x codes IH].
  - reflexivity.
  - cbn [app encounter_order]. rewrite IH.
    destruct (in_dec ustr_eq_dec c codes) as [Hin|Hout];
      destruct (in_dec ustr_eq_dec c (x :: codes)) as [Hin'|Hout'];
      try reflexivity.
    + elim Hout'. now right.
    + destruct Hin' as [->|Hin']; [|contradiction].
      rewrite remove_app. cbn.
      destruct (ustr_eq_dec c c); [|congruence]. now rewrite app_nil_r.
    + rewrite remove_app. cbn.
      destruct (ustr_eq_dec x c) as [->|Hne]; [|reflexivity].
      elim Hout'. now left.
Qed.

Lemma key_eqb_str (c k : ustr) :
  key_eqb (VStr c) (VStr k) = if ustr_eq_dec c k then true else false.
Proof. reflexivity. Qed.

Lemma count_up_absent (f : ustr -> Z) (c : ustr) (ks : list ustr) :
  ~ In c ks ->
  count_up (VStr c) (map (fun k => as_key (k, f k)) ks)
  = map (fun k => as_key (k, f k)) ks ++ [as_key (c, 1)].
Proof.
  induction ks as [|k ks IH]; intros Hout; [reflexivity|].
  cbn [map count_up as_key fst snd]. rewrite key_eqb_str.
  destruct (ustr_eq_dec c k) as [->|Hne].
  - elim Hout. now left.
  - cbn [app]. f_equal. apply IH. intros Hin. apply Hout. now right.
Qed.

Lemma count_up_present (f g : ustr -> Z) (c : ustr) (ks : list ustr) :
  NoDup ks -> In c ks ->
  g c = f c + 1 -> (forall k, k <> c -> g k = f k) ->
  count_up (VStr c) (map (fun k => as_key (k, f k)) ks)
  = map (fun k => as_key (k, g k)) ks.
Proof.
  intros Hnd Hin Hc Hother.
  induction ks as [|k ks IH]; [contradiction|].
  inversion Hnd as [|? ? Hk Hnd']; subst.
  cbn [map count_up as_key fst snd]. rewrite key_eqb_str.
  destruct (ustr_eq_dec c k) as [->|Hne].
  - rewrite Hc. f_equal. apply map_ext_in.
    intros k' Hk'. rewrite Hother; [reflexivity|]. congruence.
  - rewrite (Hother k) by congruence. f_equal.
    apply IH; [assumption|]. destruct Hin; [congruence | assumption].
Qed.

Lemma count_occ_snoc (codes : list ustr) (c k : ustr) :
  count_occ ustr_eq_dec (codes ++ [c]) k
  = (count_occ ustr_eq_dec codes k + if ustr_eq_dec c k then 1 else 0)%nat.
Proof.
  rewrite count_occ_app. cbn. now destruct (ustr_eq_dec c k).
Qed.

(** Counting the codes one after the other, as the loop does, yields the
    tally of the specification. *)
Lemma tally_of_codes (codes : list ustr) :
  fold_left (fun t c => count_up (VStr c) t) codes []
  = map as_key (spec_tally codes).
Proof.
  induction codes as [|c codes IH] using rev_ind; [reflexivity|].
  rewrite fold_left_app. cbn [fold_left]. rewrite IH.
  unfold spec_tally. rewrite !map_map, encounter_order_snoc.
  destruct (in_dec ustr_eq_dec c codes) as [Hin|Hout].
  - apply count_up_present.
    + apply encounter_order_nodup.
    + now apply encounter_order_in.
    + rewrite count_occ_snoc.
      destruct (ustr_eq_dec c c); [lia | congruence].
    + intros k Hk. rewrite count_occ_snoc.
      destruct (ustr_eq_dec c k); [congruence | f_equal; lia].
  - rewrite count_up_absent by now rewrite encounter_order_in.
    rewrite map_app. cbn [map]. f_equal.
    + apply map_ext_in. intros k Hk. rewrite count_occ_snoc.
      destruct (ustr_eq_dec c k) as [<-|]; [|do 2 f_equal; lia].
      apply (proj1 (encounter_order_in _ _)) in Hk. contradiction.
    + rewrite count_occ_snoc.
      apply (count_occ_not_In ustr_eq_dec) in Hout. rewrite Hout.
      destruct (ustr_eq_dec c c); [reflexivity | congruence].
Qed.

Lemma country_of_code (f : value) :
  coded_friend f = true -> country_of f = VStr (friend_code f).
Proof.
  destruct f as [| | | |?|d]; try discriminate.
  unfold coded_friend, country_of, friend_code.
  destruct (lookup (U "loccountrycode") d) as [[| | |s| |]|];
    try discriminate; reflexivity.
Qed.

Lemma tally_of_friends (fs : list value) :
  forallb coded_friend fs = true ->
  fold_left (fun t f => count_up (country_of f) t) fs []
  = map as_key (spec_tally (map friend_code fs)).
Proof.
  intros Hall. rewrite <- tally_of_codes.
  generalize (@nil (value * Z)).
  induction fs as [|f fs IH]; cbn [forallb] in Hall; intros acc.
  - reflexivity.
  - apply andb_true_iff in Hall as [Hf Hall].
    cbn [map fold_left]. rewrite (country_of_code _ Hf). now apply IH.
Qed.

(** Sorting the images of a list under [g] is sorting the list by the key
    read through [g]. *)
Lemma sorted_by_map (A B K : Type) (g : A -> B) (key : B -> K)
    (lt : K -> K -> bool) (reverse : bool) (l : list A) :
  sorted_by key lt reverse (map g l)
  = map g (sorted_by (fun a => key (g a)) lt reverse l).
Proof.
  assert (Hins : forall x l',
            insert_by key lt (g x) (map g l')
            = map g (insert_by (fun a => key (g a)) lt x l')).
  { intros x l'. induction l' as [|y l' IH]; cbn; [reflexivity|].
    destruct (lt (key (g y)) (key (g x))); cbn;
      [now rewrite <- IH | reflexivity]. }
  assert (Hsort : forall l',
            sort_by key lt (map g l')
            = map g (sort_by (fun a => key (g a)) lt l')).
  { intros l'. induction l' as [|x l' IH]; cbn; [reflexivity|].
    now rewrite IH, Hins. }
  unfold sorted_by. destruct reverse.
  - now rewrite <- map_rev, Hsort, <- map_rev.
  - apply Hsort.
Qed.

Lemma top_countries_of_tally `{PyEnv} (t : list (ustr * Z)) :
  top_countries_text (map as_key t)
  = join (U ", ")
      (map breakdown_entry
         (firstn 5 (sorted_by (fun x => - snd x) Z.ltb false t))).
Proof.
  unfold top_countries_text.
  rewrite (sorted_by_map as_key (fun x => - snd x) Z.ltb false t).
  cbn [as_key snd]. rewrite firstn_map, map_map. reflexivity.
Qed.

Lemma ascending_neg (A : Type) (key : A -> Z) (l : list A) :
  ascending (fun a => - key a) l -> descending key l.
Proof.
  unfold ascending, descending.
  induction 1 as [|x l Hs IH Hall]; constructor; [assumption|].
  rewrite Forall_forall in *. intros y Hy. specialize (Hall y Hy).
  cbn in Hall. lia.
Qed.

Lemma stable_neg (A : Type) (key : A -> Z) (l s : list A) :
  stable (fun a => - key a) l s -> stable key l s.
Proof.
  intros Hst k. specialize (Hst (- k)).
  rewrite (filter_ext _ (fun a => - key a =? - k)), Hst.
  - apply filter_ext. intros a.
    destruct (key a =? k) eqn:E.
    + apply Z.eqb_eq in E. apply Z.eqb_eq. lia.
    + apply Z.eqb_neq in E. apply Z.eqb_neq. lia.
  - intros a.
    destruct (key a =? k) eqn:E.
    + apply Z.eqb_eq in E. symmetry. apply Z.eqb_eq. lia.
    + apply Z.eqb_neq in E. symmetry. apply Z.eqb_neq. lia.
Qed.

(** [sorted(items, key=lambda x: -x[1])]: by count, descending, stable. *)
Lemma ranking_by_count (A : Type) (t : list (A * Z)) :
  let ranked := sorted_by (fun x => - snd x) Z.ltb false t in
  Permutation t ranked
  /\ descending snd ranked
  /\ stable snd t ranked.
Proof.
  destruct (sorted_by_forward (fun x : A * Z => - snd x) t)
    as (Hp & Ha & Hs).
  repeat split.
  - exact Hp.
  - now apply ascending_neg.
  - now apply stable_neg.
Qed.

(** ** The digest *)

Lemma shown_missing `{PyEnv} (d : list (ustr * value))
    (field sentinel : ustr) :
  missing d field = true -> shown d field sentinel = sentinel.
Proof.
  unfold missing, shown.
  destruct (lookup field d) as [[| | |[|? ?]| |]|]; try discriminate;
    reflexivity.
Qed.

(** C3 (amended).  Every digest the summarizer produces (and it produces one
    for every well-formed aggregate) consists of three labeled sections in
    a fixed order, with literal headers and labels: "Steam User" (display
    name, real name, country, creation date), "Friends" (total count; at
    most five entries "<count> from <code>" joined by comma-space),
    "Gaming activity" (sample size; total hours with one decimal, which
    below 2^52 minutes is within 0.05 hour of the summed minutes; the
    titles of at most 10 games joined by comma-space). *)
Theorem digest_layout `{PyEnv} (data : aggregate) :
  let games := owned_games_sample data in
  (profile_aggregate data = true ->
   exists text, simplify_steam_profile data = Ret text)
  /\ forall text,
       simplify_steam_profile data = Ret text ->
       exists d top tenths,
         profile data = VDict d
         /\ (length top <= 5)%nat
         /\ 0 <= tenths
         /\ (Z.abs (total_minutes games) < 2 ^ 52 ->
             Z.abs (6 * tenths - Z.abs (total_minutes games)) <= 3)
         /\ (length (firstn 10 games) <= 10)%nat
         /\ text
            = U "Steam User:" ++ nl
              ++ U "- Display name: "
              ++ shown d (U "personaname") (U "No nickname") ++ nl
              ++ U "- Real name: "
              ++ shown d (U "realname") (U "Not specified") ++ nl
              ++ U "- Country: "
              ++ shown d (U "loccountrycode") (U "Unknown") ++ nl
              ++ U "- Account created: " ++ created_text d ++ nl
              ++ nl
              ++ U "Friends:" ++ nl
              ++ U "- Total friends: "
              ++ str_int (Z.of_nat (length (friends data))) ++ nl
              ++ U "- Top friend countries: "
              ++ join (U ", ")
                   (map (fun item =>
                           str_int (snd item) ++ U " from "
                           ++ py_str (fst item)) top) ++ nl
              ++ nl
              ++ U "Gaming activity:" ++ nl
              ++ U "- Sample of owned games: "
              ++ str_int (Z.of_nat (length games)) ++ nl
              ++ U "- Total playtime (in sample): ~"
              ++ one_decimal (total_minutes games <? 0) tenths
              ++ U " hours" ++ nl
              ++ U "- Example games: "
              ++ join (U ", ") (map name_of (firstn 10 games)).
Proof.
  intros games. split; [apply simplify_returns|].
  intros text E.
  destruct (simplify_inv data E)
    as (d & fc & minutes & x & names & titles & Hp & _ & Hsum & Hx & Hnames
        & Hjoin & ->).
  fold games in Hsum, Hnames.
  apply sum_playtime_inv in Hsum. rewrite Z.add_0_l in Hsum. subst minutes.
  destruct (hours_shape _ Hx) as (tenths & Hfmt & Ht0 & Ht).
  rewrite (game_titles_inv _ _ Hnames Hjoin).
  exists d,
    (firstn 5 (sorted_by (fun x : value * Z => - snd x) Z.ltb false fc)),
    tenths.
  split; [exact Hp|].
  split; [rewrite length_firstn; lia|].
  split; [exact Ht0|]. split; [exact Ht|].
  split; [rewrite length_firstn; lia|].
  unfold digest_format, top_countries_text. rewrite Hfmt. fold games.
  rewrite (map_ext country_entry
             (fun item => str_int (snd item) ++ U " from "
                          ++ py_str (fst item)))
    by (intros [c n]; reflexivity).
  reflexivity.
Qed.

(** C3, as stated, fails on the number of sections: the digest has three
    sections, not four. *)
Lemma digest_sections_counterexample :
  exists text,
    @simplify_steam_profile ascii_env example_aggregate = Ret text
    /\ map first_line (sections text)
       = [U "Steam User:"; U "Friends:"; U "Gaming activity:"]
    /\ length (sections text) = 3%nat
    /\ length (sections text) <> 4%nat.
Proof.
  eexists. split; [vm_compute; reflexivity|].
  split; [vm_compute; reflexivity|].
  split; [vm_compute; reflexivity|].
  vm_compute. discriminate.
Qed.

(** Every digest, spelled out, with the tally behind the breakdown. *)
Lemma digest_explicit `{PyEnv} (data : aggregate) (text : ustr) :
  simplify_steam_profile data = Ret text ->
  let games := owned_games_sample data in
  exists d fc tenths,
    profile data = VDict d
    /\ tally (friends data) [] = Ret fc
    /\ 0 <= tenths
    /\ text
       = U "Steam User:" ++ nl
         ++ U "- Display name: " ++ shown d (U "personaname") (U "No nickname") ++ nl
         ++ U "- Real name: " ++ shown d (U "realname") (U "Not specified") ++ nl
         ++ U "- Country: "
         ++ shown d (U "loccountrycode") (U "Unknown") ++ nl
         ++ U "- Account created: " ++ created_text d ++ nl
         ++ nl
         ++ U "Friends:" ++ nl
         ++ U "- Total friends: "
         ++ str_int (Z.of_nat (length (friends data))) ++ nl
         ++ U "- Top friend countries: "
         ++ top_countries_text fc ++ nl
         ++ nl
         ++ U "Gaming activity:" ++ nl
         ++ U "- Sample of owned games: "
         ++ str_int (Z.of_nat (length games)) ++ nl
         ++ U "- Total playtime (in sample): ~"
         ++ one_decimal (total_minutes games <? 0) tenths
         ++ U " hours" ++ nl
         ++ U "- Example games: "
         ++ join (U ", ") (map name_of (firstn 10 games)).
Proof.
  intros E games.
  destruct (simplify_inv data E)
    as (d & fc & minutes & x & names & titles & Hp & Ht & Hsum & Hx & Hnames
        & Hjoin & ->).
  fold games in Hsum, Hnames.
  apply sum_playtime_inv in Hsum. rewrite Z.add_0_l in Hsum. subst minutes.
  destruct (hours_shape _ Hx) as (tenths & Hfmt & Ht0 & _).
  rewrite (game_titles_inv _ _ Hnames Hjoin).
  exists d, fc, tenths.
  split; [exact Hp|]. split; [exact Ht|]. split; [exact Ht0|].
  unfold digest_format. rewrite Hfmt. fold games. reflexivity.
Qed.

Lemma top_countries_entries `{PyEnv} (fc : list (value * Z)) :
  top_countries_text fc
  = join (U ", ")
      (map (fun item => str_int (snd item) ++ U " from " ++ py_str (fst item))
         (firstn 5 (sorted_by (fun x : value * Z => - snd x) Z.ltb false fc))).
Proof.
  unfold top_countries_text. f_equal. apply map_ext.
  intros [c n]. reflexivity.
Qed.

(** C9.  When the real name of the profile record is absent or empty, the
    digest shows the fixed sentinel "Not specified" in its place; when the
    display name is absent or empty, it shows the fixed sentinel
    "No nickname".  This holds of every digest the summarizer produces, and
    it produces one for every well-formed aggregate; the text of the digest
    is given in full, with the two names at their places. *)
Theorem missing_names_get_sentinels `{PyEnv} (data : aggregate)
    (d : list (ustr * value)) :
  profile data = VDict d ->
  let games := owned_games_sample data in
  (profile_aggregate data = true ->
   exists text, simplify_steam_profile data = Ret text)
  /\ forall text,
       simplify_steam_profile data = Ret text ->
       exists persona name top tenths,
         (missing d (U "personaname") = true -> persona = U "No nickname")
         /\ (missing d (U "realname") = true -> name = U "Not specified")
         /\ text
            = U "Steam User:" ++ nl
              ++ U "- Display name: " ++ persona ++ nl
              ++ U "- Real name: " ++ name ++ nl
              ++ U "- Country: "
              ++ shown d (U "loccountrycode") (U "Unknown") ++ nl
              ++ U "- Account created: " ++ created_text d ++ nl
              ++ nl
              ++ U "Friends:" ++ nl
              ++ U "- Total friends: "
              ++ str_int (Z.of_nat (length (friends data))) ++ nl
              ++ U "- Top friend countries: "
              ++ join (U ", ")
                   (map (fun item =>
                           str_int (snd item) ++ U " from "
                           ++ py_str (fst item)) top) ++ nl
              ++ nl
              ++ U "Gaming activity:" ++ nl
              ++ U "- Sample of owned games: "
              ++ str_int (Z.of_nat (length games)) ++ nl
              ++ U "- Total playtime (in sample): ~"
              ++ one_decimal (total_minutes games <? 0) tenths
              ++ U " hours" ++ nl
              ++ U "- Example games: "
              ++ join (U ", ") (map name_of (firstn 10 games)).
Proof.
  intros Hp games. split; [apply simplify_returns|].
  intros text E.
  destruct (digest_explicit data E) as (d' & fc & tenths & Hp' & _ & _ & ->).
  assert (d' = d) by congruence. subst d'.
  exists (shown d (U "personaname") (U "No nickname")),
         (shown d (U "realname") (U "Not specified")),
         (firstn 5 (sorted_by (fun x : value * Z => - snd x) Z.ltb false fc)),
         tenths.
  split; [intros Hm; now apply shown_missing|].
  split; [intros Hm; now apply shown_missing|].
  now rewrite top_countries_entries.
Qed.

Lemma missing_names_get_sentinels_witness :
  missing [(U "personaname", VStr []); (U "timecreated", VInt 0)]
    (U "personaname") = true
  /\ missing [(U "personaname", VStr []); (U "timecreated", VInt 0)]
       (U "realname") = true
  /\ exists rest,
       @simplify_steam_profile ascii_env bare_aggregate
       = Ret (U "Steam User:
- Display name: No nickname
- Real name: Not specified
" ++ rest).
Proof.
  split; [vm_compute; reflexivity|].
  split; [vm_compute; reflexivity|].
  destruct (@missing_names_get_sentinels ascii_env bare_aggregate _ eq_refl)
    as [Hreturns Hany].
  destruct (Hreturns eq_refl) as (text & E).
  destruct (Hany text E)
    as (persona & name & top & tenths & Hpersona & Hname & Htext).
  rewrite (Hpersona eq_refl), (Hname eq_refl) in Htext.
  eexists. etransitivity; [exact E|]. rewrite Htext.
  apply f_equal. cbv. reflexivity.
Defined.

(** C10.  When the profile record carries an account-creation timestamp
    equal to 0, the digest shows "Unknown" as the creation date, although
    the field is present: the program tests the truth value of the
    timestamp, and 0 is false.  This holds of every digest the summarizer
    produces, and it produces one for every well-formed aggregate; the text
    of the digest is given in full, with "Unknown" at the place of the
    date. *)
Theorem epoch_creation_is_unknown `{PyEnv} (data : aggregate)
    (d : list (ustr * value)) :
  profile data = VDict d ->
  lookup (U "timecreated") d = Some (VInt 0) ->
  let games := owned_games_sample data in
  (profile_aggregate data = true ->
   exists text, simplify_steam_profile data = Ret text)
  /\ forall text,
       simplify_steam_profile data = Ret text ->
       exists top tenths,
         text
         = U "Steam User:" ++ nl
           ++ U "- Display name: " ++ shown d (U "personaname") (U "No nickname") ++ nl
           ++ U "- Real name: " ++ shown d (U "realname") (U "Not specified") ++ nl
           ++ U "- Country: "
           ++ shown d (U "loccountrycode") (U "Unknown") ++ nl
           ++ U "- Account created: " ++ U "Unknown" ++ nl
           ++ nl
           ++ U "Friends:" ++ nl
           ++ U "- Total friends: "
           ++ str_int (Z.of_nat (length (friends data))) ++ nl
           ++ U "- Top friend countries: "
           ++ join (U ", ")
                (map (fun item =>
                        str_int (snd item) ++ U " from "
                        ++ py_str (fst item)) top) ++ nl
           ++ nl
           ++ U "Gaming activity:" ++ nl
           ++ U "- Sample of owned games: "
           ++ str_int (Z.of_nat (length games)) ++ nl
           ++ U "- Total playtime (in sample): ~"
           ++ one_decimal (total_minutes games <? 0) tenths
           ++ U " hours" ++ nl
           ++ U "- Example games: "
           ++ join (U ", ") (map name_of (firstn 10 games)).
Proof.
  intros Hp Hcreated games. split; [apply simplify_returns|].
  intros text E.
  destruct (digest_explicit data E) as (d' & fc & tenths & Hp' & _ & _ & ->).
  assert (d' = d) by congruence. subst d'.
  exists (firstn 5 (sorted_by (fun x : value * Z => - snd x) Z.ltb false fc)),
         tenths.
  rewrite top_countries_entries.
  unfold created_text. now rewrite Hcreated.
Qed.

Lemma epoch_creation_is_unknown_witness :
  lookup (U "timecreated")
    [(U "personaname", VStr []); (U "timecreated", VInt 0)]
  = Some (VInt 0)
  /\ exists rest,
       @simplify_steam_profile ascii_env bare_aggregate
       = Ret (U "Steam User:
- Display name: No nickname
- Real name: Not specified
- Country: Unknown
- Account created: Unknown
" ++ rest).
Proof.
  split; [vm_compute; reflexivity|].
  destruct (@epoch_creation_is_unknown ascii_env bare_aggregate _
              eq_refl eq_refl) as [Hreturns Hany].
  destruct (Hreturns eq_refl) as (text & E).
  destruct (Hany text E) as (top & tenths & Htext).
  eexists. etransitivity; [exact E|]. rewrite Htext.
  apply f_equal. cbv. reflexivity.
Defined.

(** C5 (a defect of the code).  The claim groups the friends whose country
    code is missing under "??".  The loop of the summarizer does so for a
    friend record without the key, but not for one whose code is present
    and null: [f.get("loccountrycode", "??")] returns [None] there, and
    the friend is counted under [None].  With the codes US, null, absent,
    null the tally is US: 1, None: 2, ??: 1 and the digest reads
    "2 from None, 1 from US, 1 from ??"; with the two null codes absent
    instead, it reads "3 from ??, 1 from US", which is what the claim says
    for both.  The profile's own country, a few lines above, is read with
    [profile.get("loccountrycode") or "Unknown"], which covers null. *)
Theorem null_country_code_is_tallied_as_None :
  tally friends_with_null_codes []
  = Ret [(VStr (U "US"), 1); (VNone, 2); (VStr (U "??"), 1)]
  /\ @simplify_steam_profile ascii_env
       (Aggregate gaben friends_with_null_codes [])
     = Ret (U "Steam User:
- Display name: gaben
- Real name: Not specified
- Country: Unknown
- Account created: 09/12/2004

Friends:
- Total friends: 4
- Top friend countries: 2 from None, 1 from US, 1 from ??

Gaming activity:
- Sample of owned games: 0
- Total playtime (in sample): ~0.0 hours
- Example games: ")
  /\ @simplify_steam_profile ascii_env
       (Aggregate gaben friends_with_absent_codes [])
     = Ret (U "Steam User:
- Display name: gaben
- Real name: Not specified
- Country: Unknown
- Account created: 09/12/2004

Friends:
- Total friends: 4
- Top friend countries: 3 from ??, 1 from US

Gaming activity:
- Sample of owned games: 0
- Total playtime (in sample): ~0.0 hours
- Example games: ").
Proof.
  split; [vm_compute; reflexivity|].
  split; vm_compute; reflexivity.
Qed.

Lemma coded_friends_are_records (fs : list value) :
  forallb coded_friend fs = true -> forallb friend_record fs = true.
Proof.
  rewrite !forallb_forall. intros Hall f Hf. specialize (Hall f Hf).
  destruct f as [| | | |?|d]; try discriminate.
  unfold coded_friend in Hall. unfold friend_record.
  destruct (lookup (U "loccountrycode") d) as [[| | |s| |]|];
    try discriminate; reflexivity.
Qed.

(** X22.  For friends whose country code is a string or absent, the
    summarizer tallies the friends by country code, a friend without a
    code counting under "??"; the digest lists the first five entries of
    the tally ranked by descending count, entries with equal counts staying
    in the order in which their codes were first met (this determines the
    ranking), each rendered "<count> from <code>" and joined by
    comma-space.  This holds of every digest the summarizer produces, and
    it produces one for every well-formed aggregate; the text of the digest
    is given in full.  For the tally US: 5, RU: 5, FR: 2 the line reads
    "5 from US, 5 from RU, 2 from FR". *)
Theorem top_five_friend_countries `{PyEnv} (data : aggregate) :
  forallb coded_friend (friends data) = true ->
  let tally := spec_tally (map friend_code (friends data)) in
  let games := owned_games_sample data in
  exists ranked,
    Permutation tally ranked
    /\ descending snd ranked
    /\ stable snd tally ranked
    /\ (forall s, descending snd s -> stable snd tally s -> s = ranked)
    /\ (forall a b, In a (firstn 5 ranked) -> In b (skipn 5 ranked) ->
        snd b <= snd a)
    /\ (profile_aggregate data = true ->
        exists text, simplify_steam_profile data = Ret text)
    /\ (forall text,
          simplify_steam_profile data = Ret text ->
          exists d tenths,
            profile data = VDict d
            /\ text
               = U "Steam User:" ++ nl
                 ++ U "- Display name: " ++ shown d (U "personaname") (U "No nickname") ++ nl
                 ++ U "- Real name: " ++ shown d (U "realname") (U "Not specified") ++ nl
                 ++ U "- Country: "
                 ++ shown d (U "loccountrycode") (U "Unknown") ++ nl
                 ++ U "- Account created: " ++ created_text d ++ nl
                 ++ nl
                 ++ U "Friends:" ++ nl
                 ++ U "- Total friends: "
                 ++ str_int (Z.of_nat (length (friends data))) ++ nl
                 ++ U "- Top friend countries: "
                 ++ join (U ", ")
                         (map (fun item =>
                                 str_int (snd item) ++ U " from " ++ fst item)
                            (firstn 5 ranked)) ++ nl
                 ++ nl
                 ++ U "Gaming activity:" ++ nl
                 ++ U "- Sample of owned games: "
                 ++ str_int (Z.of_nat (length games)) ++ nl
                 ++ U "- Total playtime (in sample): ~"
                 ++ one_decimal (total_minutes games <? 0) tenths
                 ++ U " hours" ++ nl
                 ++ U "- Example games: "
                 ++ join (U ", ") (map name_of (firstn 10 games)))
    /\ (forall f fields, In f (friends data) -> f = VDict fields ->
        lookup (U "loccountrycode") fields = None -> friend_code f = U "??")
    /\ top_countries_text
         (map as_key [(U "US", 5); (U "RU", 5); (U "FR", 2)])
       = U "5 from US, 5 from RU, 2 from FR".
Proof.
  intros Hcoded tally games.
  destruct (ranking_by_count tally) as (Hperm & Hdesc & Hstable).
  set (ranked := sorted_by (fun x : ustr * Z => - snd x) Z.ltb false tally)
    in *.
  exists ranked.
  split; [exact Hperm|]. split; [exact Hdesc|]. split; [exact Hstable|].
  split; [|split; [|split; [|split; [|split]]]].
  - intros s Hd Hst. exact (stable_descending_unique Hd Hst Hdesc Hstable).
  - intros a b Ha Hb.
    destruct (descending_firstn 5 Hdesc) as [_ Hcut]. now apply Hcut.
  - apply simplify_returns.
  - intros text E.
    destruct (digest_explicit data E) as (d & fc & tenths & Hp & Ht & _ & ->).
    rewrite (tally_fold _ (coded_friends_are_records _ Hcoded)) in Ht.
    rewrite (tally_of_friends _ Hcoded) in Ht. fold tally in Ht.
    inversion Ht as [Hfc].
    exists d, tenths. split; [exact Hp|].
    rewrite top_countries_of_tally. reflexivity.
  - intros f fields _ -> Hnone. unfold friend_code. now rewrite Hnone.
  - reflexivity.
Qed.

Lemma top_five_friend_countries_witness :
  forallb coded_friend twelve_friends = true
  /\ spec_tally (map friend_code twelve_friends)
     = [(U "US", 5); (U "RU", 5); (U "FR", 2)]
  /\ exists rest,
       @simplify_steam_profile ascii_env example_aggregate
       = Ret (U "Steam User:
- Display name: gaben
- Real name: Not specified
- Country: Unknown
- Account created: 09/12/2004

Friends:
- Total friends: 12
- Top friend countries: 5 from US, 5 from RU, 2 from FR
" ++ rest).
Proof.
  split; [vm_compute; reflexivity|].
  split; [vm_compute; reflexivity|].
  destruct (@top_five_friend_countries ascii_env example_aggregate eq_refl)
    as (ranked & _ & Hdesc & Hstable & Huniq & _ & Hreturns & Hany & _).
  assert (Hranked : [(U "US", 5); (U "RU", 5); (U "FR", 2)] = ranked).
  { apply Huniq.
    - repeat constructor; cbn; lia.
    - intros k. reflexivity. }
  destruct (Hreturns eq_refl) as (text & E).
  destruct (Hany text E) as (d & tenths & Hd & Htext).
  inversion Hd; subst d.
  rewrite <- Hranked in Htext.
  eexists. etransitivity; [exact E|]. rewrite Htext.
  apply f_equal. cbv. reflexivity.
Defined.

(* ================================================================== *)
(** * Further properties: the handlers, the bootstrap, the traffic *)

(** ** [split], [in], [startswith] *)

Lemma strip_prefix_spec (p s r : ustr) :
  strip_prefix p s = Some r <-> s = p ++ r.
Proof.
  revert s. induction p as [|a p IH]; intros s; cbn.
  - split; [intros E; now inversion E | intros ->; reflexivity].
  - destruct s as [|b s]; [split; discriminate|].
    destruct (N.eqb_spec a b) as [->|Hne].
    + rewrite IH. split; [intros ->; reflexivity | intros E; now inversion E].
    + split; [discriminate | intros E; inversion E; congruence].
Qed.

Lemma strip_prefix_app_none (p b s : ustr) :
  strip_prefix p (b ++ s) = None -> strip_prefix p b = None.
Proof.
  intros Hn. destruct (strip_prefix p b) as [r|] eqn:Hb; [|reflexivity].
  apply strip_prefix_spec in Hb. subst b.
  rewrite <- app_assoc in Hn.
  assert (Hs : strip_prefix p (p ++ r ++ s) = Some (r ++ s))
    by now apply strip_prefix_spec.
  congruence.
Qed.

(** [sub in s] says that [s] has [sub] at one of its positions. *)
Lemma contains_spec (sub s : ustr) :
  contains sub s = true <-> exists a b, s = a ++ sub ++ b.
Proof.
  induction s as [|c s IH]; cbn [contains]; rewrite orb_true_iff.
  - split.
    + intros [Hs|Hs]; [|discriminate]. unfold startswith in Hs.
      destruct (strip_prefix sub []) as [r|] eqn:E; [|discriminate].
      apply strip_prefix_spec in E. exists [], r. exact E.
    + intros (a & b & E). left.
      destruct a; [|discriminate]. cbn in E. unfold startswith.
      now rewrite (proj2 (strip_prefix_spec sub [] b) E).
  - split.
    + intros [Hs|Hs].
      * unfold startswith in Hs.
        destruct (strip_prefix sub (c :: s)) as [r|] eqn:E; [|discriminate].
        apply strip_prefix_spec in E. exists [], r. exact E.
      * apply IH in Hs as (a & b & ->). now exists (c :: a), b.
    + intros (a & b & E). destruct a as [|x a].
      * left. cbn in E. unfold startswith.
        now rewrite (proj2 (strip_prefix_spec sub (c :: s) b) E).
      * right. apply IH. inversion E. now exists a, b.
Qed.

Lemma contains_false (sub s : ustr) :
  contains sub s = false <->
  forall a b, s = a ++ b -> strip_prefix sub b = None.
Proof.
  split.
  - intros Hc a b ->.
    destruct (strip_prefix sub b) as [r|] eqn:E; [|reflexivity].
    apply strip_prefix_spec in E. subst b.
    assert (contains sub (a ++ sub ++ r) = true)
      by (apply contains_spec; now exists a, r).
    congruence.
  - intros Hall. destruct (contains sub s) eqn:Hc; [|reflexivity].
    apply contains_spec in Hc as (a & b & ->).
    specialize (Hall a (sub ++ b) eq_refl).
    now rewrite (proj2 (strip_prefix_spec sub (sub ++ b) b) eq_refl) in Hall.
Qed.

Lemma split_fuel_nonempty (fuel : nat) (sep : ustr) :
  forall s cur, split_fuel fuel sep s cur <> [].
Proof.
  induction fuel as [|fuel IH]; intros s cur; cbn; [discriminate|].
  destruct s as [|c s]; [discriminate|].
  destruct (strip_prefix sep (c :: s)); [discriminate | apply IH].
Qed.

Lemma join_cons (sep p : ustr) (l : list ustr) :
  l <> [] -> join sep (p :: l) = p ++ sep ++ join sep l.
Proof. destruct l; [congruence | reflexivity]. Qed.

Lemma join_snoc (sep x : ustr) (l : list ustr) :
  l <> [] -> join sep (l ++ [x]) = join sep l ++ sep ++ x.
Proof.
  induction l as [|p l IH]; [congruence|]. intros _.
  destruct l as [|q l].
  - reflexivity.
  - cbn [app]. rewrite join_cons by discriminate.
    change (q :: l ++ [x]) with ((q :: l) ++ [x]).
    rewrite IH by discriminate.
    rewrite (@join_cons sep p (q :: l)) by discriminate.
    now rewrite <- !app_assoc.
Qed.

(** Joining the pieces with the separator gives the string back. *)
Lemma split_fuel_join (fuel : nat) (sep : ustr) :
  forall s cur, join sep (split_fuel fuel sep s cur) = rev cur ++ s.
Proof.
  induction fuel as [|fuel IH]; intros s cur; cbn [split_fuel].
  - reflexivity.
  - destruct s as [|c s]; [cbn; now rewrite app_nil_r|].
    destruct (strip_prefix sep (c :: s)) as [rest|] eqn:E.
    + rewrite join_cons by apply split_fuel_nonempty.
      rewrite IH. cbn [rev app].
      apply strip_prefix_spec in E. now rewrite E.
    + rewrite IH. cbn [rev]. now rewrite <- app_assoc.
Qed.

Lemma pieces_join (sep s : ustr) : join sep (pieces sep s) = s.
Proof. unfold pieces. now rewrite split_fuel_join. Qed.

Lemma clear_of_nil (sep s : ustr) : clear_of sep [] s.
Proof.
  intros a b E Hb. cbn in E. destruct a; destruct b; try discriminate.
  congruence.
Qed.

Lemma clear_of_step (sep cur s : ustr) (c : N) :
  clear_of sep cur (c :: s) -> strip_prefix sep (c :: s) = None ->
  clear_of sep (c :: cur) s.
Proof.
  intros Hclear Hhere a b E Hb. cbn [rev] in E.
  destruct (exists_last Hb) as (b' & x & ->).
  rewrite app_assoc in E. apply app_inj_tail in E as [E ->].
  rewrite <- app_assoc. cbn [app].
  destruct b' as [|y b'].
  - exact Hhere.
  - apply (Hclear a (y :: b') E). discriminate.
Qed.

Lemma clear_of_contains (sep cur : ustr) :
  sep <> [] -> clear_of sep cur [] -> contains sep (rev cur) = false.
Proof.
  intros Hsep Hclear. apply contains_false. intros a b E.
  destruct b as [|y b].
  - destruct sep; [congruence | reflexivity].
  - specialize (Hclear a (y :: b) E ltac:(discriminate)).
    now rewrite app_nil_r in Hclear.
Qed.

Lemma clear_of_prefix (sep cur s : ustr) :
  sep <> [] -> clear_of sep cur s -> contains sep (rev cur) = false.
Proof.
  intros Hsep Hclear. apply contains_false. intros a b E.
  destruct b as [|y b].
  - destruct sep; [congruence | reflexivity].
  - apply (strip_prefix_app_none _ _ s).
    apply (Hclear a (y :: b) E). discriminate.
Qed.

Lemma split_fuel_last (fuel : nat) (sep : ustr) :
  sep <> [] ->
  forall s cur,
    (length s < fuel)%nat -> clear_of sep cur s ->
    contains sep (last (split_fuel fuel sep s cur) []) = false.
Proof.
  intros Hsep. induction fuel as [|fuel IH]; intros s cur Hlen Hclear;
    [lia|].
  cbn [split_fuel]. destruct s as [|c s].
  - cbn. now apply clear_of_contains.
  - destruct (strip_prefix sep (c :: s)) as [rest|] eqn:E.
    + pose proof (split_fuel_nonempty fuel sep rest []) as Hne.
      destruct (split_fuel fuel sep rest []) as [|q l] eqn:Hq;
        [congruence|].
      change (last (rev cur :: q :: l) []) with (last (q :: l) []).
      rewrite <- Hq. apply IH; [|apply clear_of_nil].
      apply strip_prefix_spec in E.
      assert (length (c :: s) = length sep + length rest)%nat
        by (rewrite E; apply length_app).
      destruct sep; [congruence|]. cbn in *. lia.
    + apply IH; [cbn in Hlen; lia | now apply clear_of_step].
Qed.

Lemma split_fuel_first (fuel : nat) (sep : ustr) :
  sep <> [] ->
  forall s cur,
    (length s < fuel)%nat -> clear_of sep cur s ->
    contains sep (hd [] (split_fuel fuel sep s cur)) = false.
Proof.
  intros Hsep. induction fuel as [|fuel IH]; intros s cur Hlen Hclear;
    [lia|].
  cbn [split_fuel]. destruct s as [|c s].
  - cbn. now apply clear_of_contains.
  - destruct (strip_prefix sep (c :: s)) as [rest|] eqn:E.
    + cbn [hd]. now apply (clear_of_prefix (s := c :: s)).
    + apply IH; [cbn in Hlen; lia | now apply clear_of_step].
Qed.

(** The last piece and the first piece are free of the separator. *)
Lemma pieces_last (sep s : ustr) :
  sep <> [] -> contains sep (last_piece (pieces sep s)) = false.
Proof.
  intros Hsep. unfold last_piece, pieces.
  apply split_fuel_last; [assumption | lia | apply clear_of_nil].
Qed.

Lemma pieces_first (sep s : ustr) :
  sep <> [] -> contains sep (first_piece (pieces sep s)) = false.
Proof.
  intros Hsep. unfold first_piece, pieces.
  apply split_fuel_first; [assumption | lia | apply clear_of_nil].
Qed.


Lemma segment_after_run (marker text : ustr) :
  marker <> [] ->
  segment_after marker text
  = Ret (first_piece (pieces (U "/") (last_piece (pieces marker text)))).
Proof.
  intros Hm. unfold segment_after, py_split.
  destruct marker; [congruence | reflexivity].
Qed.

(** The shape of a text around a path segment. *)
Lemma segment_after_shape (marker text : ustr) :
  marker <> [] ->
  let seg := first_piece (pieces (U "/") (last_piece (pieces marker text))) in
  exists pre post,
    (text = pre ++ seg ++ post
     /\ (contains marker text = true ->
         exists pre', pre = pre' ++ marker))
    /\ contains marker (seg ++ post) = false
    /\ contains (U "/") seg = false
    /\ (post = [] \/ exists post', post = U "/" ++ post').
Proof.
  intros Hm seg.
  pose proof (pieces_join marker text) as Hjoin.
  pose proof (pieces_last text Hm) as Hlast.
  unfold last_piece in Hlast. subst seg. unfold last_piece.
  pose proof (split_fuel_nonempty (S (length text)) marker text []) as Hne.
  fold (pieces marker text) in Hne.
  destruct (exists_last Hne) as (init & lastp & Hparts).
  rewrite Hparts in *. rewrite last_last in *.
  pose proof (pieces_join (U "/") lastp) as Hj2.
  assert (Hslash : U "/" <> []) by discriminate.
  pose proof (pieces_first lastp Hslash) as Hfirst.
  unfold first_piece in *.
  pose proof (split_fuel_nonempty (S (length lastp)) (U "/") lastp [])
    as Hne2.
  fold (pieces (U "/") lastp) in Hne2.
  destruct (pieces (U "/") lastp) as [|seg more] eqn:Hsegs; [congruence|].
  cbn [hd] in *.
  assert (Hpost : exists post,
             lastp = seg ++ post
             /\ (post = [] \/ exists post', post = U "/" ++ post')).
  { destruct more as [|m more].
    - exists []. cbn in Hj2. rewrite app_nil_r. split; [congruence | now left].
    - exists (U "/" ++ join (U "/") (m :: more)). split.
      + rewrite <- Hj2. now rewrite join_cons by discriminate.
      + right. eexists; reflexivity. }
  destruct Hpost as (post & Hlp & Hpost).
  destruct init as [|p init].
  - exists [], post. cbn in Hjoin. rewrite <- Hlp.
    repeat split; try assumption.
    + cbn. congruence.
    + intros Hc. congruence.
  - rewrite join_snoc in Hjoin by discriminate.
    exists (join marker (p :: init) ++ marker), post.
    rewrite <- Hlp. repeat split; try assumption.
    + rewrite <- Hjoin. now rewrite <- !app_assoc.
    + intros _. eexists; reflexivity.
Qed.

(** X1. [text.split(marker)[-1].split("/")[0]], as [handle_steam_id]
    computes it for the markers ["/id/"] and ["/profiles/"]: when the
    marker occurs in the text, the result is the run of characters that
    follows an occurrence of the marker after which the marker does not
    occur again, up to the next ["/"] or to the end of the text.  The
    segment itself has no ["/"]; it may be empty. *)
Theorem segment_after_last_marker (marker text : ustr) :
  marker <> [] ->
  contains marker text = true ->
  exists pre seg post,
    segment_after marker text = Ret seg
    /\ text = pre ++ marker ++ seg ++ post
    /\ contains marker (seg ++ post) = false
    /\ contains (U "/") seg = false
    /\ (post = [] \/ exists post', post = U "/" ++ post').
Proof.
  intros Hm Hc.
  destruct (segment_after_shape text Hm)
    as (pre & post & (Htext & Hpre) & Hfree & Hseg & Hpost).
  destruct (Hpre Hc) as (pre' & ->).
  exists pre',
    (first_piece (pieces (U "/") (last_piece (pieces marker text)))), post.
  split; [now apply segment_after_run|].
  split; [now rewrite <- app_assoc in Htext|].
  auto.
Qed.

Lemma segment_after_last_marker_witness :
  exists pre seg post,
    segment_after (U "/id/") (U "https://steamcommunity.com/id/gaben/home")
    = Ret seg
    /\ U "https://steamcommunity.com/id/gaben/home"
       = pre ++ U "/id/" ++ seg ++ post
    /\ contains (U "/id/") (seg ++ post) = false
    /\ contains (U "/") seg = false
    /\ (post = [] \/ exists post', post = U "/" ++ post').
Proof.
  apply segment_after_last_marker.
  - discriminate.
  - vm_compute. reflexivity.
Defined.

(* ================================================================== *)
(** ** The traffic and the log of the aggregator *)

Section Traffic.
Context `{PyEnv}.
Variable net : network.

Lemma world_eta (w : world) : World (sent w) (logged w) = w.
Proof. now destruct w. Qed.

Lemma send_run (rq : request) (w : world) :
  exists o, send net rq w = (o, World (sent w ++ [rq]) (logged w)).
Proof.
  unfold send. destruct (net (length (sent w)) rq); eexists; reflexivity.
Qed.

Lemma response_field_quiet (outer field : ustr) (r : response) (w : world) :
  exists o, response_field outer field r w = (o, w).
Proof.
  unfold response_field, bind, resp_json, lift, ret.
  destruct (body r); [|eexists; reflexivity].
  destruct (nested_get outer field v); eexists; reflexivity.
Qed.

Lemma fetch_batch_trace (ids : list value) (i : nat) (acc : list value)
    (w : world) :
  exists o reqs,
    fetch_batch net ids i acc w = (o, World (sent w ++ reqs) (logged w))
    /\ (reqs = [] \/ exists rq, reqs = [rq] /\ batch_lookup rq).
Proof.
  unfold fetch_batch. unfold bind at 1. unfold lift.
  destruct (py_join (U ",") (slice ids i (i + 100))) as [b|e].
  2:{ exists (Raise e), []. rewrite app_nil_r, world_eta. auto. }
  unfold bind at 1.
  destruct (send_run (summaries_request (VStr b) 15) w) as (o & ->).
  assert (Hrq : exists rq, [summaries_request (VStr b) 15] = [rq]
                           /\ batch_lookup rq).
  { eexists. split; [reflexivity|]. now exists b. }
  destruct o as [r|e]; [|eexists _, _; split; [reflexivity | now right]].
  destruct (status_code r =? 200);
    [|eexists _, _; split; [reflexivity | now right]].
  unfold bind at 1.
  match goal with |- context [response_field ?a ?b ?c ?w'] =>
    destruct (response_field_quiet a b c w') as (o & ->) end.
  destruct o as [v|e]; [|eexists _, _; split; [reflexivity | now right]].
  unfold bind, lift, ret.
  destruct (py_iter v);
    eexists _, _; (split; [reflexivity | now right]).
Qed.

Lemma batch_loop_trace (ids : list value) (os : list nat) :
  forall acc w,
  exists fl oe reqs,
    batch_loop net ids os acc w
    = ((fl, oe), World (sent w ++ reqs) (logged w))
    /\ Forall batch_lookup reqs
    /\ (length reqs <= length os)%nat.
Proof.
  induction os as [|i os IH]; intros acc w; cbn [batch_loop].
  - exists acc, None, []. rewrite app_nil_r, world_eta. auto.
  - destruct (fetch_batch_trace ids i acc w) as (o & reqs & -> & Hreqs).
    assert (Hall : Forall batch_lookup reqs /\ (length reqs <= 1)%nat).
    { destruct Hreqs as [->|(rq & -> & Hrq)]; cbn; auto. }
    destruct Hall as [Hall Hlen].
    destruct o as [acc'|e].
    + destruct (IH acc' (World (sent w ++ reqs) (logged w)))
        as (fl & oe & more & -> & Hmore & Hlen').
      cbn [sent logged]. exists fl, oe, (reqs ++ more).
      rewrite app_assoc. split; [reflexivity|].
      split; [now apply Forall_app|].
      rewrite length_app. cbn [length]. lia.
    + exists acc, (Some e), reqs. split; [reflexivity|].
      split; [assumption | cbn [length]; lia].
Qed.

Lemma fetch_friend_ids_trace (steam_id : value) (w : world) :
  exists o,
    fetch_friend_ids net steam_id w
    = (o, World (sent w ++ [friend_list_request steam_id]) (logged w)).
Proof.
  unfold fetch_friend_ids. unfold bind at 1.
  destruct (send_run (friend_list_request steam_id) w) as (o & ->).
  destruct o as [r|e]; [|eexists; reflexivity].
  destruct (status_code r =? 200); [|eexists; reflexivity].
  unfold bind at 1.
  match goal with |- context [response_field ?a ?b ?c ?w'] =>
    destruct (response_field_quiet a b c w') as (o & ->) end.
  destruct o as [v|e]; [|eexists; reflexivity].
  unfold bind, lift.
  destruct (py_iter v); eexists; reflexivity.
Qed.

Lemma fetch_friends_trace (steam_id : value) (w : world) :
  exists fl reqs lg,
    fetch_friends net steam_id w
    = (Ret fl,
       World (sent w ++ friend_list_request steam_id :: reqs)
         (logged w ++ lg))
    /\ Forall batch_lookup reqs
    /\ (lg = [] \/ exists e, lg = [friends_warning e]).
Proof.
  unfold fetch_friends.
  destruct (fetch_friend_ids_trace steam_id w) as (o & ->).
  destruct o as [ids|e].
  - destruct (py_truthy (VList ids)).
    + destruct (batch_loop_trace ids (py_range (length ids) 100) []
                  (World (sent w ++ [friend_list_request steam_id])
                     (logged w)))
        as (fl & oe & reqs & -> & Hreqs & _).
      cbn [sent logged]. rewrite <- app_assoc. cbn [app].
      destruct oe as [e|].
      * exists fl, reqs, [friends_warning e].
        split; [reflexivity|]. split; [assumption|]. right. now exists e.
      * exists fl, reqs, []. rewrite app_nil_r.
        split; [reflexivity|]. auto.
    + exists [], [], []. rewrite app_nil_r. auto.
  - exists [], [], [friends_warning e].
    split; [reflexivity|]. split; [constructor|]. right. now exists e.
Qed.

Lemma fetch_games_trace (steam_id : value) (w : world) :
  exists og lg,
    fetch_games net steam_id w
    = (Ret og,
       World (sent w ++ [owned_games_request steam_id]) (logged w ++ lg))
    /\ (length og <= 10)%nat
    /\ (lg = [] \/ exists e, lg = [games_warning e]).
Proof.
  unfold fetch_games, try_except. unfold bind at 1.
  destruct (send_run (owned_games_request steam_id) w) as (o & ->).
  assert (Hfail : forall e,
    exists (og : list value) lg,
      (logger WARNING (U "Ошибка загрузки игр: ") e ;;; ret [])%io
        (World (sent w ++ [owned_games_request steam_id]) (logged w))
      = (Ret og,
         World (sent w ++ [owned_games_request steam_id]) (logged w ++ lg))
      /\ (length og <= 10)%nat
      /\ (lg = [] \/ exists e, lg = [games_warning e])).
  { intros e. exists [], [games_warning e].
    split; [reflexivity|]. split; [cbn; lia|]. right. now exists e. }
  assert (Hquiet : forall og : list value, (length og <= 10)%nat ->
    exists og' lg,
      (Ret og, World (sent w ++ [owned_games_request steam_id]) (logged w))
      = (Ret og',
         World (sent w ++ [owned_games_request steam_id]) (logged w ++ lg))
      /\ (length og' <= 10)%nat
      /\ (lg = [] \/ exists e, lg = [games_warning e])).
  { intros og Hog. exists og, []. rewrite app_nil_r. auto. }
  destruct o as [r|e]; [|apply Hfail].
  destruct (status_code r =? 200); [|apply Hquiet; cbn; lia].
  unfold bind at 1.
  match goal with |- context [response_field ?a ?b ?c ?w'] =>
    destruct (response_field_quiet a b c w') as (o & ->) end.
  destruct o as [v|e]; [|apply Hfail].
  unfold bind, lift, ret.
  destruct (py_iter v) as [gs|e]; [|apply Hfail].
  destruct (py_sorted playtime_forever true gs) as [sg|e]; [|apply Hfail].
  apply Hquiet. apply firstn_le_length.
Qed.

(** One run of the aggregator: what goes out and what is logged. *)
Lemma fetch_trace (steam_id : value) (w : world) :
  exists o more lg,
    fetch_steam_profile net steam_id w
    = (o,
       World (sent w ++ summaries_request steam_id 10 :: more)
         (logged w ++ lg))
    /\ match o with
       | Ret (Some data) =>
           (exists reqs,
              more = friend_list_request steam_id :: reqs
                     ++ [owned_games_request steam_id]
              /\ Forall batch_lookup reqs)
           /\ (length (owned_games_sample data) <= 10)%nat
           /\ (exists lf lo,
                 lg = lf ++ lo
                 /\ (lf = [] \/ exists e, lf = [friends_warning e])
                 /\ (lo = [] \/ exists e, lo = [games_warning e]))
       | _ => more = [] /\ lg = []
       end.
Proof.
  unfold fetch_steam_profile. unfold bind at 1.
  destruct (send_run (summaries_request steam_id 10) w) as (o & ->).
  assert (Hstop : forall o : outcome (option aggregate),
    match o with Ret (Some _) => False | _ => True end ->
    exists o' more lg,
      (o, World (sent w ++ [summaries_request steam_id 10]) (logged w))
      = (o',
         World (sent w ++ summaries_request steam_id 10 :: more)
           (logged w ++ lg))
      /\ match o' with
         | Ret (Some data) =>
             (exists reqs,
                more = friend_list_request steam_id :: reqs
                       ++ [owned_games_request steam_id]
                /\ Forall batch_lookup reqs)
             /\ (length (owned_games_sample data) <= 10)%nat
             /\ (exists lf lo,
                   lg = lf ++ lo
                   /\ (lf = [] \/ exists e, lf = [friends_warning e])
                   /\ (lo = [] \/ exists e, lo = [games_warning e]))
         | _ => more = [] /\ lg = []
         end).
  { intros o' Ho. exists o', [], []. rewrite app_nil_r.
    split; [reflexivity|].
    destruct o' as [[data|]|e]; [contradiction | auto | auto]. }
  destruct o as [r|e]; [|now apply Hstop].
  destruct (negb (status_code r =? 200)); [now apply Hstop|].
  unfold bind at 1.
  match goal with |- context [response_field ?a ?b ?c ?w'] =>
    destruct (response_field_quiet a b c w') as (o & ->) end.
  destruct o as [players|e]; [|now apply Hstop].
  destruct (negb (py_truthy players)); [now apply Hstop|].
  unfold bind at 1. unfold lift.
  destruct (py_first players) as [user_data|e]; [|now apply Hstop].
  unfold bind at 1.
  destruct (fetch_friends_trace steam_id
              (World (sent w ++ [summaries_request steam_id 10]) (logged w)))
    as (fl & reqs & lf & -> & Hreqs & Hlf).
  cbn [sent logged]. unfold bind at 1.
  match goal with |- context [fetch_games net steam_id ?w'] =>
    destruct (fetch_games_trace steam_id w')
      as (og & lo & -> & Hog & Hlo) end.
  cbn [sent logged]. unfold ret.
  exists (Ret (Some (Aggregate user_data fl og))),
    (friend_list_request steam_id :: reqs ++ [owned_games_request steam_id]),
    (lf ++ lo).
  split.
  - f_equal. f_equal.
    + rewrite <- !app_assoc. reflexivity.
    + now rewrite <- app_assoc.
  - split; [exists reqs; auto|]. split; [exact Hog|].
    exists lf, lo. auto.
Qed.

(** The log of the friends part, by what becomes of the friend-list
    request. *)
Lemma fetch_friends_log (steam_id : value) (w : world) :
  let rf := net (length (sent w)) (friend_list_request steam_id) in
  exists fl w2 lf,
    fetch_friends net steam_id w = (Ret fl, w2)
    /\ logged w2 = logged w ++ lf
    /\ (lf = [] \/ exists e, lf = [friends_warning e])
    /\ (rf = Failed -> lf = [friends_warning RequestException])
    /\ (forall r, rf = Answered r -> status_code r = 200 ->
                  body r = None -> lf = [friends_warning JSONDecodeError])
    /\ (forall r, rf = Answered r -> status_code r <> 200 -> lf = [])
    /\ (serves rf (U "friendslist") (U "friends") (VList []) -> lf = []).
Proof.
  intros rf.
  destruct (fetch_friends_trace steam_id w) as (fl & reqs & lf & E & _ & Hlf).
  eexists fl, _, lf. split; [exact E|]. cbn [logged].
  split; [reflexivity|]. split; [exact Hlf|].
  assert (Hcmp : forall fl' snt lf',
            fetch_friends net steam_id w
            = (Ret fl', World snt (logged w ++ lf')) -> lf = lf').
  { intros fl' snt lf' E'. rewrite E in E'.
    apply (f_equal (fun p => logged (snd p))) in E'. cbn [snd logged] in E'.
    now apply app_inv_head in E'. }
  split; [|split; [|split]].
  - intros Hf. apply (Hcmp [] (sent w ++ [friend_list_request steam_id])).
    unfold fetch_friends, fetch_friend_ids. unfold bind at 1. unfold send.
    fold rf. rewrite Hf. reflexivity.
  - intros r Hr Hs Hb.
    apply (Hcmp [] (sent w ++ [friend_list_request steam_id])).
    unfold fetch_friends, fetch_friend_ids. unfold bind at 1. unfold send.
    fold rf. rewrite Hr, Hs. cbn [Z.eqb Pos.eqb].
    unfold bind at 1. unfold response_field, bind at 1, resp_json.
    rewrite Hb. reflexivity.
  - intros r Hr Hs.
    apply (Hcmp [] (sent w ++ [friend_list_request steam_id])).
    unfold fetch_friends, fetch_friend_ids. unfold bind at 1. unfold send.
    fold rf. rewrite Hr.
    replace (status_code r =? 200) with false
      by (symmetry; now apply Z.eqb_neq).
    unfold ret. cbn [py_truthy]. now rewrite app_nil_r.
  - intros (r & d & Hr & Hs & Hb & Hg).
    apply (Hcmp [] (sent w ++ [friend_list_request steam_id])).
    unfold fetch_friends, fetch_friend_ids. unfold bind at 1. unfold send.
    fold rf. rewrite Hr, Hs. cbn [Z.eqb Pos.eqb].
    unfold bind at 1. unfold response_field, bind at 1, resp_json.
    rewrite Hb. unfold ret at 1. unfold lift at 1. rewrite Hg.
    unfold bind, lift. cbn [py_iter omap py_truthy].
    now rewrite app_nil_r.
Qed.

(** The log of the games part, by what becomes of the owned-games
    request. *)
Lemma fetch_games_log (steam_id : value) (w : world) :
  let rg := net (length (sent w)) (owned_games_request steam_id) in
  exists og lo,
    fetch_games net steam_id w
    = (Ret og,
       World (sent w ++ [owned_games_request steam_id]) (logged w ++ lo))
    /\ (lo = [] \/ exists e, lo = [games_warning e])
    /\ (rg = Failed -> lo = [games_warning RequestException])
    /\ (forall r, rg = Answered r -> status_code r = 200 ->
                  body r = None -> lo = [games_warning JSONDecodeError])
    /\ (forall r, rg = Answered r -> status_code r <> 200 -> lo = [])
    /\ (forall gs,
          serves rg (U "response") (U "games") (VList gs) ->
          forallb timed_game gs = true -> lo = []).
Proof.
  intros rg.
  destruct (fetch_games_trace steam_id w) as (og & lo & E & _ & Hlo).
  exists og, lo. split; [exact E|]. split; [exact Hlo|].
  assert (Hcmp : forall og' snt lo',
            fetch_games net steam_id w
            = (Ret og', World snt (logged w ++ lo')) -> lo = lo').
  { intros og' snt lo' E'. rewrite E in E'.
    apply (f_equal (fun p => logged (snd p))) in E'. cbn [snd logged] in E'.
    now apply app_inv_head in E'. }
  split; [|split; [|split]].
  - intros Hf. apply (Hcmp [] (sent w ++ [owned_games_request steam_id])).
    unfold fetch_games, try_except. unfold bind at 1. unfold send.
    fold rg. rewrite Hf. reflexivity.
  - intros r Hr Hs Hb.
    apply (Hcmp [] (sent w ++ [owned_games_request steam_id])).
    unfold fetch_games, try_except. unfold bind at 1. unfold send.
    fold rg. rewrite Hr, Hs. cbn [Z.eqb Pos.eqb].
    unfold bind at 1. unfold response_field, bind at 1, resp_json.
    rewrite Hb. reflexivity.
  - intros r Hr Hs.
    apply (Hcmp [] (sent w ++ [owned_games_request steam_id])).
    unfold fetch_games, try_except. unfold bind at 1. unfold send.
    fold rg. rewrite Hr.
    replace (status_code r =? 200) with false
      by (symmetry; now apply Z.eqb_neq).
    unfold ret. now rewrite app_nil_r.
  - intros gs Hserve Hall.
    apply (Hcmp (firstn 10 (sorted_by minutes Z.ltb true gs))
             (sent w ++ [owned_games_request steam_id])).
    rewrite (@fetch_games_served _ net steam_id w gs Hserve Hall).
    now rewrite app_nil_r.
Qed.

(** One run of the aggregator: what is logged, and when. *)
Lemma fetch_log (steam_id : value) (w : world) :
  exists o w' lf lo,
    fetch_steam_profile net steam_id w = (o, w')
    /\ logged w' = logged w ++ lf ++ lo
    /\ (lf = [] \/ exists e, lf = [friends_warning e])
    /\ (lo = [] \/ exists e, lo = [games_warning e])
    /\ match o with
       | Ret (Some _) =>
           let rf :=
             net (S (length (sent w))) (friend_list_request steam_id) in
           let rg :=
             net (length (sent w') - 1)%nat (owned_games_request steam_id) in
           (rf = Failed -> lf = [friends_warning RequestException])
           /\ (forall r, rf = Answered r -> status_code r = 200 ->
                         body r = None ->
                         lf = [friends_warning JSONDecodeError])
           /\ (forall r, rf = Answered r -> status_code r <> 200 ->
                         lf = [])
           /\ (serves rf (U "friendslist") (U "friends") (VList []) ->
               lf = [])
           /\ (rg = Failed -> lo = [games_warning RequestException])
           /\ (forall r, rg = Answered r -> status_code r = 200 ->
                         body r = None ->
                         lo = [games_warning JSONDecodeError])
           /\ (forall r, rg = Answered r -> status_code r <> 200 ->
                         lo = [])
           /\ (forall gs,
                 serves rg (U "response") (U "games") (VList gs) ->
                 forallb timed_game gs = true -> lo = [])
       | _ => lf = [] /\ lo = []
       end.
Proof.
  unfold fetch_steam_profile. unfold bind at 1.
  destruct (send_run (summaries_request steam_id 10) w) as (o & ->).
  set (w1 := World (sent w ++ [summaries_request steam_id 10]) (logged w)).
  assert (Hstop : forall o : outcome (option aggregate),
    match o with Ret (Some _) => False | _ => True end ->
    exists o' w' lf lo,
      (o, w1) = (o', w')
      /\ logged w' = logged w ++ lf ++ lo
      /\ (lf = [] \/ exists e, lf = [friends_warning e])
      /\ (lo = [] \/ exists e, lo = [games_warning e])
      /\ match o' with
         | Ret (Some _) =>
             let rf :=
               net (S (length (sent w))) (friend_list_request steam_id) in
             let rg :=
               net (length (sent w') - 1)%nat
                 (owned_games_request steam_id) in
             (rf = Failed -> lf = [friends_warning RequestException])
             /\ (forall r, rf = Answered r -> status_code r = 200 ->
                           body r = None ->
                           lf = [friends_warning JSONDecodeError])
             /\ (forall r, rf = Answered r -> status_code r <> 200 ->
                           lf = [])
             /\ (serves rf (U "friendslist") (U "friends") (VList []) ->
                 lf = [])
             /\ (rg = Failed -> lo = [games_warning RequestException])
             /\ (forall r, rg = Answered r -> status_code r = 200 ->
                           body r = None ->
                           lo = [games_warning JSONDecodeError])
             /\ (forall r, rg = Answered r -> status_code r <> 200 ->
                           lo = [])
             /\ (forall gs,
                   serves rg (U "response") (U "games") (VList gs) ->
                   forallb timed_game gs = true -> lo = [])
         | _ => lf = [] /\ lo = []
         end).
  { intros o' Ho. exists o', w1, [], []. split; [reflexivity|].
    cbn [w1 logged app]. rewrite app_nil_r.
    split; [reflexivity|]. split; [now left|]. split; [now left|].
    destruct o' as [[data|]|e]; [contradiction | auto | auto]. }
  destruct o as [r|e]; [|now apply Hstop].
  destruct (negb (status_code r =? 200)); [now apply Hstop|].
  unfold bind at 1.
  match goal with |- context [response_field ?a ?b ?c ?w'] =>
    destruct (response_field_quiet a b c w') as (o & ->) end.
  destruct o as [players|e]; [|now apply Hstop].
  destruct (negb (py_truthy players)); [now apply Hstop|].
  unfold bind at 1. unfold lift.
  destruct (py_first players) as [user_data|e]; [|now apply Hstop].
  clear Hstop. unfold bind at 1.
  destruct (fetch_friends_log steam_id w1)
    as (fl & w2 & lf & -> & Hl2 & Hlf & Hf1 & Hf2 & Hf3 & Hf4).
  unfold bind at 1.
  destruct (fetch_games_log steam_id w2)
    as (og & lo & -> & Hlo & Hg1 & Hg2 & Hg3 & Hg4).
  unfold ret.
  eexists _, _, lf, lo. split; [reflexivity|].
  cbn [logged sent]. rewrite Hl2. cbn [w1 logged].
  split; [now rewrite <- app_assoc|].
  split; [exact Hlf|]. split; [exact Hlo|].
  assert (Hi1 : length (sent w1) = S (length (sent w)))
    by (cbn [w1 sent]; rewrite length_app; cbn [length]; lia).
  assert (Hi2 : (length (sent w2 ++ [owned_games_request steam_id]) - 1)%nat
                = length (sent w2))
    by (rewrite length_app; cbn [length]; lia).
  rewrite Hi1 in Hf1, Hf2, Hf3, Hf4. rewrite Hi2.
  repeat split; assumption.
Qed.

End Traffic.

(** X2. Whatever the remote side does, [fetch_steam_profile] sends the
    profile request (time limit 10) first.  When it returns [None] or
    raises, that request is the only one.  When it returns an aggregate,
    the requests are, in order: the profile, the friend list, the
    summaries of zero or more batches of friends (time limit 15 each), and
    last the owned games. *)
Theorem fetch_request_order `{PyEnv} (net : network) (steam_id : value)
    (w : world) :
  exists o w' more,
    fetch_steam_profile net steam_id w = (o, w')
    /\ sent w' = sent w ++ summaries_request steam_id 10 :: more
    /\ match o with
       | Ret (Some _) =>
           exists reqs,
             more = friend_list_request steam_id :: reqs
                    ++ [owned_games_request steam_id]
             /\ Forall batch_lookup reqs
       | _ => more = []
       end.
Proof.
  destruct (fetch_trace net steam_id w) as (o & more & lg & E & Ho).
  exists o. eexists. exists more.
  split; [exact E|]. split; [reflexivity|].
  destruct o as [[data|]|e]; tauto.
Qed.

(** X3. [fetch_steam_profile] writes at most two log records, both at
    WARNING level: at most one for the friends part, then at most one for
    the games part.  It writes nothing when it returns [None] or raises: a
    profile that cannot be fetched leaves no trace in the log.  When it
    returns an aggregate, the records follow what became of the requests.
    A friend-list request that fails in transport, or is answered with
    status 200 and a body that is not JSON, is recorded with its exception;
    one answered with a status other than 200, or with an empty list of
    friends, is not recorded.  Likewise the owned-games request (the last
    request sent): a transport failure and a body that is not JSON are
    recorded; a status other than 200, and a list of game records with
    integer playtimes, are not. *)
Theorem fetch_logs_warnings_only `{PyEnv} (net : network) (steam_id : value)
    (w : world) :
  exists o w' lf lo,
    fetch_steam_profile net steam_id w = (o, w')
    /\ logged w' = logged w ++ lf ++ lo
    /\ (lf = [] \/ exists e, lf = [friends_warning e])
    /\ (lo = [] \/ exists e, lo = [games_warning e])
    /\ match o with
       | Ret (Some _) =>
           let rf :=
             net (S (length (sent w))) (friend_list_request steam_id) in
           let rg :=
             net (length (sent w') - 1)%nat (owned_games_request steam_id) in
           (rf = Failed -> lf = [friends_warning RequestException])
           /\ (forall r, rf = Answered r -> status_code r = 200 ->
                         body r = None ->
                         lf = [friends_warning JSONDecodeError])
           /\ (forall r, rf = Answered r -> status_code r <> 200 ->
                         lf = [])
           /\ (serves rf (U "friendslist") (U "friends") (VList []) ->
               lf = [])
           /\ (rg = Failed -> lo = [games_warning RequestException])
           /\ (forall r, rg = Answered r -> status_code r = 200 ->
                         body r = None ->
                         lo = [games_warning JSONDecodeError])
           /\ (forall r, rg = Answered r -> status_code r <> 200 ->
                         lo = [])
           /\ (forall gs,
                 serves rg (U "response") (U "games") (VList gs) ->
                 forallb timed_game gs = true -> lo = [])
       | _ => lf = [] /\ lo = []
       end.
Proof. exact (@fetch_log _ net steam_id w). Qed.

Example log_when_friends_and_games_fail :
  logged
    (snd (@fetch_steam_profile ascii_env net_profile_only
            (VStr (U "76561198000000001")) w0))
  = [friends_warning RequestException; games_warning RequestException].
Proof. vm_compute. reflexivity. Qed.

(** X4. Every aggregate that [fetch_steam_profile] returns holds at most
    ten games, whatever the remote side served; so the slice [games[:10]]
    that [simplify_steam_profile] takes before it lists the names cuts
    nothing off, and the example games of the digest are all the games the
    playtime total is summed over. *)
Theorem sample_never_exceeds_ten `{PyEnv} (net : network) (steam_id : value)
    (w w' : world) (data : aggregate) :
  fetch_steam_profile net steam_id w = (Ret (Some data), w') ->
  (length (owned_games_sample data) <= 10)%nat
  /\ firstn 10 (owned_games_sample data) = owned_games_sample data.
Proof.
  intros E.
  destruct (fetch_trace net steam_id w) as (o & more & lg & E' & Ho).
  rewrite E in E'. inversion E'; subst o.
  destruct Ho as (_ & Hlen & _).
  split; [exact Hlen | now apply firstn_all2].
Qed.

Lemma sample_never_exceeds_ten_witness :
  exists data w',
    @fetch_steam_profile ascii_env (net_games fifteen_games)
      (VStr (U "76561198000000001")) w0
    = (Ret (Some data), w')
    /\ (length (owned_games_sample data) <= 10)%nat
    /\ firstn 10 (owned_games_sample data) = owned_games_sample data.
Proof.
  eexists _, _. split; [vm_compute; reflexivity|].
  eapply (@sample_never_exceeds_ten ascii_env (net_games fifteen_games)
            (VStr (U "76561198000000001")) w0).
  vm_compute. reflexivity.
Defined.

(** One run of the resolver past the numeric shortcut. *)
Lemma resolve_trace `{PyEnv} (net : network) (raw : ustr) (w : world) :
  numeric_shortcut (py_strip raw) = false ->
  let text := py_strip raw in
  let rp := net (length (sent w)) (vanity_request text) in
  exists v lg,
    resolve_steam_id net raw w
    = (Ret v, World (sent w ++ [vanity_request text]) (logged w ++ lg))
    /\ (lg = [] \/ exists e, lg = [resolve_error text e] /\ v = VNone)
    /\ (forall r d rr s,
          rp = Answered r -> ~ error_status (status_code r) ->
          body r = Some d ->
          py_getitem d (U "response") = Ret rr ->
          py_getitem rr (U "success") = Ret s ->
          py_eq_int s 1 = false ->
          v = VNone /\ lg = [])
    /\ (rp = Failed -> lg = [resolve_error text RequestException])
    /\ (forall r, rp = Answered r -> error_status (status_code r) ->
                  lg = [resolve_error text HTTPError]).
Proof.
  intros Hs text rp. unfold numeric_shortcut in Hs.
  unfold resolve_steam_id. rewrite Hs. fold text.
  unfold try_except, bind at 1. unfold send. fold rp.
  destruct rp as [r|] eqn:Hrp.
  2:{ exists VNone, [resolve_error text RequestException].
      split; [reflexivity|]. split; [right; eexists; eauto|].
      split; [intros; discriminate|]. split; [reflexivity|].
      intros; discriminate. }
  cbn [sent logged].
  destruct (error_status_dec (status_code r)) as [He|He].
  { unfold bind. rewrite (@raise_for_status_error _ r _ He).
    exists VNone, [resolve_error text HTTPError].
    split; [reflexivity|]. split; [right; eexists; eauto|].
    split; [intros r0 d rr s E; inversion E; subst; tauto|].
    split; [discriminate | reflexivity]. }
  unfold bind at 1. rewrite (@raise_for_status_pass _ r _ He).
  unfold bind at 1. unfold resp_json.
  destruct (body r) as [d|] eqn:Hb.
  2:{ exists VNone, [resolve_error text JSONDecodeError].
      split; [reflexivity|]. split; [right; eexists; eauto|].
      split; [intros r0 d rr s E; inversion E; subst; congruence|].
      split; [discriminate|]. intros r0 E; inversion E; subst; tauto. }
  unfold bind, lift, ret.
  destruct (py_getitem d (U "response")) as [rr|e1] eqn:H1.
  2:{ exists VNone, [resolve_error text e1].
      split; [reflexivity|]. split; [right; eexists; eauto|].
      split; [intros r0 d0 rr s E; inversion E; subst; congruence|].
      split; [discriminate|]. intros r0 E; inversion E; subst; tauto. }
  destruct (py_getitem rr (U "success")) as [s|e2] eqn:H2.
  2:{ exists VNone, [resolve_error text e2].
      split; [reflexivity|]. split; [right; eexists; eauto|].
      split; [intros r0 d0 rr0 s E; inversion E; subst; congruence|].
      split; [discriminate|]. intros r0 E; inversion E; subst; tauto. }
  destruct (py_eq_int s 1) eqn:H3.
  2:{ exists VNone, []. rewrite app_nil_r.
      split; [reflexivity|]. split; [now left|].
      split; [auto|].
      split; [discriminate|]. intros r0 E; inversion E; subst; tauto. }
  destruct (py_getitem rr (U "steamid")) as [sid|e3] eqn:H4.
  2:{ exists VNone, [resolve_error text e3].
      split; [reflexivity|]. split; [right; eexists; eauto|].
      split; [intros r0 d0 rr0 s0 E; inversion E; subst; congruence|].
      split; [discriminate|]. intros r0 E; inversion E; subst; tauto. }
  exists sid, []. rewrite app_nil_r.
  split; [reflexivity|]. split; [now left|].
  split; [intros r0 d0 rr0 s0 E; inversion E; subst; congruence|].
  split; [discriminate|]. intros r0 E; inversion E; subst; tauto.
Qed.

(** X5. Past the numeric shortcut, [resolve_steam_id] sends one lookup and
    writes at most one log record, at ERROR level, with the trimmed input
    quoted in its text, and only on a path that returns [None].  A reply
    that says "no match" ([success] other than 1) returns [None] without
    any record; a transport failure and a 4xx/5xx status are both
    recorded. *)
Theorem resolve_logs_failures_only `{PyEnv} (net : network) (raw : ustr)
    (w : world) :
  numeric_shortcut (py_strip raw) = false ->
  let text := py_strip raw in
  let rp := net (length (sent w)) (vanity_request text) in
  exists v lg,
    resolve_steam_id net raw w
    = (Ret v, World (sent w ++ [vanity_request text]) (logged w ++ lg))
    /\ (lg = [] \/ exists e, lg = [resolve_error text e] /\ v = VNone)
    /\ (forall r d rr s,
          rp = Answered r -> ~ error_status (status_code r) ->
          body r = Some d ->
          py_getitem d (U "response") = Ret rr ->
          py_getitem rr (U "success") = Ret s ->
          py_eq_int s 1 = false ->
          v = VNone /\ lg = [])
    /\ (rp = Failed -> lg = [resolve_error text RequestException])
    /\ (forall r, rp = Answered r -> error_status (status_code r) ->
                  lg = [resolve_error text HTTPError]).
Proof. exact (@resolve_trace _ net raw w). Qed.

Lemma resolve_logs_failures_only_witness :
  exists v lg,
    @resolve_steam_id ascii_env net_down (U " gaben ") w0
    = (Ret v, World [@vanity_request ascii_env (U "gaben")] lg)
    /\ lg = [resolve_error (U "gaben") RequestException].
Proof.
  destruct (@resolve_logs_failures_only ascii_env net_down (U " gaben ") w0)
    as (v & lg & E & _ & _ & Hdown & _).
  - vm_compute. reflexivity.
  - exists v, lg. split; [exact E | apply Hdown; reflexivity].
Defined.

(** The resolver never raises; it sends the lookup or nothing. *)
Lemma resolve_total `{PyEnv} (net : network) (raw : ustr) (w : world) :
  exists v more lg,
    resolve_steam_id net raw w
    = (Ret v, World (sent w ++ more) (logged w ++ lg))
    /\ (more = [] \/ more = [vanity_request (py_strip raw)]).
Proof.
  destruct (numeric_shortcut (py_strip raw)) eqn:Hs.
  - exists (VStr (py_strip raw)), [], [].
    unfold resolve_steam_id. unfold numeric_shortcut in Hs. rewrite Hs.
    unfold ret. rewrite !app_nil_r, world_eta. auto.
  - destruct (resolve_trace net raw w Hs) as (v & lg & E & _).
    exists v, [vanity_request (py_strip raw)], lg. auto.
Qed.

(** One run of [llm_message], with what it logs. *)
Lemma llm_message_trace `{PyEnv} (net : network) (message : ustr)
    (w : world) :
  let rp := net (length (sent w)) (chat_request message) in
  exists text lg,
    llm_message net message w
    = (Ret (text ++ nl ++ nl ++ message),
       World (sent w ++ [chat_request message]) (logged w ++ lg))
    /\ ((exists c, generated rp c /\ text = py_str c /\ lg = [])
        \/ (exists e, lg = [chat_error e]) /\ text = apology
           /\ forall c, ~ generated rp c).
Proof.
  intros rp. unfold llm_message.
  unfold bind at 1. unfold try_except. unfold bind at 1. unfold send.
  fold rp. destruct rp as [r|] eqn:Hrp.
  2:{ eexists _, [_]. split; [reflexivity | right].
      split; [eexists; reflexivity|]. split; [reflexivity|].
      not_generated. }
  cbn [sent logged].
  destruct (error_status_dec (status_code r)) as [He|He].
  { unfold bind. rewrite (@raise_for_status_error _ r _ He).
    eexists _, [_]. split; [reflexivity | right].
    split; [eexists; reflexivity|]. split; [reflexivity|].
    not_generated. }
  unfold bind at 1. rewrite (@raise_for_status_pass _ r _ He).
  unfold bind at 1. unfold resp_json.
  destruct (body r) as [d|] eqn:Hb.
  2:{ eexists _, [_]. split; [reflexivity | right].
      split; [eexists; reflexivity|]. split; [reflexivity|].
      not_generated. }
  unfold bind, lift, ret.
  destruct (py_getitem d (U "message")) as [m|e1] eqn:H1.
  2:{ eexists _, [_]. split; [reflexivity | right].
      split; [eexists; reflexivity|]. split; [reflexivity|].
      not_generated. }
  destruct (py_getitem m (U "content")) as [c|e2] eqn:H2.
  2:{ eexists _, [_]. split; [reflexivity | right].
      split; [eexists; reflexivity|]. split; [reflexivity|].
      not_generated. }
  eexists _, []. rewrite app_nil_r. split; [reflexivity | left].
  exists c. split; [|auto].
  exists r, d, m. auto.
Qed.

(** X6. [llm_message] writes one log record, at ERROR level, exactly when
    no commentary could be read from the reply, which is when it falls back
    on the apology; a generated commentary leaves no record. *)
Theorem llm_logs_every_fallback `{PyEnv} (net : network) (message : ustr)
    (w : world) :
  let rp := net (length (sent w)) (chat_request message) in
  exists text lg,
    llm_message net message w
    = (Ret (text ++ nl ++ nl ++ message),
       World (sent w ++ [chat_request message]) (logged w ++ lg))
    /\ ((exists c, generated rp c /\ text = py_str c /\ lg = [])
        \/ (exists e, lg = [chat_error e]) /\ text = apology
           /\ forall c, ~ generated rp c).
Proof. exact (@llm_message_trace _ net message w). Qed.

(* ================================================================== *)
(** ** [str.strip] twice *)

Section Strip.
Context `{PyEnv}.

(** Nothing to trim on the left. *)
Lemma lstrip_head (s : ustr) :
  match lstrip s with
  | [] => True
  | c :: _ => uni_isspace c = false
  end.
Proof.
  induction s as [|c s IH]; cbn [lstrip]; [exact I|].
  destruct (uni_isspace c) eqn:Hc; [exact IH | exact Hc].
Qed.

Lemma lstrip_fixed (s : ustr) :
  match s with
  | [] => True
  | c :: _ => uni_isspace c = false
  end ->
  lstrip s = s.
Proof. destruct s as [|c s]; cbn [lstrip]; [auto | now intros ->]. Qed.

Lemma lstrip_suffix (s : ustr) : exists sp, s = sp ++ lstrip s.
Proof.
  induction s as [|c s [sp IH]]; cbn [lstrip]; [now exists []|].
  destruct (uni_isspace c).
  - exists (c :: sp). cbn. now f_equal.
  - now exists [].
Qed.

Lemma py_strip_idempotent (s : ustr) : py_strip (py_strip s) = py_strip s.
Proof.
  unfold py_strip.
  set (t := lstrip s). set (u := lstrip (rev t)).
  assert (Hleft : lstrip (rev u) = rev u).
  { apply lstrip_fixed.
    destruct (lstrip_suffix (rev t)) as [sp Hsp]. fold u in Hsp.
    apply (f_equal (@rev N)) in Hsp.
    rewrite rev_involutive, rev_app_distr in Hsp.
    pose proof (lstrip_head s) as Ht. fold t in Ht.
    destruct (rev u) as [|c r]; [exact I|].
    rewrite Hsp in Ht. exact Ht. }
  rewrite Hleft, rev_involutive. f_equal.
  apply lstrip_fixed. apply lstrip_head.
Qed.

End Strip.

(** X7. Trimming is idempotent, so [resolve_steam_id] does the same on an
    input and on the trimmed input: [handle_steam_id], which trims the
    message before it calls the resolver, loses nothing to the second
    trim. *)
Theorem lookup_ignores_outer_whitespace `{PyEnv} (net : network)
    (raw : ustr) :
  py_strip (py_strip raw) = py_strip raw
  /\ forall w,
       resolve_steam_id net (py_strip raw) w = resolve_steam_id net raw w.
Proof.
  split; [apply py_strip_idempotent|].
  intros w. unfold resolve_steam_id. now rewrite py_strip_idempotent.
Qed.

(* ================================================================== *)
(** ** The handlers *)

Section HandlerFacts.
Context `{PyEnv}.
Variable net : network.
Variable telegram : chat_transport.

Lemma session_eta (s : session) :
  Session (pipeline s) (outbox s) (journal s) = s.
Proof. now destruct s. Qed.

Lemma run_io_ret (A : Type) (m : io A) (s : session) (a : A) (w : world) :
  m (pipeline s) = (Ret a, w) ->
  run_io m s = (Finished a, Session w (outbox s) (journal s)).
Proof. intros E. unfold run_io. now rewrite E. Qed.

Lemma run_io_raise (A : Type) (m : io A) (s : session) (e : exn)
    (w : world) :
  m (pipeline s) = (Raise e, w) ->
  run_io m s
  = (Crashed (PipelineError e), Session w (outbox s) (journal s)).
Proof. intros E. unfold run_io. now rewrite E. Qed.

Lemma run_pure_ret (A : Type) (a : A) (s : session) :
  run_pure (Ret a) s = (Finished a, s).
Proof. unfold run_pure, run_io, lift. now rewrite session_eta. Qed.

Lemma run_pure_raise (A : Type) (e : exn) (s : session) :
  @run_pure A (Raise e) s = (Crashed (PipelineError e), s).
Proof. unfold run_pure, run_io, lift. now rewrite session_eta. Qed.

Lemma bind_finished (A B : Type) (m : bot A) (k : A -> bot B)
    (s s' : session) (a : A) :
  m s = (Finished a, s') -> bot_bind m k s = k a s'.
Proof. intros E. unfold bot_bind. now rewrite E. Qed.

Lemma bind_crashed (A B : Type) (m : bot A) (k : A -> bot B)
    (s s' : session) (f : fault) :
  m s = (Crashed f, s') -> bot_bind m k s = (Crashed f, s').
Proof. intros E. unfold bot_bind. now rewrite E. Qed.

(** *** Counting the replies *)

Lemma emits_weaken (A : Type) (lo hi lo' hi' : nat)
    (P P' : message -> Prop) (R R' : request -> Prop) (m : bot A) :
  emits lo hi P R m ->
  (lo' <= lo)%nat -> (hi <= hi')%nat ->
  (forall x, P x -> P' x) -> (forall x, R x -> R' x) ->
  emits lo' hi' P' R' m.
Proof.
  intros Hm Hlo Hhi HP HR s.
  destruct (Hm s) as (c & s' & new & more & lg & E & Ho & Hs & Hl & Hj
                      & Hp & Hr & Hmax & Hmin).
  exists c, s', new, more, lg.
  split; [exact E|]. split; [exact Ho|]. split; [exact Hs|].
  split; [exact Hl|]. split; [exact Hj|].
  split; [eapply Forall_impl; [exact HP | exact Hp]|].
  split; [eapply Forall_impl; [exact HR | exact Hr]|].
  split; [lia|].
  intros a Ha. specialize (Hmin a Ha). lia.
Qed.

Lemma emits_bind_with (A B : Type) (Q : A -> Prop) (lo1 hi1 lo2 hi2 : nat)
    (P : message -> Prop) (R : request -> Prop) (m : bot A)
    (k : A -> bot B) :
  finishes_with Q m ->
  emits lo1 hi1 P R m -> (forall a, Q a -> emits lo2 hi2 P R (k a)) ->
  emits (lo1 + lo2) (hi1 + hi2) P R (bot_bind m k).
Proof.
  intros HQ Hm Hk s.
  destruct (Hm s) as (c & s1 & new & more & lg & E & Ho & Hs & Hl & Hj
                      & Hp & Hr & Hmax & Hmin).
  unfold bot_bind. rewrite E. destruct c as [a|f].
  - destruct (Hk a (HQ _ _ _ E) s1)
      as (c2 & s2 & new2 & more2 & lg2 & E2 & Ho2 & Hs2
          & Hl2 & Hj2 & Hp2 & Hr2 & Hmax2 & Hmin2).
    exists c2, s2, (new ++ new2), (more ++ more2), (lg ++ lg2).
    split; [exact E2|].
    split; [now rewrite Ho2, Ho, app_assoc|].
    split; [now rewrite Hs2, Hs, app_assoc|].
    split; [now rewrite Hl2, Hl, app_assoc|].
    split; [congruence|].
    split; [now apply Forall_app|].
    split; [now apply Forall_app|].
    rewrite length_app. split; [lia|].
    intros b Hb. specialize (Hmin a eq_refl). specialize (Hmin2 b Hb). lia.
  - exists (Crashed f), s1, new, more, lg.
    repeat split; try assumption; [lia | discriminate].
Qed.

Lemma emits_bind (A B : Type) (lo1 hi1 lo2 hi2 : nat)
    (P : message -> Prop) (R : request -> Prop) (m : bot A)
    (k : A -> bot B) :
  emits lo1 hi1 P R m -> (forall a, emits lo2 hi2 P R (k a)) ->
  emits (lo1 + lo2) (hi1 + hi2) P R (bot_bind m k).
Proof.
  intros Hm Hk.
  apply (@emits_bind_with _ _ (fun _ => True)); auto.
  intros s a s' _. exact I.
Qed.

Lemma emits_run_io (A : Type) (P : message -> Prop) (R : request -> Prop)
    (m : io A) :
  extends R m -> emits 0 0 P R (run_io m).
Proof.
  intros Hm s. destruct (Hm (pipeline s)) as (o & more & lg & E & Hr).
  unfold run_io. rewrite E.
  destruct o as [a|e]; eexists _, _, [], more, lg;
    cbn [outbox pipeline journal sent logged]; rewrite app_nil_r;
    repeat split; try assumption; try constructor; cbn; lia.
Qed.

Lemma extends_lift (A : Type) (R : request -> Prop) (m : outcome A) :
  extends R (lift m).
Proof.
  intros w. exists m, [], []. unfold lift.
  rewrite !app_nil_r, world_eta. split; [reflexivity | constructor].
Qed.

Lemma emits_run_pure (A : Type) (P : message -> Prop) (R : request -> Prop)
    (m : outcome A) :
  emits 0 0 P R (run_pure m).
Proof. apply emits_run_io, extends_lift. Qed.

Lemma emits_ret (A : Type) (P : message -> Prop) (R : request -> Prop)
    (a : A) :
  emits 0 0 P R (bot_ret a).
Proof.
  intros s. exists (Finished a), s, [], [], [].
  rewrite !app_nil_r. repeat split; try constructor; cbn; lia.
Qed.

Lemma send_reply_run (m : message) (s : session) :
  send_reply telegram m s
  = (if telegram (length (outbox s)) m then Finished tt
     else Crashed TelegramError,
     Session (pipeline s) (outbox s ++ [m]) (journal s)).
Proof. unfold send_reply. now destruct (telegram (length (outbox s)) m). Qed.

Lemma emits_send_reply (P : message -> Prop) (R : request -> Prop)
    (m : message) :
  P m -> emits 1 1 P R (send_reply telegram m).
Proof.
  intros Hm s. rewrite send_reply_run.
  eexists _, _, [m], [], [].
  cbn [outbox pipeline journal]. rewrite !app_nil_r.
  repeat split; try constructor; try assumption; try constructor; cbn; lia.
Qed.

Lemma extends_resolve (raw : ustr) :
  extends (fun _ => True) (resolve_steam_id net raw).
Proof.
  intros w. destruct (resolve_total net raw w) as (v & more & lg & E & _).
  exists (Ret v), more, lg. split; [exact E|].
  apply Forall_forall. auto.
Qed.

Lemma batch_lookup_not_lookup (rq : request) :
  batch_lookup rq -> not_lookup rq.
Proof. intros [b ->]. reflexivity. Qed.

Lemma extends_fetch (steam_id : value) :
  extends not_lookup (fetch_steam_profile net steam_id).
Proof.
  intros w. destruct (fetch_trace net steam_id w) as (o & more & lg & E & Ho).
  eexists o, _, lg. split; [exact E|].
  constructor; [reflexivity|].
  destruct o as [[data|]|e].
  - destruct Ho as ((reqs & -> & Hreqs) & _).
    constructor; [reflexivity|].
    apply Forall_app. split.
    + eapply Forall_impl; [exact batch_lookup_not_lookup | exact Hreqs].
    + constructor; [reflexivity | constructor].
  - destruct Ho as [-> _]. constructor.
  - destruct Ho as [-> _]. constructor.
Qed.

Lemma extends_llm (message : ustr) :
  extends not_lookup (llm_message net message).
Proof.
  intros w.
  destruct (llm_message_trace net message w) as (text & lg & E & _).
  eexists _, _, lg. split; [exact E|].
  constructor; [reflexivity | constructor].
Qed.

Lemma llm_finishes_with_two_lines (message : ustr) :
  finishes_with (fun roast => In 10%N roast)
    (run_io (llm_message net message)).
Proof.
  intros s a s' E. unfold run_io in E.
  destruct (llm_message_trace net message (pipeline s))
    as (text & lg & E' & _).
  rewrite E' in E. inversion E; subst.
  apply in_or_app. right. left. reflexivity.
Qed.

Lemma reply_text_neq (a b : ustr) (pm : option ustr) :
  ustr_eqb a b = false -> ReplyText a pm <> ReplyText b pm.
Proof.
  intros Hab E. injection E as E'. subst a. unfold ustr_eqb in Hab.
  destruct (ustr_eq_dec b b); congruence.
Qed.

Lemma not_found_other : other_reply not_found_reply.
Proof. apply reply_text_neq. vm_compute. reflexivity. Qed.

Lemma no_data_other : other_reply no_data_reply.
Proof. apply reply_text_neq. vm_compute. reflexivity. Qed.

Lemma photo_other (photo : value) (caption : ustr) (pm : option ustr) :
  other_reply (ReplyPhoto photo caption pm).
Proof. unfold other_reply, bad_link_reply. intros E. discriminate E. Qed.

Lemma card_text_other (caption : ustr) :
  other_reply (ReplyText caption html).
Proof.
  unfold other_reply, bad_link_reply, html. intros E.
  injection E as _ E'. discriminate E'.
Qed.

Lemma two_lines_other (roast : ustr) :
  In 10%N roast -> other_reply (ReplyText roast None).
Proof.
  intros Hin E. unfold bad_link_reply in E. injection E as E'. subst roast.
  assert (Hall : forallb (fun c => negb (c =? 10)%N) bad_link_text = true)
    by (vm_compute; reflexivity).
  rewrite forallb_forall in Hall. specialize (Hall _ Hin).
  discriminate Hall.
Qed.

Lemma emits_caption (P : message -> Prop) (R : request -> Prop) (p : value) :
  emits 0 0 P R (caption_of p).
Proof.
  unfold caption_of.
  apply (@emits_bind _ _ 0 0 0 0); [apply emits_run_pure | intros ps].
  apply (@emits_bind _ _ 0 0 0 0); [apply emits_run_pure | intros st].
  apply (@emits_bind _ _ 0 0 0 0); [apply emits_run_pure | intros vs].
  apply (@emits_bind _ _ 0 0 0 0); [apply emits_run_pure | intros pn].
  apply (@emits_bind _ _ 0 0 0 0); [apply emits_run_pure | intros pu].
  apply emits_ret.
Qed.

Lemma emits_card (p : value) :
  emits 1 1 other_reply not_lookup (send_card telegram p).
Proof.
  unfold send_card.
  apply (@emits_bind _ _ 0 0 1 1); [apply emits_caption | intros caption].
  apply (@emits_bind _ _ 0 0 1 1); [apply emits_run_pure | intros avatar].
  destruct (py_truthy avatar); apply emits_send_reply.
  - apply photo_other.
  - apply card_text_other.
Qed.

Lemma emits_commentary (data : aggregate) :
  emits 1 1 other_reply not_lookup (send_commentary net telegram data).
Proof.
  unfold send_commentary.
  apply (@emits_bind _ _ 0 0 1 1); [apply emits_run_pure | intros digest].
  apply (@emits_bind_with _ _ (fun roast => In 10%N roast) 0 0 1 1);
    [apply llm_finishes_with_two_lines
    | apply emits_run_io, extends_llm
    | intros roast Hroast].
  apply emits_send_reply. now apply two_lines_other.
Qed.

Lemma emits_show_profile (steam_id : value) :
  emits 1 2 other_reply not_lookup (show_profile net telegram steam_id).
Proof.
  unfold show_profile.
  apply (@emits_bind _ _ 0 0 1 2);
    [apply emits_run_io, extends_fetch | intros [data|]].
  - apply (@emits_weaken _ 2 2 1 2 other_reply other_reply
             not_lookup not_lookup); [|lia|lia|auto|auto].
    apply (@emits_bind _ _ 1 1 1 1); [apply emits_card | intros _].
    apply emits_commentary.
  - apply (@emits_weaken _ 1 1 1 2 other_reply other_reply
             not_lookup not_lookup); [|lia|lia|auto|auto].
    apply emits_send_reply. apply no_data_other.
Qed.

Lemma emits_after_lookup (steam_id : value) :
  emits 1 2 other_reply not_lookup (after_lookup net telegram steam_id).
Proof.
  unfold after_lookup. destruct (negb (py_truthy steam_id)).
  - apply (@emits_weaken _ 1 1 1 2 other_reply other_reply
             not_lookup not_lookup); [|lia|lia|auto|auto].
    apply emits_send_reply. apply not_found_other.
  - apply emits_show_profile.
Qed.

Lemma emits_lookup_then (raw : ustr) :
  emits 1 2 other_reply (fun _ => True)
    (bot_bind (run_io (resolve_steam_id net raw))
       (after_lookup net telegram)).
Proof.
  apply (@emits_bind _ _ 0 0 1 2);
    [apply emits_run_io, extends_resolve | intros steam_id].
  apply (@emits_weaken _ 1 2 1 2 other_reply other_reply
           not_lookup (fun _ => True)); [|lia|lia|auto|auto].
  apply emits_after_lookup.
Qed.

(** *** The three ways into the lookup *)

Lemma handle_plain (message_text : ustr) (s : session) :
  startswith (py_strip message_text) (U "http") = false ->
  handle_steam_id net telegram message_text s
  = bot_bind (run_io (resolve_steam_id net (py_strip message_text)))
      (after_lookup net telegram) s.
Proof. intros E. unfold handle_steam_id. now rewrite E. Qed.

Lemma handle_id_link (message_text : ustr) (s : session) :
  let text := py_strip message_text in
  startswith text (U "http") = true ->
  contains (U "/id/") text = true ->
  handle_steam_id net telegram message_text s
  = bot_bind
      (run_io
         (resolve_steam_id net
            (first_piece
               (pieces (U "/") (last_piece (pieces (U "/id/") text))))))
      (after_lookup net telegram) s.
Proof.
  intros text E1 E2. unfold handle_steam_id. fold text. rewrite E1, E2.
  rewrite segment_after_run by discriminate.
  unfold bot_bind at 1. now rewrite run_pure_ret.
Qed.

Lemma handle_profiles_link (message_text : ustr) (s : session) :
  let text := py_strip message_text in
  startswith text (U "http") = true ->
  contains (U "/id/") text = false ->
  contains (U "/profiles/") text = true ->
  handle_steam_id net telegram message_text s
  = after_lookup net telegram
      (VStr (first_piece
               (pieces (U "/")
                  (last_piece (pieces (U "/profiles/") text))))) s.
Proof.
  intros text E1 E2 E3. unfold handle_steam_id. fold text.
  rewrite E1, E2, E3.
  rewrite segment_after_run by discriminate.
  unfold bot_bind at 1. now rewrite run_pure_ret.
Qed.

Lemma handle_unusable_link (message_text : ustr) (s : session) :
  unusable_link (py_strip message_text) = true ->
  handle_steam_id net telegram message_text s
  = send_reply telegram bad_link_reply s.
Proof.
  unfold unusable_link. intros E.
  apply andb_true_iff in E as [E E3]. apply andb_true_iff in E as [E1 E2].
  apply negb_true_iff in E2, E3.
  unfold handle_steam_id. now rewrite E1, E2, E3.
Qed.

Lemma emits_handle (message_text : ustr) :
  emits 1 2
    (fun m => unusable_link (py_strip message_text) = false ->
              other_reply m)
    (fun _ => True)
    (handle_steam_id net telegram message_text).
Proof.
  destruct (unusable_link (py_strip message_text)) eqn:Hu.
  - intros s. rewrite (handle_unusable_link _ _ Hu).
    revert s.
    apply (@emits_weaken _ 1 1 1 2 (fun _ => True)
             (fun _ => true = false -> _) (fun _ => True) (fun _ => True));
      [|lia|lia|discriminate|auto].
    now apply emits_send_reply.
  - assert (Hw : forall m : bot unit,
               emits 1 2 other_reply (fun _ => True) m ->
               emits 1 2 (fun m => false = false -> other_reply m)
                 (fun _ => True) m).
    { intros m Hm.
      apply (@emits_weaken _ 1 2 1 2 other_reply
               (fun m => false = false -> other_reply m)
               (fun _ => True) (fun _ => True) m Hm); auto. }
    unfold unusable_link in Hu.
    destruct (startswith (py_strip message_text) (U "http")) eqn:E1.
    + destruct (contains (U "/id/") (py_strip message_text)) eqn:E2.
      * intros s. rewrite (handle_id_link _ _ E1 E2). revert s.
        apply Hw, emits_lookup_then.
      * destruct (contains (U "/profiles/") (py_strip message_text)) eqn:E3;
          [|discriminate].
        intros s. rewrite (handle_profiles_link _ _ E1 E2 E3). revert s.
        apply Hw.
        apply (@emits_weaken _ 1 2 1 2 other_reply other_reply
                 not_lookup (fun _ => True)); [|lia|lia|auto|auto].
        apply emits_after_lookup.
    + intros s. rewrite (handle_plain _ _ E1). revert s.
      apply Hw, emits_lookup_then.
Qed.

End HandlerFacts.

(** X8. Whatever the message, the remote side and the chat transport,
    one run of [handle_steam_id] attempts at most two replies, and at
    least one whenever it runs to its end: no message is answered with
    silence unless the handler raises.  The replies, requests and log
    records that were there before are kept and only added to. *)
Theorem handler_reply_budget `{PyEnv} (net : network)
    (telegram : chat_transport) (message_text : ustr) (s : session) :
  exists c s' new more lg,
    handle_steam_id net telegram message_text s = (c, s')
    /\ outbox s' = outbox s ++ new
    /\ sent (pipeline s') = sent (pipeline s) ++ more
    /\ logged (pipeline s') = logged (pipeline s) ++ lg
    /\ journal s' = journal s
    /\ (length new <= 2)%nat
    /\ (c = Finished tt -> (1 <= length new)%nat).
Proof.
  destruct (emits_handle net telegram message_text s)
    as (c & s' & new & more & lg & E & Ho & Hs & Hl & Hj & _ & _
        & Hmax & Hmin).
  exists c, s', new, more, lg. repeat split; try assumption.
  intros Hc. exact (Hmin tt Hc).
Qed.

(** X9. A text that starts with ["http"] and contains neither ["/id/"]
    nor ["/profiles/"] is answered with the bad-link reply and nothing
    else: no request is sent, nothing is logged.  This holds for a vanity
    name that happens to start with ["http"] as well: it cannot be looked
    up by name.  Conversely, no other message is ever answered with the
    bad-link reply. *)
Theorem bad_link_reply_exactly_for_unusable_links `{PyEnv} (net : network)
    (telegram : chat_transport) (message_text : ustr) (s : session) :
  exists c s' new,
    handle_steam_id net telegram message_text s = (c, s')
    /\ outbox s' = outbox s ++ new
    /\ (In bad_link_reply new
        <-> unusable_link (py_strip message_text) = true)
    /\ (unusable_link (py_strip message_text) = true ->
        new = [bad_link_reply] /\ pipeline s' = pipeline s).
Proof.
  destruct (emits_handle net telegram message_text s)
    as (c & s' & new & more & lg & E & Ho & Hs & Hl & Hj & Hp & _).
  exists c, s', new. split; [exact E|]. split; [exact Ho|].
  assert (Hbad : unusable_link (py_strip message_text) = true ->
                 new = [bad_link_reply] /\ pipeline s' = pipeline s).
  { intros Hu. rewrite (handle_unusable_link _ _ _ _ Hu) in E.
    rewrite send_reply_run in E. inversion E; subst s'.
    cbn [outbox pipeline] in *. split; [|reflexivity].
    now apply app_inv_head in Ho. }
  split; [split|exact Hbad].
  - intros Hin.
    destruct (unusable_link (py_strip message_text)) eqn:Hu; [reflexivity|].
    rewrite Forall_forall in Hp. now elim (Hp _ Hin eq_refl).
  - intros Hu. destruct (Hbad Hu) as [-> _]. now left.
Qed.

Section HandlerPaths.
Context `{PyEnv}.
Variable net : network.
Variable telegram : chat_transport.

Lemma run_io_congr (A B : Type) (m m' : io A) (k : A -> bot B)
    (s : session) :
  m (pipeline s) = m' (pipeline s) ->
  bot_bind (run_io m) k s = bot_bind (run_io m') k s.
Proof. intros E. unfold bot_bind, run_io. now rewrite E. Qed.

Lemma digits_not_empty (text : ustr) :
  numeric_shortcut text = true -> py_truthy (VStr text) = true.
Proof.
  unfold numeric_shortcut, py_isdigit. destruct text; [discriminate|].
  reflexivity.
Qed.

(** A numeric identifier goes to the aggregator as it is. *)
Lemma handle_numeric (message_text : ustr) (s : session) :
  let text := py_strip message_text in
  startswith text (U "http") = false ->
  numeric_shortcut text = true ->
  handle_steam_id net telegram message_text s
  = show_profile net telegram (VStr text) s.
Proof.
  intros text E1 E2. rewrite (handle_plain _ _ _ _ E1). fold text.
  unfold bot_bind at 1.
  assert (Er : resolve_steam_id net text (pipeline s)
               = (Ret (VStr text), pipeline s)).
  { unfold resolve_steam_id. unfold text. rewrite py_strip_idempotent.
    fold text. unfold numeric_shortcut in E2. now rewrite E2. }
  rewrite (run_io_ret _ _ Er), session_eta.
  unfold after_lookup. now rewrite (digits_not_empty _ E2).
Qed.

Lemma show_profile_none (steam_id : value) (s : session) (w : world) :
  fetch_steam_profile net steam_id (pipeline s) = (Ret None, w) ->
  show_profile net telegram steam_id s
  = send_reply telegram no_data_reply (Session w (outbox s) (journal s)).
Proof.
  intros E. unfold show_profile, bot_bind. now rewrite (run_io_ret _ _ E).
Qed.

Lemma show_profile_raise (steam_id : value) (s : session) (w : world)
    (e : exn) :
  fetch_steam_profile net steam_id (pipeline s) = (Raise e, w) ->
  show_profile net telegram steam_id s
  = (Crashed (PipelineError e), Session w (outbox s) (journal s)).
Proof.
  intros E. unfold show_profile, bot_bind. now rewrite (run_io_raise _ _ E).
Qed.

Lemma show_profile_some (steam_id : value) (s : session) (w : world)
    (data : aggregate) :
  fetch_steam_profile net steam_id (pipeline s) = (Ret (Some data), w) ->
  show_profile net telegram steam_id s
  = bot_bind (send_card telegram (profile data))
      (fun _ => send_commentary net telegram data)
      (Session w (outbox s) (journal s)).
Proof.
  intros E. unfold show_profile. unfold bot_bind at 1.
  now rewrite (run_io_ret _ _ E).
Qed.

(** The caption of a profile record whose state can be looked up. *)
Lemma caption_of_record (d : list (ustr * value)) :
  hashable (field_or_none d (U "personastate")) = true ->
  exists caption, forall s, caption_of (VDict d) s = (Finished caption, s).
Proof.
  intros Hh. unfold caption_of. cbn [py_get].
  unfold field_or_none in Hh.
  eexists. intros s.
  unfold bot_bind at 1. rewrite run_pure_ret.
  unfold bot_bind at 1. unfold status_map_get. rewrite Hh.
  rewrite run_pure_ret.
  unfold bot_bind at 1. rewrite run_pure_ret.
  unfold bot_bind at 1. rewrite run_pure_ret.
  unfold bot_bind at 1. rewrite run_pure_ret.
  unfold bot_ret. reflexivity.
Qed.

Lemma send_card_record (d : list (ustr * value)) :
  hashable (field_or_none d (U "personastate")) = true ->
  exists caption,
    forall s,
      send_card telegram (VDict d) s
      = send_reply telegram (card_of d caption) s.
Proof.
  intros Hh. destruct (caption_of_record d Hh) as [caption Hc].
  exists caption. intros s. unfold send_card.
  unfold bot_bind at 1. rewrite Hc.
  cbn [py_get]. unfold bot_bind at 1. rewrite run_pure_ret.
  unfold card_of, field_or_none.
  now destruct (py_truthy _).
Qed.

End HandlerPaths.

(** X10. A link with ["/id/"] is handled as the vanity name it carries,
    the path segment after the last ["/id/"] of the trimmed text: unless
    that name itself starts with ["http"], the handler does on the link
    exactly what it does on the bare name.  ["/id/"] is looked for first:
    a link that also contains ["/profiles/"] is still handled as a vanity
    link. *)
Theorem id_link_is_its_vanity_name `{PyEnv} (net : network)
    (telegram : chat_transport) (message_text : ustr) :
  let text := py_strip message_text in
  startswith text (U "http") = true ->
  contains (U "/id/") text = true ->
  exists name,
    segment_after (U "/id/") text = Ret name
    /\ (startswith (py_strip name) (U "http") = false ->
        forall s,
          handle_steam_id net telegram message_text s
          = handle_steam_id net telegram name s).
Proof.
  intros text E1 E2.
  eexists. split; [apply segment_after_run; discriminate|].
  intros Hn s.
  rewrite (handle_id_link net telegram message_text s E1 E2).
  rewrite (handle_plain _ _ _ _ Hn). fold text.
  apply run_io_congr.
  unfold resolve_steam_id. now rewrite py_strip_idempotent.
Qed.

Lemma id_link_is_its_vanity_name_witness :
  @handle_steam_id ascii_env net_down telegram_up
    (U "https://steamcommunity.com/id/gaben/") s0
  = @handle_steam_id ascii_env net_down telegram_up (U "gaben") s0.
Proof.
  destruct (@id_link_is_its_vanity_name ascii_env net_down telegram_up
              (U "https://steamcommunity.com/id/gaben/"))
    as (name & Hname & Hsame).
  - vm_compute. reflexivity.
  - vm_compute. reflexivity.
  - vm_compute in Hname. inversion Hname; subst name.
    apply Hsame. vm_compute. reflexivity.
Defined.

Section HandlerOutcomes.
Context `{PyEnv}.
Variable net : network.
Variable telegram : chat_transport.

Lemma fetch_no_player (steam_id : value) (w : world) :
  no_player (net (length (sent w)) (summaries_request steam_id 10)) ->
  fetch_steam_profile net steam_id w
  = (Ret None,
     World (sent w ++ [summaries_request steam_id 10]) (logged w)).
Proof.
  intros (r & Hr & Hno). unfold fetch_steam_profile.
  unfold bind at 1. unfold send. rewrite Hr.
  destruct (status_code r =? 200) eqn:Hs; [|reflexivity].
  apply Z.eqb_eq in Hs.
  destruct Hno as [Hne | (d & players & Hb & Hp & Hf)]; [contradiction|].
  cbn [negb]. unfold bind at 1. unfold response_field, bind, resp_json.
  rewrite Hb. unfold ret, lift. rewrite Hp, Hf. reflexivity.
Qed.

Lemma fetch_broken (steam_id : value) (w : world) (e : exn) :
  broken_profile_reply
    (net (length (sent w)) (summaries_request steam_id 10)) e ->
  fetch_steam_profile net steam_id w
  = (Raise e,
     World (sent w ++ [summaries_request steam_id 10]) (logged w)).
Proof.
  intros [[Hr ->] | (r & Hr & Hs & Hb & ->)]; unfold fetch_steam_profile;
    unfold bind at 1; unfold send; rewrite Hr; [reflexivity|].
  rewrite Hs. cbn [Z.eqb negb Pos.eqb].
  unfold bind at 1. unfold response_field, bind, resp_json.
  now rewrite Hb.
Qed.

(** The profile request comes first in what [show_profile] sends. *)
Lemma show_profile_first (steam_id : value) (s : session) :
  exists c s' rest,
    show_profile net telegram steam_id s = (c, s')
    /\ sent (pipeline s')
       = sent (pipeline s) ++ summaries_request steam_id 10 :: rest.
Proof.
  destruct (fetch_trace net steam_id (pipeline s))
    as (o & more & lg & E & _).
  destruct o as [[data|]|e].
  - rewrite (show_profile_some _ _ _ _ E).
    set (s1 := Session _ (outbox s) (journal s)).
    assert (Hk : emits (1 + 1) (1 + 1) other_reply not_lookup
                   (bot_bind (send_card telegram (profile data))
                      (fun _ => send_commentary net telegram data))).
    { apply emits_bind; [apply emits_card | intros _].
      apply emits_commentary. }
    destruct (Hk s1) as (c & s' & new & more2 & lg2 & E2 & _ & Hs & _).
    exists c, s', (more ++ more2). split; [exact E2|].
    rewrite Hs. unfold s1. cbn [pipeline sent].
    now rewrite <- app_assoc.
  - rewrite (show_profile_none _ _ _ _ E), send_reply_run.
    eexists _, _, more. split; [reflexivity|]. reflexivity.
  - rewrite (show_profile_raise _ _ _ _ E).
    eexists _, _, more. split; [reflexivity|]. reflexivity.
Qed.

End HandlerOutcomes.

(** X11. A link with ["/profiles/"] (and no ["/id/"]) never triggers a
    lookup of a vanity name.  The path segment after the last
    ["/profiles/"] is taken as the identifier without any check that it is
    numeric: when it is empty the handler sends the not-found reply and no
    request at all; otherwise the first request is the profile request for
    that very segment. *)
Theorem profiles_link_skips_the_lookup `{PyEnv} (net : network)
    (telegram : chat_transport) (message_text : ustr) (s : session) :
  let text := py_strip message_text in
  startswith text (U "http") = true ->
  contains (U "/id/") text = false ->
  contains (U "/profiles/") text = true ->
  exists seg c s' more,
    segment_after (U "/profiles/") text = Ret seg
    /\ handle_steam_id net telegram message_text s = (c, s')
    /\ sent (pipeline s') = sent (pipeline s) ++ more
    /\ Forall not_lookup more
    /\ (seg = [] ->
        more = [] /\ outbox s' = outbox s ++ [not_found_reply])
    /\ (seg <> [] ->
        exists rest, more = summaries_request (VStr seg) 10 :: rest).
Proof.
  intros text E1 E2 E3.
  set (seg := first_piece
                (pieces (U "/")
                   (last_piece (pieces (U "/profiles/") text)))).
  pose proof (handle_profiles_link net telegram message_text s E1 E2 E3)
    as Hh.
  fold text in Hh. fold seg in Hh.
  destruct (emits_after_lookup net telegram (VStr seg) s)
    as (c & s' & new & more & lg & E & Ho & Hs & _ & _ & _ & Hr & _).
  exists seg, c, s', more.
  split; [apply segment_after_run; discriminate|].
  split; [now rewrite Hh|]. split; [exact Hs|]. split; [exact Hr|].
  split.
  - intros Hseg. rewrite Hseg in E. unfold after_lookup in E.
    cbn [py_truthy negb] in E. rewrite send_reply_run in E.
    inversion E; subst s'. cbn [pipeline outbox] in *. split; [|reflexivity].
    rewrite <- (app_nil_r (sent (pipeline s))) in Hs at 1.
    now apply app_inv_head in Hs.
  - intros Hseg. unfold after_lookup in E.
    assert (Ht : py_truthy (VStr seg) = true)
      by (destruct seg; [congruence | reflexivity]).
    rewrite Ht in E. cbn [negb] in E.
    destruct (show_profile_first net telegram (VStr seg) s)
      as (c2 & s2 & rest & E' & Hs').
    rewrite E in E'. inversion E'; subst s2.
    rewrite Hs in Hs'. apply app_inv_head in Hs'. now exists rest.
Qed.

Lemma profiles_link_skips_the_lookup_witness :
  exists c s' rest,
    @handle_steam_id ascii_env net_404 telegram_up
      (U "https://steamcommunity.com/profiles/not-a-number/home") s0
    = (c, s')
    /\ sent (pipeline s')
       = @summaries_request ascii_env (VStr (U "not-a-number")) 10 :: rest.
Proof.
  destruct (@profiles_link_skips_the_lookup ascii_env net_404 telegram_up
              (U "https://steamcommunity.com/profiles/not-a-number/home") s0)
    as (seg & c & s' & more & Hseg & E & Hs & _ & _ & Hfirst).
  - vm_compute. reflexivity.
  - vm_compute. reflexivity.
  - vm_compute. reflexivity.
  - vm_compute in Hseg. inversion Hseg; subst seg.
    destruct Hfirst as (rest & ->); [discriminate|].
    exists c, s', rest. split; [exact E | exact Hs].
Defined.

(** X12. A plain name (not a link, not a numeric identifier) whose lookup
    does not come back resolved with a non-empty identifier — transport
    failure, 4xx/5xx, a body that is not JSON or lacks the fields, "no
    match", or an empty [steamid] — is answered with the not-found reply
    alone: the lookup is the only request, the summaries endpoint is never
    contacted. *)
Theorem failed_lookup_one_reply `{PyEnv} (net : network)
    (telegram : chat_transport) (message_text : ustr) (s : session) :
  let text := py_strip message_text in
  let rp := net (length (sent (pipeline s))) (vanity_request text) in
  startswith text (U "http") = false ->
  numeric_shortcut text = false ->
  (forall r d sid,
     rp = Answered r -> ~ error_status (status_code r) ->
     body r = Some d -> resolved_as d sid -> py_truthy sid = false) ->
  exists lg,
    handle_steam_id net telegram message_text s
    = send_reply telegram not_found_reply
        (Session
           (World (sent (pipeline s) ++ [vanity_request text]) lg)
           (outbox s) (journal s)).
Proof.
  intros text rp E1 E2 Hbad.
  rewrite (handle_plain _ _ _ _ E1). fold text.
  assert (E2' : numeric_shortcut (py_strip text) = false)
    by (unfold text; now rewrite py_strip_idempotent).
  destruct (resolve_vanity_run net text (pipeline s) E2')
    as (v & lg & E & Hsome & _).
  assert (Hst : py_strip text = text)
    by (unfold text; apply py_strip_idempotent).
  rewrite Hst in E, Hsome.
  exists lg. unfold bot_bind. rewrite (run_io_ret _ _ E).
  unfold after_lookup.
  assert (Hv : py_truthy v = false).
  { destruct (none_or_not v) as [->|Hne]; [reflexivity|].
    destruct (Hsome Hne) as (r & d & Hr & He & Hb & Hres).
    exact (Hbad r d v Hr He Hb Hres). }
  now rewrite Hv.
Qed.

Lemma failed_lookup_one_reply_witness :
  exists lg,
    @handle_steam_id ascii_env net_down telegram_up (U " gaben ") s0
    = (Finished tt,
       Session (World [@vanity_request ascii_env (U "gaben")] lg)
         [not_found_reply] []).
Proof.
  destruct (@failed_lookup_one_reply ascii_env net_down telegram_up
              (U " gaben ") s0) as (lg & E).
  - vm_compute. reflexivity.
  - vm_compute. reflexivity.
  - intros r d sid Hr. discriminate Hr.
  - exists lg. rewrite E. reflexivity.
Defined.

(** X13. A numeric identifier whose profile request names no player (a
    status other than 200, or an empty player list) is answered with the
    no-data reply alone; the profile request is the only request, and
    nothing is logged. *)
Theorem unavailable_profile_no_data `{PyEnv} (net : network)
    (telegram : chat_transport) (message_text : ustr) (s : session) :
  let text := py_strip message_text in
  let rq := summaries_request (VStr text) 10 in
  startswith text (U "http") = false ->
  numeric_shortcut text = true ->
  no_player (net (length (sent (pipeline s))) rq) ->
  handle_steam_id net telegram message_text s
  = send_reply telegram no_data_reply
      (Session
         (World (sent (pipeline s) ++ [rq]) (logged (pipeline s)))
         (outbox s) (journal s)).
Proof.
  intros text rq E1 E2 Hno.
  rewrite (handle_numeric net telegram message_text s E1 E2). fold text.
  apply show_profile_none. now apply fetch_no_player.
Qed.

Lemma unavailable_profile_no_data_witness :
  @handle_steam_id ascii_env net_404 telegram_up
    (U "76561198000000001") s0
  = (Finished tt,
     Session
       (World [@summaries_request ascii_env
                 (VStr (U "76561198000000001")) 10] [])
       [no_data_reply] []).
Proof.
  rewrite (@unavailable_profile_no_data ascii_env net_404 telegram_up
             (U "76561198000000001") s0).
  - reflexivity.
  - vm_compute. reflexivity.
  - vm_compute. reflexivity.
  - exists (Response 404 None). split; [reflexivity|].
    left. cbn. discriminate.
Defined.

(** X14. The handler has no exception handler of its own.  When the
    profile request for a numeric identifier fails in transport, or is
    answered with status 200 and a body that is not JSON, the exception
    leaves [handle_steam_id]: no reply is attempted, nothing is logged, and
    the request is not repeated. *)
Theorem broken_profile_request_unanswered `{PyEnv} (net : network)
    (telegram : chat_transport) (message_text : ustr) (s : session)
    (e : exn) :
  let text := py_strip message_text in
  let rq := summaries_request (VStr text) 10 in
  startswith text (U "http") = false ->
  numeric_shortcut text = true ->
  broken_profile_reply (net (length (sent (pipeline s))) rq) e ->
  handle_steam_id net telegram message_text s
  = (Crashed (PipelineError e),
     Session
       (World (sent (pipeline s) ++ [rq]) (logged (pipeline s)))
       (outbox s) (journal s)).
Proof.
  intros text rq E1 E2 Hbroken.
  rewrite (handle_numeric net telegram message_text s E1 E2). fold text.
  apply show_profile_raise. now apply fetch_broken.
Qed.

Lemma broken_profile_request_unanswered_witness :
  @handle_steam_id ascii_env net_down telegram_up
    (U "76561198000000001") s0
  = (Crashed (PipelineError RequestException),
     Session
       (World [@summaries_request ascii_env
                 (VStr (U "76561198000000001")) 10] [])
       [] []).
Proof.
  rewrite (@broken_profile_request_unanswered ascii_env net_down
             telegram_up (U "76561198000000001") s0 RequestException).
  - reflexivity.
  - vm_compute. reflexivity.
  - vm_compute. reflexivity.
  - left. split; reflexivity.
Defined.

(** X15. When the aggregator returns an aggregate for a numeric
    identifier, the profile is a record, the digest can be built and the
    chat transport delivers, the handler sends exactly two replies, in this
    order: the card — a photo with the caption when the profile has a
    non-empty [avatarfull], the caption as text otherwise, with parse mode
    HTML in both cases — and then, without parse mode, the commentary
    followed by a blank line and the digest.  Between the two it sends one
    request, to the text generator, with the digest in the prompt. *)
Theorem card_then_commentary `{PyEnv} (net : network)
    (telegram : chat_transport) (message_text : ustr) (s : session)
    (data : aggregate) (w1 : world) (d : list (ustr * value))
    (digest : ustr) :
  let text := py_strip message_text in
  startswith text (U "http") = false ->
  numeric_shortcut text = true ->
  fetch_steam_profile net (VStr text) (pipeline s) = (Ret (Some data), w1) ->
  profile data = VDict d ->
  hashable (field_or_none d (U "personastate")) = true ->
  simplify_steam_profile data = Ret digest ->
  (forall n m, telegram n m = true) ->
  exists caption comment lg,
    handle_steam_id net telegram message_text s
    = (Finished tt,
       Session
         (World (sent w1 ++ [chat_request digest]) lg)
         (outbox s
          ++ [card_of d caption;
              ReplyText (comment ++ nl ++ nl ++ digest) None])
         (journal s)).
Proof.
  intros text E1 E2 Ef Hp Hh Hd Hup.
  rewrite (handle_numeric net telegram message_text s E1 E2). fold text.
  rewrite (show_profile_some _ _ _ _ Ef). rewrite Hp.
  destruct (send_card_record telegram d Hh) as [caption Hc].
  destruct (llm_message_run net digest w1) as (comment & lg & El & _).
  exists caption, comment, lg.
  unfold bot_bind at 1. rewrite Hc, send_reply_run, Hup.
  cbn [pipeline outbox journal].
  unfold send_commentary. unfold bot_bind at 1. rewrite Hd, run_pure_ret.
  unfold bot_bind at 1.
  erewrite run_io_ret by (cbn [pipeline]; exact El).
  rewrite send_reply_run, Hup. cbn [pipeline outbox journal].
  now rewrite <- app_assoc.
Qed.

Lemma card_then_commentary_witness :
  exists caption comment lg w1,
    @handle_steam_id ascii_env (net_steam_only three_games) telegram_up
      (U "76561198000000001") s0
    = (Finished tt,
       Session
         (World (sent w1
                 ++ [chat_request
                       (U "Steam User:
- Display name: gaben
- Real name: Not specified
- Country: Unknown
- Account created: 09/12/2004

Friends:
- Total friends: 0
- Top friend countries: 

Gaming activity:
- Sample of owned games: 3
- Total playtime (in sample): ~16.9 hours
- Example games: Dota 2, Portal, Ricochet")]) lg)
         [ReplyText caption html;
          ReplyText (comment ++ nl ++ nl
                     ++ U "Steam User:
- Display name: gaben
- Real name: Not specified
- Country: Unknown
- Account created: 09/12/2004

Friends:
- Total friends: 0
- Top friend countries: 

Gaming activity:
- Sample of owned games: 3
- Total playtime (in sample): ~16.9 hours
- Example games: Dota 2, Portal, Ricochet") None]
         []).
Proof.
  destruct (@card_then_commentary ascii_env (net_steam_only three_games)
              telegram_up (U "76561198000000001") s0
              (Aggregate gaben [] three_games)
              (snd (@fetch_steam_profile ascii_env
                      (net_steam_only three_games)
                      (VStr (U "76561198000000001")) w0))
              [(U "personaname", VStr (U "gaben"));
               (U "timecreated", VInt 1094976000)]
              (U "Steam User:
- Display name: gaben
- Real name: Not specified
- Country: Unknown
- Account created: 09/12/2004

Friends:
- Total friends: 0
- Top friend countries: 

Gaming activity:
- Sample of owned games: 3
- Total playtime (in sample): ~16.9 hours
- Example games: Dota 2, Portal, Ricochet"))
    as (caption & comment & lg & E).
  - vm_compute. reflexivity.
  - vm_compute. reflexivity.
  - vm_compute. reflexivity.
  - reflexivity.
  - reflexivity.
  - vm_compute. reflexivity.
  - reflexivity.
  - exists caption, comment, lg. eexists. exact E.
Defined.

(** X16. When the digest cannot be built (a game of the sample without a
    name, for one), [simplify_steam_profile] raises after the card has been
    sent: the user has the card and nothing else, the exception leaves the
    handler, and no request goes to the text generator. *)
Theorem digest_failure_after_card `{PyEnv} (net : network)
    (telegram : chat_transport) (message_text : ustr) (s : session)
    (data : aggregate) (w1 : world) (d : list (ustr * value)) (e : exn) :
  let text := py_strip message_text in
  startswith text (U "http") = false ->
  numeric_shortcut text = true ->
  fetch_steam_profile net (VStr text) (pipeline s) = (Ret (Some data), w1) ->
  profile data = VDict d ->
  hashable (field_or_none d (U "personastate")) = true ->
  simplify_steam_profile data = Raise e ->
  (forall n m, telegram n m = true) ->
  exists caption,
    handle_steam_id net telegram message_text s
    = (Crashed (PipelineError e),
       Session w1 (outbox s ++ [card_of d caption]) (journal s)).
Proof.
  intros text E1 E2 Ef Hp Hh Hd Hup.
  rewrite (handle_numeric net telegram message_text s E1 E2). fold text.
  rewrite (show_profile_some _ _ _ _ Ef). rewrite Hp.
  destruct (send_card_record telegram d Hh) as [caption Hc].
  exists caption.
  unfold bot_bind at 1. rewrite Hc, send_reply_run, Hup.
  cbn [pipeline outbox journal].
  unfold send_commentary. unfold bot_bind at 1. rewrite Hd.
  now rewrite run_pure_raise.
Qed.

Lemma digest_failure_after_card_witness :
  exists caption w1,
    @handle_steam_id ascii_env (net_steam_only [nameless_game]) telegram_up
      (U "76561198000000001") s0
    = (Crashed (PipelineError KeyError),
       Session w1 [ReplyText caption html] []).
Proof.
  destruct (@digest_failure_after_card ascii_env
              (net_steam_only [nameless_game])
              telegram_up (U "76561198000000001") s0
              (Aggregate gaben [] [nameless_game])
              (snd (@fetch_steam_profile ascii_env
                      (net_steam_only [nameless_game])
                      (VStr (U "76561198000000001")) w0))
              [(U "personaname", VStr (U "gaben"));
               (U "timecreated", VInt 1094976000)]
              KeyError)
    as (caption & E).
  - vm_compute. reflexivity.
  - vm_compute. reflexivity.
  - vm_compute. reflexivity.
  - reflexivity.
  - reflexivity.
  - vm_compute. reflexivity.
  - reflexivity.
  - exists caption. eexists. exact E.
Defined.

(* ================================================================== *)
(** ** The bootstrap: [load_model_if_needed] *)

Section BootstrapFacts.
Variable net : network.
Variable iter_lines : response -> outcome unit.

(** The entries are read up to the first one that decides. *)
Lemma any_named_skip (model_name : ustr) (pre rest : list value) :
  Forall (named_otherwise model_name) pre ->
  any_named model_name (pre ++ rest) = any_named model_name rest.
Proof.
  induction 1 as [|m pre (v & Hv & Hne) _ IH]; [reflexivity|].
  cbn [app any_named]. rewrite Hv. cbn [obind].
  destruct v; try exact IH.
  unfold ustr_eqb. destruct (ustr_eq_dec model_name s) as [->|_];
    [congruence | exact IH].
Qed.

Lemma any_named_hit (model_name : ustr) (m : value) (post : list value) :
  py_getitem m (U "name") = Ret (VStr model_name) ->
  any_named model_name (m :: post) = Ret true.
Proof.
  intros Hm. cbn [any_named]. rewrite Hm. cbn [obind].
  unfold ustr_eqb. now destruct (ustr_eq_dec model_name model_name).
Qed.

Lemma any_named_raise (model_name : ustr) (m : value) (post : list value)
    (e : exn) :
  py_getitem m (U "name") = Raise e ->
  any_named model_name (m :: post) = Raise e.
Proof. intros Hm. cbn [any_named]. now rewrite Hm. Qed.

Lemma tags_serve_functional (rp : reply) (ms ms' : list value) :
  tags_serve rp ms -> tags_serve rp ms' -> ms = ms'.
Proof.
  intros (r & d & models & Hr & _ & Hb & Hm & Hi)
         (r' & d' & models' & Hr' & _ & Hb' & Hm' & Hi').
  congruence.
Qed.

(** The first [try] block, case by case. *)
Lemma model_listed_run (model_name : ustr) (s : session) :
  let rp := net (length (sent (pipeline s))) tags_request in
  exists b notes,
    model_listed net model_name s
    = (Finished b,
       Session
         (World (sent (pipeline s) ++ [tags_request]) (logged (pipeline s)))
         (outbox s) (journal s ++ notes))
    /\ (b = true ->
        listed rp model_name /\ notes = [already_loaded_note model_name])
    /\ (b = false ->
        ~ listed rp model_name
        /\ (notes = [] \/ exists e, notes = [check_failed_note e]))
    /\ (forall ms e,
          tags_serve rp ms -> any_named model_name ms = Raise e ->
          notes = [check_failed_note e]).
Proof.
  intros rp. unfold model_listed, bot_try.
  unfold bot_bind at 1. unfold run_io at 1. unfold send. fold rp.
  destruct rp as [r|] eqn:Hrp.
  2:{ exists false, [check_failed_note RequestException].
      split; [reflexivity|]. split; [discriminate|].
      assert (Hno : forall ms, ~ tags_serve Failed ms)
        by (intros ms (r & d & models & Hr & _); discriminate).
      split.
      - intros _. split.
        + intros (ms & Hs & _). exact (Hno ms Hs).
        + right. now eexists.
      - intros ms e Hs. now elim (Hno ms). }
  cbn [pipeline outbox journal sent logged].
  destruct (status_code r =? 200) eqn:Hs.
  2:{ exists false, []. rewrite app_nil_r.
      split; [reflexivity|]. split; [discriminate|].
      assert (Hno : forall ms, ~ tags_serve (Answered r) ms).
      { intros ms (r' & d & models & Hr & Hs' & _).
        inversion Hr; subst r'. rewrite Hs' in Hs. discriminate. }
      split.
      - intros _. split.
        + intros (ms & Hs' & _). exact (Hno ms Hs').
        + now left.
      - intros ms e Hs'. now elim (Hno ms). }
  unfold bot_bind at 1. unfold run_io at 1. unfold resp_json.
  cbn [pipeline outbox journal].
  destruct (body r) as [d|] eqn:Hb.
  2:{ exists false, [check_failed_note JSONDecodeError].
      split; [reflexivity|]. split; [discriminate|].
      assert (Hno : forall ms, ~ tags_serve (Answered r) ms).
      { intros ms (r' & d & models & Hr & _ & Hb' & _).
        inversion Hr; subst r'. congruence. }
      split.
      - intros _. split.
        + intros (ms & Hs' & _). exact (Hno ms Hs').
        + right. now eexists.
      - intros ms e Hs'. now elim (Hno ms). }
  unfold ret. cbn [pipeline outbox journal].
  unfold bot_bind at 1. unfold run_pure at 1, run_io at 1, lift.
  cbn [pipeline outbox journal].
  destruct (py_get d (U "models") (VList [])) as [models|e] eqn:Hm.
  2:{ exists false, [check_failed_note e].
      split; [reflexivity|]. split; [discriminate|].
      assert (Hno : forall ms, ~ tags_serve (Answered r) ms).
      { intros ms (r' & d' & models & Hr & _ & Hb' & Hm' & _).
        inversion Hr; subst r'. congruence. }
      split.
      - intros _. split.
        + intros (ms & Hs' & _). exact (Hno ms Hs').
        + right. now eexists.
      - intros ms e' Hs'. now elim (Hno ms). }
  unfold bot_bind at 1. unfold run_pure at 1, run_io at 1, lift.
  cbn [pipeline outbox journal].
  destruct (py_iter models) as [ms|e] eqn:Hi.
  2:{ exists false, [check_failed_note e].
      split; [reflexivity|]. split; [discriminate|].
      assert (Hno : forall ms, ~ tags_serve (Answered r) ms).
      { intros ms (r' & d' & models' & Hr & _ & Hb' & Hm' & Hi').
        inversion Hr; subst r'. congruence. }
      split.
      - intros _. split.
        + intros (ms & Hs' & _). exact (Hno ms Hs').
        + right. now eexists.
      - intros ms e' Hs'. now elim (Hno ms). }
  assert (Hserve : tags_serve (Answered r) ms).
  { exists r, d, models. apply Z.eqb_eq in Hs. auto. }
  unfold bot_bind at 1. unfold run_pure at 1, run_io at 1, lift.
  cbn [pipeline outbox journal].
  destruct (any_named model_name ms) as [[|]|e] eqn:Ha.
  - exists true, [already_loaded_note model_name].
    split; [reflexivity|]. split; [|split; [discriminate|]].
    + intros _. split; [|reflexivity]. now exists ms.
    + intros ms' e Hserve' Ha'.
      rewrite (tags_serve_functional Hserve' Hserve) in Ha'. congruence.
  - exists false, []. rewrite app_nil_r.
    split; [reflexivity|]. split; [discriminate|]. split.
    + intros _. split; [|now left].
      intros (ms' & Hserve' & Ha').
      rewrite (tags_serve_functional Hserve' Hserve) in Ha'. congruence.
    + intros ms' e Hserve' Ha'.
      rewrite (tags_serve_functional Hserve' Hserve) in Ha'. congruence.
  - exists false, [check_failed_note e].
    split; [reflexivity|]. split; [discriminate|]. split.
    + intros _. split; [|right; now eexists].
      intros (ms' & Hserve' & Ha').
      rewrite (tags_serve_functional Hserve' Hserve) in Ha'. congruence.
    + intros ms' e' Hserve' Ha'.
      rewrite (tags_serve_functional Hserve' Hserve) in Ha'. congruence.
Qed.

(** The whole function, case by case. *)
Lemma load_model_run (model_name : ustr) (s : session) :
  let n := length (sent (pipeline s)) in
  let rp := net n tags_request in
  let pulled := pull_result iter_lines (net (S n) (pull_request model_name)) in
  exists c more notes,
    load_model_if_needed net iter_lines model_name s
    = (c,
       Session
         (World (sent (pipeline s) ++ tags_request :: more)
            (logged (pipeline s)))
         (outbox s) (journal s ++ notes))
    /\ ((listed rp model_name
         /\ more = [] /\ c = Finished tt
         /\ notes = [already_loaded_note model_name])
        \/ (~ listed rp model_name
            /\ more = [pull_request model_name]
            /\ exists warned,
                 (warned = [] \/ exists e, warned = [check_failed_note e])
                 /\ match pulled with
                    | Ret _ =>
                        c = Finished tt
                        /\ notes = warned ++ [loading_note model_name;
                                              loaded_note model_name]
                    | Raise e =>
                        c = Crashed (PipelineError e)
                        /\ notes = warned ++ [loading_note model_name;
                                              pull_failed_note model_name e]
                    end
                 /\ forall ms e,
                      tags_serve rp ms ->
                      any_named model_name ms = Raise e ->
                      warned = [check_failed_note e])).
Proof.
  intros n rp pulled. unfold load_model_if_needed.
  destruct (model_listed_run model_name s)
    as (b & warned & E & Ht & Hf & Hraise).
  fold n in E, Ht, Hf, Hraise. fold rp in Ht, Hf, Hraise.
  unfold bot_bind at 1. rewrite E. destruct b.
  - destruct (Ht eq_refl) as [Hl ->].
    exists (Finished tt), [], [already_loaded_note model_name].
    split; [reflexivity|]. left. auto.
  - destruct (Hf eq_refl) as [Hl Hw]. clear Ht Hf E.
    unfold bot_bind at 1. unfold take_note at 1.
    cbn [pipeline outbox journal].
    unfold bot_try. unfold bot_bind at 1. unfold run_io at 1, send.
    cbn [pipeline outbox journal sent logged].
    rewrite length_app. cbn [length]. rewrite Nat.add_1_r. fold n.
    unfold pulled, pull_result.
    destruct (net (S n) (pull_request model_name)) as [r|].
    2:{ eexists _, [pull_request model_name], _.
        split; [unfold bot_bind, take_note; cbn [pipeline outbox journal];
                rewrite <- !app_assoc; reflexivity|].
        right. split; [exact Hl|]. split; [reflexivity|].
        exists warned. split; [exact Hw|]. split; [split; reflexivity|].
        exact Hraise. }
    cbn [pipeline outbox journal].
    unfold bot_bind at 1. unfold run_io at 1, raise_for_status.
    cbn [pipeline outbox journal].
    destruct ((400 <=? status_code r) && (status_code r <? 600)).
    { eexists _, [pull_request model_name], _.
      split; [unfold lift, bot_bind, take_note;
              cbn [pipeline outbox journal];
              rewrite <- !app_assoc; reflexivity|].
      right. split; [exact Hl|]. split; [reflexivity|].
      exists warned. split; [exact Hw|]. split; [split; reflexivity|].
        exact Hraise. }
    unfold ret. cbn [pipeline outbox journal].
    unfold bot_bind at 1. unfold run_pure at 1, run_io at 1, lift.
    cbn [pipeline outbox journal].
    destruct (iter_lines r) as [[]|e].
    + eexists _, [pull_request model_name], _.
      split; [unfold take_note; cbn [pipeline outbox journal];
              rewrite <- !app_assoc; reflexivity|].
      right. split; [exact Hl|]. split; [reflexivity|].
      exists warned. split; [exact Hw|]. split; [split; reflexivity|].
        exact Hraise.
    + eexists _, [pull_request model_name], _.
      split; [unfold bot_bind, take_note; cbn [pipeline outbox journal];
              rewrite <- !app_assoc; reflexivity|].
      right. split; [exact Hl|]. split; [reflexivity|].
      exists warned. split; [exact Hw|]. split; [split; reflexivity|].
        exact Hraise.
Qed.

(** The first [try] block, exactly. *)
Lemma model_listed_exact (model_name : ustr) (s : session) :
  let checked :=
    check_result model_name
      (net (length (sent (pipeline s))) tags_request) in
  model_listed net model_name s
  = (Finished (match checked with Ret true => true | _ => false end),
     Session
       (World (sent (pipeline s) ++ [tags_request]) (logged (pipeline s)))
       (outbox s)
       (journal s
        ++ match checked with
           | Ret true => [already_loaded_note model_name]
           | _ => check_notes checked
           end)).
Proof.
  intros checked. subst checked. unfold check_result.
  unfold model_listed, bot_try.
  unfold bot_bind at 1. unfold run_io at 1. unfold send.
  destruct (net (length (sent (pipeline s))) tags_request) as [r|];
    [|reflexivity].
  cbn [pipeline outbox journal sent logged].
  destruct (status_code r =? 200);
    [|cbn [check_notes]; now rewrite app_nil_r].
  unfold bot_bind at 1. unfold run_io at 1. unfold resp_json.
  cbn [pipeline outbox journal].
  destruct (body r) as [d|]; [|reflexivity].
  unfold ret. cbn [pipeline outbox journal].
  unfold bot_bind at 1. unfold run_pure at 1, run_io at 1, lift.
  cbn [pipeline outbox journal].
  destruct (py_get d (U "models") (VList [])) as [models|e];
    [|reflexivity].
  unfold bot_bind at 1. unfold run_pure at 1, run_io at 1, lift.
  cbn [pipeline outbox journal obind].
  destruct (py_iter models) as [ms|e]; [|reflexivity].
  unfold bot_bind at 1. unfold run_pure at 1, run_io at 1, lift.
  cbn [pipeline outbox journal obind].
  destruct (any_named model_name ms) as [[|]|e]; try reflexivity.
  cbn [check_notes]. now rewrite app_nil_r.
Qed.

(** The check finds the model exactly when the model is listed. *)
Lemma check_result_listed (model_name : ustr) (rp : reply) :
  check_result model_name rp = Ret true <-> listed rp model_name.
Proof.
  unfold check_result, listed, tags_serve. split.
  - destruct rp as [r|]; [|discriminate].
    destruct (status_code r =? 200) eqn:Hs; [|discriminate].
    apply Z.eqb_eq in Hs.
    destruct (body r) as [d|] eqn:Hb; [|discriminate].
    destruct (py_get d (U "models") (VList [])) as [models|] eqn:Hm;
      [|discriminate].
    cbn [obind].
    destruct (py_iter models) as [ms|] eqn:Hi; [|discriminate].
    cbn [obind]. intros Ha.
    exists ms. split; [|exact Ha]. exists r, d, models. auto.
  - intros (ms & (r & d & models & -> & Hs & Hb & Hm & Hi) & Ha).
    rewrite Hs, Hb, Hm. cbn [Z.eqb Pos.eqb obind]. rewrite Hi. exact Ha.
Qed.

(** The whole function, exactly. *)
Lemma load_model_exact (model_name : ustr) (s : session) :
  let n := length (sent (pipeline s)) in
  let checked := check_result model_name (net n tags_request) in
  let pulled := pull_result iter_lines (net (S n) (pull_request model_name)) in
  exists c s',
    load_model_if_needed net iter_lines model_name s = (c, s')
    /\ match checked with
       | Ret true =>
           c = Finished tt
           /\ journal s' = journal s ++ [already_loaded_note model_name]
       | _ =>
           match pulled with
           | Ret _ =>
               c = Finished tt
               /\ journal s'
                  = journal s ++ check_notes checked
                    ++ [loading_note model_name; loaded_note model_name]
           | Raise e =>
               c = Crashed (PipelineError e)
               /\ journal s'
                  = journal s ++ check_notes checked
                    ++ [loading_note model_name;
                        pull_failed_note model_name e]
           end
       end.
Proof.
  intros n checked pulled. unfold load_model_if_needed.
  unfold bot_bind at 1. rewrite model_listed_exact. fold n. fold checked.
  assert (Hpull :
    forall warned,
    exists c s',
      (take_note LOG_INFO
         (U "📥 Загружаем модель: " ++ model_name ++ U "...") None ;;;
       bot_try
         (resp <- run_io (send net (pull_request model_name)) ;;
          run_io (raise_for_status resp) ;;;
          run_pure (iter_lines resp) ;;;
          take_note LOG_INFO
            (U "✅ Модель " ++ model_name ++ U " успешно загружена!") None)
         (fun f =>
            take_note LOG_ERROR
              (U "❌ Ошибка загрузки модели " ++ model_name ++ U ": ")
              (match f with
               | PipelineError e => Some e
               | TelegramError => None
               end) ;;;
            fun s => (Crashed f, s)))%bot
        (Session
           (World (sent (pipeline s) ++ [tags_request]) (logged (pipeline s)))
           (outbox s) (journal s ++ warned))
      = (c, s')
      /\ match pulled with
         | Ret _ =>
             c = Finished tt
             /\ journal s'
                = journal s ++ warned
                  ++ [loading_note model_name; loaded_note model_name]
         | Raise e =>
             c = Crashed (PipelineError e)
             /\ journal s'
                = journal s ++ warned
                  ++ [loading_note model_name; pull_failed_note model_name e]
         end).
  { intros warned.
    unfold bot_bind at 1. unfold take_note at 1.
    cbn [pipeline outbox journal].
    unfold bot_try. unfold bot_bind at 1. unfold run_io at 1, send.
    cbn [pipeline outbox journal sent logged].
    rewrite length_app. cbn [length]. rewrite Nat.add_1_r. fold n.
    unfold pulled, pull_result.
    destruct (net (S n) (pull_request model_name)) as [r|].
    2:{ eexists _, _. split; [reflexivity|].
        unfold bot_bind, take_note. cbn [pipeline outbox journal].
        split; [reflexivity|]. now rewrite <- !app_assoc. }
    cbn [pipeline outbox journal].
    unfold bot_bind at 1. unfold run_io at 1, raise_for_status.
    cbn [pipeline outbox journal].
    destruct ((400 <=? status_code r) && (status_code r <? 600)).
    { eexists _, _. split; [reflexivity|].
      unfold lift, bot_bind, take_note. cbn [pipeline outbox journal].
      split; [reflexivity|]. now rewrite <- !app_assoc. }
    unfold ret. cbn [pipeline outbox journal].
    unfold bot_bind at 1. unfold run_pure at 1, run_io at 1, lift.
    cbn [pipeline outbox journal].
    destruct (iter_lines r) as [[]|e].
    - eexists _, _. split; [reflexivity|].
      unfold take_note. cbn [pipeline outbox journal].
      split; [reflexivity|]. now rewrite <- !app_assoc.
    - eexists _, _. split; [reflexivity|].
      unfold bot_bind, take_note. cbn [pipeline outbox journal].
      split; [reflexivity|]. now rewrite <- !app_assoc. }
  destruct checked as [[|]|e].
  - eexists _, _. split; [reflexivity|]. cbn [journal]. auto.
  - cbn [check_notes]. destruct (Hpull []) as (c & s' & E & Hc).
    exists c, s'. split; [exact E|]. exact Hc.
  - cbn [check_notes]. destruct (Hpull [check_failed_note e])
      as (c & s' & E & Hc).
    exists c, s'. split; [exact E|]. exact Hc.
Qed.

End BootstrapFacts.

(** X17. [load_model_if_needed] sends the tags request first, and the
    pull request exactly when the model is not found among the tags —
    which includes every way the check can fail: transport failure, a
    status other than 200, a body that is not JSON or not of the expected
    shape.  A failed check never ends the function.  When the pull is
    attempted, its outcome is the outcome of the function: a transport
    failure, a 4xx/5xx status and a failure while the body is read are
    raised again to the caller. *)
Theorem model_pulled_unless_listed (net : network)
    (iter_lines : response -> outcome unit) (model_name : ustr)
    (s : session) :
  let n := length (sent (pipeline s)) in
  let rp := net n tags_request in
  let pulled := pull_result iter_lines (net (S n) (pull_request model_name)) in
  exists c s' more,
    load_model_if_needed net iter_lines model_name s = (c, s')
    /\ sent (pipeline s') = sent (pipeline s) ++ tags_request :: more
    /\ logged (pipeline s') = logged (pipeline s)
    /\ outbox s' = outbox s
    /\ ((listed rp model_name /\ more = [] /\ c = Finished tt)
        \/ (~ listed rp model_name
            /\ more = [pull_request model_name]
            /\ c = match pulled with
                   | Ret _ => Finished tt
                   | Raise e => Crashed (PipelineError e)
                   end)).
Proof.
  intros n rp pulled.
  destruct (load_model_run net iter_lines model_name s)
    as (c & more & notes & E & Hcases).
  fold n in Hcases. fold rp in Hcases. fold pulled in Hcases.
  eexists c, _, more. split; [exact E|].
  cbn [pipeline outbox sent logged].
  split; [reflexivity|]. split; [reflexivity|]. split; [reflexivity|].
  destruct Hcases as [(Hl & Hm & Hc & _) | (Hl & Hm & warned & _ & Hp & _)].
  - left. auto.
  - right. split; [exact Hl|]. split; [exact Hm|].
    destruct pulled; tauto.
Qed.

(** X18. The journal of [load_model_if_needed], exactly.  When the check
    finds the model — which is when the model is listed — the function
    finishes with one INFO record, "already loaded".  In every other case
    it writes: one WARNING carrying the exception when the check raised
    (nothing when the check ended without finding the model), the INFO
    record of the download, and then the INFO record of success when the
    pull succeeds, or one ERROR record carrying the exception of the pull,
    before that exception is raised again.  No failure of the pull goes
    unrecorded, and the "already loaded" record is never written when the
    pull is attempted. *)
Theorem load_model_journal (net : network)
    (iter_lines : response -> outcome unit) (model_name : ustr)
    (s : session) :
  let n := length (sent (pipeline s)) in
  let checked := check_result model_name (net n tags_request) in
  let pulled := pull_result iter_lines (net (S n) (pull_request model_name)) in
  (checked = Ret true <-> listed (net n tags_request) model_name)
  /\ exists c s',
       load_model_if_needed net iter_lines model_name s = (c, s')
       /\ match checked with
          | Ret true =>
              c = Finished tt
              /\ journal s' = journal s ++ [already_loaded_note model_name]
          | _ =>
              match pulled with
              | Ret _ =>
                  c = Finished tt
                  /\ journal s'
                     = journal s ++ check_notes checked
                       ++ [loading_note model_name; loaded_note model_name]
              | Raise e =>
                  c = Crashed (PipelineError e)
                  /\ journal s'
                     = journal s ++ check_notes checked
                       ++ [loading_note model_name;
                           pull_failed_note model_name e]
              end
          end.
Proof.
  intros n checked pulled.
  split; [apply check_result_listed|].
  exact (load_model_exact net iter_lines model_name s).
Qed.

(** X19. The tags are read entry by entry, up to the first entry that
    decides.  Past entries with other names, an entry that bears the name
    of the model ends the check — later entries are not looked at, however
    malformed — and no pull is sent; an entry without a name makes the
    check raise, and the pull is sent even when the model is listed further
    on. *)
Theorem first_deciding_entry (net : network)
    (iter_lines : response -> outcome unit) (model_name : ustr)
    (s : session) (pre post : list value) (m : value) :
  let n := length (sent (pipeline s)) in
  tags_serve (net n tags_request) (pre ++ m :: post) ->
  Forall (named_otherwise model_name) pre ->
  exists c s',
    load_model_if_needed net iter_lines model_name s = (c, s')
    /\ (py_getitem m (U "name") = Ret (VStr model_name) ->
        sent (pipeline s') = sent (pipeline s) ++ [tags_request]
        /\ c = Finished tt)
    /\ (forall e,
          py_getitem m (U "name") = Raise e ->
          sent (pipeline s')
          = sent (pipeline s) ++ [tags_request; pull_request model_name]
          /\ exists rest,
               journal s'
               = journal s ++ check_failed_note e :: rest).
Proof.
  intros n Hserve Hpre.
  destruct (load_model_run net iter_lines model_name s)
    as (c & more & notes & E & Hcases).
  fold n in Hcases.
  eexists c, _. split; [exact E|].
  cbn [pipeline sent journal].
  pose proof (@any_named_skip model_name pre (m :: post) Hpre) as Hskip.
  split.
  - intros Hm. rewrite (@any_named_hit model_name m post Hm) in Hskip.
    destruct Hcases as [(_ & -> & -> & _) | (Hl & _)]; [auto|].
    elim Hl. now exists (pre ++ m :: post).
  - intros e Hm. rewrite (@any_named_raise model_name m post e Hm) in Hskip.
    destruct Hcases
      as [((ms & Hs' & Ha) & _) | (Hl & -> & warned & Hw & Hp & Hraise)].
    + rewrite (tags_serve_functional Hs' Hserve) in Ha. congruence.
    + split; [reflexivity|].
      rewrite (Hraise _ e Hserve Hskip) in Hp.
      destruct (pull_result iter_lines _) as [u|e']; destruct Hp as [_ ->];
        eexists; reflexivity.
Qed.

Lemma first_deciding_entry_witness :
  exists c s' rest,
    load_model_if_needed net_nameless_first lines_ok (U "phi3:mini") s0
    = (c, s')
    /\ sent (pipeline s') = [tags_request; pull_request (U "phi3:mini")]
    /\ journal s' = check_failed_note KeyError :: rest.
Proof.
  destruct (@first_deciding_entry net_nameless_first lines_ok
              (U "phi3:mini") s0 [] [model_entry (U "phi3:mini")]
              (VDict []))
    as (c & s' & E & _ & Hraise).
  - exists (Response 200
              (Some (tags_body [VDict []; model_entry (U "phi3:mini")]))),
      (tags_body [VDict []; model_entry (U "phi3:mini")]),
      (VList [VDict []; model_entry (U "phi3:mini")]).
    split; [vm_compute; reflexivity|].
    split; [reflexivity|]. split; [reflexivity|].
    split; reflexivity.
  - constructor.
  - destruct (Hraise KeyError eq_refl) as (Hs & rest & Hj).
    exists c, s', rest. split; [exact E|]. split; [exact Hs | exact Hj].
Defined.

(* ================================================================== *)
(** ** The tally and the degraded digest *)

Lemma count_up_total (c : value) (fc : list (value * Z)) :
  total_count (count_up c fc) = total_count fc + 1.
Proof.
  induction fc as [|[k n] fc IH]; cbn [count_up total_count fold_right snd].
  - lia.
  - destruct (key_eqb c k); cbn [total_count fold_right snd].
    + fold (total_count fc). lia.
    + fold (total_count (count_up c fc)). fold (total_count fc). lia.
Qed.

Lemma count_up_positive (c : value) (fc : list (value * Z)) :
  Forall (fun item => 1 <= snd item) fc ->
  Forall (fun item => 1 <= snd item) (count_up c fc).
Proof.
  induction 1 as [|[k n] fc Hk Hfc IH]; cbn [count_up].
  - constructor; [cbn; lia | constructor].
  - cbn [snd] in Hk. destruct (key_eqb c k).
    + constructor; [cbn; lia | exact Hfc].
    + constructor; [exact Hk | exact IH].
Qed.

Lemma tally_total (fs : list value) :
  forall acc fc,
    tally fs acc = Ret fc ->
    total_count fc = total_count acc + Z.of_nat (length fs)
    /\ (Forall (fun item => 1 <= snd item) acc ->
        Forall (fun item => 1 <= snd item) fc).
Proof.
  induction fs as [|f fs IH]; intros acc fc E.
  - cbn in E. inversion E; subst. split; [cbn; lia | auto].
  - cbn [tally] in E.
    destruct (py_get f (U "loccountrycode") (VStr (U "??"))) as [c|e];
      [|discriminate].
    cbn [obind] in E. destruct (hashable c); [|discriminate].
    destruct (IH _ _ E) as [Hsum Hpos]. split.
    + rewrite Hsum, count_up_total. cbn [length]. lia.
    + intros Hacc. apply Hpos. now apply count_up_positive.
Qed.

(** X20. Whenever the country tally of [simplify_steam_profile] is built,
    every friend is counted exactly once: the counts add up to the number
    of friends (friends without a country code are counted under ["??"]),
    and every country of the tally has a count of at least 1.  So with five
    countries or fewer, the counts of the breakdown add up to the total the
    digest prints. *)
Theorem tally_counts_every_friend (fs : list value)
    (fc : list (value * Z)) :
  tally fs [] = Ret fc ->
  total_count fc = Z.of_nat (length fs)
  /\ Forall (fun item => 1 <= snd item) fc.
Proof.
  intros E. destruct (tally_total _ _ E) as [Hsum Hpos].
  split; [exact Hsum | apply Hpos; constructor].
Qed.

Lemma tally_counts_every_friend_witness :
  exists fc,
    tally twelve_friends [] = Ret fc
    /\ total_count fc = 12
    /\ Forall (fun item => 1 <= snd item) fc.
Proof.
  eexists. split; [vm_compute; reflexivity|].
  apply (@tally_counts_every_friend twelve_friends).
  vm_compute. reflexivity.
Defined.

(** X21. The aggregator and the summarizer together on a profile whose
    friends and games cannot be fetched: when the profile request serves a
    profile record (with a creation time that can be shown) and the two
    requests that follow, for the friend list and for the owned games, do
    not deliver, a digest is still
    produced: it shows the profile fields, 0 friends, an empty country
    breakdown, a sample of 0 games, ~0.0 hours and no example games. *)
Theorem degraded_profile_digest `{PyEnv} (net : network) (steam_id : value)
    (w : world) (d : list (ustr * value)) (rest : list value) :
  serves (net (length (sent w)) (summaries_request steam_id 10))
    (U "response") (U "players") (VList (VDict d :: rest)) ->
  created_ok d = true ->
  unsuccessful
    (net (length (sent w) + 1)%nat (friend_list_request steam_id)) ->
  unsuccessful
    (net (length (sent w) + 2)%nat (owned_games_request steam_id)) ->
  exists w',
    fetch_steam_profile net steam_id w
    = (Ret (Some (Aggregate (VDict d) [] [])), w')
    /\ sent w'
       = sent w ++ [summaries_request steam_id 10;
                    friend_list_request steam_id;
                    owned_games_request steam_id]
    /\ simplify_steam_profile (Aggregate (VDict d) [] [])
       = Ret (bare_digest d)
    /\ format_1f (Float false 0 0) = U "0.0".
Proof.
  intros Hp Hc Hf Hg.
  rewrite (fetch_steam_profile_served _ _ _ Hp).
  set (w1 := World _ _).
  assert (Hf1 : unsuccessful
                  (net (length (sent w1)) (friend_list_request steam_id))).
  { unfold w1. cbn [sent]. rewrite length_app. exact Hf. }
  destruct (@fetch_friends_degrades _ net steam_id w1 Hf1) as [lg1 Ef].
  unfold bind at 1. rewrite Ef.
  set (w2 := World _ lg1).
  assert (Hg2 : unsuccessful
                  (net (length (sent w2)) (owned_games_request steam_id))).
  { unfold w2, w1. cbn [sent]. rewrite !length_app. cbn [length].
    now rewrite <- Nat.add_assoc. }
  destruct (@fetch_games_degrades _ net steam_id w2 Hg2) as [lg2 Eg].
  unfold bind at 1. rewrite Eg. unfold ret.
  eexists. split; [reflexivity|].
  split; [cbn [sent w1 w2]; now rewrite <- !app_assoc|].
  split; [|vm_compute; reflexivity].
  unfold simplify_steam_profile, bare_digest.
  cbn [profile friends owned_games_sample py_get obind].
  rewrite (created_str_text d Hc).
  cbn [obind tally sum_playtime firstn omap length].
  change (py_truediv 0 60) with (Ret (Float false 0 0)).
  cbn [obind]. unfold py_join. cbn [omap obind join].
  now rewrite !shown_or.
Qed.

Lemma degraded_profile_digest_witness :
  exists w',
    @fetch_steam_profile ascii_env net_profile_only
      (VStr (U "76561198000000001")) w0
    = (Ret (Some (Aggregate gaben [] [])), w')
    /\ @simplify_steam_profile ascii_env (Aggregate gaben [] [])
       = Ret (U "Steam User:
- Display name: gaben
- Real name: Not specified
- Country: Unknown
- Account created: 09/12/2004

Friends:
- Total friends: 0
- Top friend countries: 

Gaming activity:
- Sample of owned games: 0
- Total playtime (in sample): ~0.0 hours
- Example games: ").
Proof.
  destruct (@degraded_profile_digest ascii_env net_profile_only
              (VStr (U "76561198000000001")) w0
              [(U "personaname", VStr (U "gaben"));
               (U "timecreated", VInt 1094976000)] [])
    as (w' & E & _ & Hd & _).
  - exists (Response 200 (Some (players_body [gaben]))), (players_body [gaben]).
    split; [reflexivity|]. split; [reflexivity|].
    split; [reflexivity|]. vm_compute. reflexivity.
  - vm_compute. reflexivity.
  - left. reflexivity.
  - left. reflexivity.
  - exists w'. split; [exact E|].
    etransitivity; [exact Hd | vm_compute; reflexivity].
Defined.
